(** * CRUW backend: a shallow embedding of the route handlers of [index.js]

    The service is an Express application over a MongoDB document store.
    Each handler validates its input, converts identifiers to the driver's
    [ObjectId], issues one or a few store operations and maps the outcome to
    an HTTP status and a JSON body.

    The embedding follows the source handler by handler:
    - request bodies, documents and response bodies are JavaScript values
      ([value]); objects are association lists in insertion order;
    - the handlers run in a state-and-exception monad over a [world] that
      holds the collections, the clock, the identifier counter and a log of
      the store operations issued so far;
    - what the service imports and does not define (the driver's [ObjectId],
      the [Date] parser, bcrypt, the token signer, the BSON sort order, the
      store's decision to reject an insert and its reading of query
      operators) is a [Runtime] record; the
      theorems hold for every runtime, and [demoRuntime] is a concrete one
      on which the handlers can be evaluated. *)

From stdpp Require Import base strings gmap.
From Stdlib Require Import ZArith NArith Ascii String List Bool Lia Sorting.Sorted.
Import ListNotations.
Open Scope string_scope.
Open Scope Z_scope.

(** ** JavaScript values *)

(** Numbers are restricted to integers; a [Date] carries its time value in
    milliseconds since the epoch, [None] being the invalid date (NaN). *)
#[warnings="-register-all"]
Inductive value : Type :=
| VUndef
| VNull
| VBool (b : bool)
| VNum (n : Z)
| VStr (s : string)
| VOid (hex : string)
| VDate (t : option Z)
| VArr (xs : list value)
| VObj (fields : list (string * value)).

Definition opt_Z_eqb (a b : option Z) : bool :=
  match a, b with
  | Some x, Some y => Z.eqb x y
  | None, None => true
  | _, _ => false
  end.

(** Structural equality of values; the store compares fields with it. *)
Fixpoint value_eqb (a b : value) {struct a} : bool :=
  match a, b with
  | VUndef, VUndef => true
  | VNull, VNull => true
  | VBool x, VBool y => Bool.eqb x y
  | VNum x, VNum y => Z.eqb x y
  | VStr x, VStr y => String.eqb x y
  | VOid x, VOid y => String.eqb x y
  | VDate x, VDate y => opt_Z_eqb x y
  | VArr xs, VArr ys =>
      (fix go (l1 l2 : list value) {struct l1} : bool :=
         match l1, l2 with
         | [], [] => true
         | x :: l1', y :: l2' => value_eqb x y && go l1' l2'
         | _, _ => false
         end) xs ys
  | VObj fs, VObj gs =>
      (fix go (l1 l2 : list (string * value)) {struct l1} : bool :=
         match l1, l2 with
         | [], [] => true
         | (k, x) :: l1', (k', y) :: l2' =>
             String.eqb k k' && value_eqb x y && go l1' l2'
         | _, _ => false
         end) fs gs
  | _, _ => false
  end.

(** [!v] is true exactly on the falsy values. *)
Definition truthy (v : value) : bool :=
  match v with
  | VUndef | VNull => false
  | VBool b => b
  | VNum n => negb (Z.eqb n 0)
  | VStr s => negb (String.eqb s "")
  | _ => true
  end.

Definition falsy (v : value) : bool := negb (truthy v).

(** *** Objects *)

Fixpoint assoc (k : string) (fs : list (string * value)) : option value :=
  match fs with
  | [] => None
  | (k', v) :: fs' => if String.eqb k k' then Some v else assoc k fs'
  end.

(** [o.k]: a missing property, and any property we read of a string, a
    number or an array, is [undefined]. Reading a property of [undefined]
    or [null] throws; the handlers test the object before every such read,
    except for the calls of [toString], which [toString] below models. *)
Definition get (k : string) (o : value) : value :=
  match o with
  | VObj fs => match assoc k fs with Some v => v | None => VUndef end
  | _ => VUndef
  end.

Definition has_key (k : string) (o : value) : bool :=
  match o with
  | VObj fs => match assoc k fs with Some _ => true | None => false end
  | _ => false
  end.

Fixpoint remove_assoc (k : string) (fs : list (string * value))
  : list (string * value) :=
  match fs with
  | [] => []
  | (k', v) :: fs' =>
      if String.eqb k k' then remove_assoc k fs' else (k', v) :: remove_assoc k fs'
  end.

(** Assignment of one property in an object literal or a spread: an
    existing key keeps its position and takes the new value, a new key goes
    to the end. An object has each key once; the tail is cleaned so that
    this holds of the result whatever the list was. *)
Fixpoint set_assoc (k : string) (v : value) (fs : list (string * value))
  : list (string * value) :=
  match fs with
  | [] => [(k, v)]
  | (k', v') :: fs' =>
      if String.eqb k k' then (k, v) :: remove_assoc k fs'
      else (k', v') :: set_assoc k v fs'
  end.

(** [{...src}]: the own properties of an object; nothing for the other
    values that a JSON body can be. Strings and arrays would spread their
    indices; a body that passed the handler's field checks is an object. *)
Definition spread (src : value) : list (string * value) :=
  match src with
  | VObj fs => fs
  | _ => []
  end.

(** [{...src, k1: v1, ..., kn: vn}] *)
Definition spread_with (src : value) (kvs : list (string * value)) : value :=
  VObj (fold_left (fun acc kv => set_assoc (fst kv) (snd kv) acc) kvs (spread src)).

Definition keys (o : value) : list string :=
  match o with
  | VObj fs => map fst fs
  | _ => []
  end.

(** Dotted path lookup, as in the filter ['assignedTo.id']. *)
Fixpoint get_path (path : list string) (o : value) : value :=
  match path with
  | [] => o
  | k :: rest => get_path rest (get k o)
  end.

(** An object literal [{k1: v1, ..., kn: vn}]. *)
Definition object (kvs : list (string * value)) : value := spread_with (VObj []) kvs.

(** ** Exceptions *)

Inductive error : Type :=
| TypeError (message : string)
| RangeError (message : string)
| BSONError (message : string)
| MongoServerError (code : Z) (message : string)
| OtherError (message : string).

Definition err_message (e : error) : string :=
  match e with
  | TypeError m | RangeError m | BSONError m | MongoServerError _ m | OtherError m => m
  end.

(** [error.code === 11000] *)
Definition is_duplicate_key (e : error) : bool :=
  match e with
  | MongoServerError c _ => Z.eqb c 11000
  | _ => false
  end.

(** [error instanceof RangeError || error instanceof TypeError] *)
Definition is_range_or_type_error (e : error) : bool :=
  match e with
  | TypeError _ | RangeError _ => true
  | _ => false
  end.

Inductive outcome (A : Type) : Type :=
| Ok (a : A)
| Throw (e : error).
Arguments Ok {A} a.
Arguments Throw {A} e.

(** ** What the service imports *)

(** The functions of the driver, of the language runtime and of the hashing
    and token libraries that the handlers call, and the decisions of the
    store that are not the service's: whether an insert is rejected
    (unique indexes, duplicate [_id]), how two values of a sort key
    compare, and what a filter made of query operators selects. *)
Class Runtime : Type := {
  (** [new ObjectId(v)]: the identifier in hexadecimal, or the exception *)
  ObjectId_new : value -> outcome string;
  (** [ObjectId.isValid(v)] *)
  ObjectId_isValid : value -> bool;
  (** the identifier the driver generates for the [n]-th inserted document *)
  ObjectId_generate : N -> string;
  (** the time value of [new Date(v)], [None] for the invalid date *)
  Date_parse : value -> option Z;
  (** [String(v)], as a template literal computes it *)
  String_of : value -> string;
  (** [bcrypt.genSalt(rounds)], from the entropy the world supplies *)
  bcrypt_genSalt : Z -> N -> string;
  (** [bcrypt.hash(data, salt)] *)
  bcrypt_hash : value -> string -> outcome string;
  (** [bcrypt.compare(data, hash)] *)
  bcrypt_compare : value -> value -> outcome bool;
  (** [jwt.sign(payload, secret, {expiresIn})] *)
  jwt_sign : value -> string -> string -> string;
  (** [process.env.JWT_SECRET] *)
  jwtSecret : string;
  (** the store refuses the insertion of a document into a collection *)
  insert_rejected : string -> list value -> value -> option error;
  (** the BSON order of two sort keys, ascending *)
  bson_le : value -> value -> bool;
  (** the filter [{path: ops}] for an object [ops] of query operators
      ([{$ne: null}], [{$gt: ''}], ...): the documents it selects, or the
      error with which the store refuses it *)
  operator_filter : list string -> list (string * value) -> outcome (value -> bool)
}.

(** ** The world of a handler *)

Inductive store_op : Type :=
| OpFindOne (collection : string)
| OpFind (collection : string)
| OpInsertOne (collection : string)
| OpAggregate (collection : string).

Abbreviation database := (gmap string (list value)).

Record world : Type := mkWorld {
  db : database;        (* [app.locals.db]: the collections by name *)
  clock : Z;            (* the time value [new Date()] reads *)
  counter : N;          (* identifiers and salts drawn so far *)
  oplog : list store_op (* store operations issued, oldest first *)
}.

Definition documents (name : string) (d : database) : list value :=
  match d !! name with
  | Some docs => docs
  | None => []
  end.

(** ** The handler monad: state and exceptions *)

Definition M (A : Type) : Type := world -> outcome A * world.

Definition ret {A} (a : A) : M A := fun w => (Ok a, w).

Definition throw {A} (e : error) : M A := fun w => (Throw e, w).

Definition bind {A B} (m : M A) (k : A -> M B) : M B :=
  fun w =>
    match m w with
    | (Ok a, w') => k a w'
    | (Throw e, w') => (Throw e, w')
    end.

Notation "x <- m ;; k" := (bind m (fun x => k))
  (at level 100, m at next level, right associativity).

(** [try { m } catch (error) { h error }] *)
Definition try_catch {A} (m : M A) (h : error -> M A) : M A :=
  fun w =>
    match m w with
    | (Ok a, w') => (Ok a, w')
    | (Throw e, w') => h e w'
    end.

Definition lift {A} (o : outcome A) : M A := fun w => (o, w).

Fixpoint mapM {A B} (f : A -> M B) (l : list A) : M (list B) :=
  match l with
  | [] => ret []
  | x :: l' => y <- f x ;; ys <- mapM f l' ;; ret (y :: ys)
  end.

Definition log_op (op : store_op) : M unit :=
  fun w => (Ok tt, mkWorld (db w) (clock w) (counter w) (oplog w ++ [op])).

Definition draw : M N :=
  fun w => (Ok (counter w), mkWorld (db w) (clock w) (N.succ (counter w)) (oplog w)).

(** [new Date()] *)
Definition Date_now : M value := fun w => (Ok (VDate (Some (clock w))), w).

(** ** Dates *)

Definition msPerDay : Z := 86400000.
Definition maxTime : Z := 8640000000000000.

(** The abstract operations of ECMAScript that [setUTCHours] is made of. *)
Definition Day (t : Z) : Z := t / msPerDay.
Definition MakeTime (h m s ms : Z) : Z := h * 3600000 + m * 60000 + s * 1000 + ms.
Definition MakeDate (day time : Z) : Z := day * msPerDay + time.
Definition TimeClip (t : Z) : option Z :=
  if Z.abs t <=? maxTime then Some t else None.

(** [d.setUTCHours(h, m, s, ms)]: the new time value of [d]. *)
Definition setUTCHours (h m s ms : Z) (d : option Z) : option Z :=
  match d with
  | None => None
  | Some t => TimeClip (MakeDate (Day t) (MakeTime h m s ms))
  end.

(** ** The document store *)

(** The time value the driver writes for a date: a BSON date is a 64-bit
    integer, and the invalid date, whose time value is [NaN], is written
    as 0. *)
Definition wire_time (t : option Z) : Z :=
  match t with
  | Some x => x
  | None => 0
  end.

(** What the driver writes for a JavaScript value: [undefined] becomes
    [null] (the driver's default, [ignoreUndefined: false]) and a date its
    time value on the wire. *)
Fixpoint to_bson (v : value) : value :=
  match v with
  | VUndef => VNull
  | VDate t => VDate (Some (wire_time t))
  | VArr xs => VArr (map to_bson xs)
  | VObj fs => VObj (map (fun kv => (fst kv, to_bson (snd kv))) fs)
  | _ => v
  end.

(** A missing field reads as [null] in filters, group keys and sort keys. *)
Definition field (path : list string) (doc : value) : value :=
  match get_path path doc with
  | VUndef => VNull
  | v => v
  end.

(** The filter [{path: v}] for a [v] that is a value to compare with (an
    identifier, a string, a date): the field equals [v], or is an array
    with an element equal to [v]. A [v] that comes from a request body may
    be an object of query operators instead, which the store interprets:
    the handler that passes one goes through [filter_by] below. *)
Definition field_is (path : list string) (v : value) (doc : value) : bool :=
  let f := field path doc in
  value_eqb f v
  || match f with
     | VArr xs => existsb (fun x => value_eqb x v) xs
     | _ => false
     end.

(** The filter [{path: {$in: vs}}]. *)
Definition field_in (path : list string) (vs : list value) (doc : value) : bool :=
  existsb (fun v => field_is path v doc) vs.

(** The filter [{date: {$gte: lo, $lte: hi}}] for two dates: the field is a
    date between the two, bounds included. The bounds go over the wire as
    every date does, an invalid one as the time value 0. *)
Definition date_between (lo hi : option Z) (doc : value) : bool :=
  match field ["date"] doc with
  | VDate (Some t) => (wire_time lo <=? t) && (t <=? wire_time hi)
  | _ => false
  end.

Definition assign (k : string) (v : value) (o : value) : value :=
  match o with
  | VObj fs => VObj (set_assoc k v fs)
  | _ => o
  end.

(** The projection [{k: 0}]. *)
Definition without (k : string) (doc : value) : value :=
  match doc with
  | VObj fs => VObj (remove_assoc k fs)
  | _ => doc
  end.

(** The projection [{k: 1}]: [_id] and [k]. *)
Definition only (k : string) (doc : value) : value :=
  match doc with
  | VObj fs =>
      VObj (filter (fun kv => String.eqb (fst kv) "_id" || String.eqb (fst kv) k) fs)
  | _ => doc
  end.

Definition put_collection (name : string) (docs : list value) : M unit :=
  fun w => (Ok tt, mkWorld (<[name := docs]> (db w)) (clock w) (counter w) (oplog w)).

Definition read_collection (name : string) : M (list value) :=
  fun w => (Ok (documents name (db w)), w).

(** [collection.find(q, {projection}).toArray()] *)
Definition find (name : string) (q : value -> bool) (proj : value -> value)
  : M (list value) :=
  _ <- log_op (OpFind name) ;;
  docs <- read_collection name ;;
  ret (map proj (filter q docs)).

(** [collection.findOne(q, {projection})]: the first match, or [null]. *)
Definition findOne (name : string) (q : value -> bool) (proj : value -> value)
  : M value :=
  _ <- log_op (OpFindOne name) ;;
  docs <- read_collection name ;;
  ret (match filter q docs with
       | [] => VNull
       | d :: _ => proj d
       end).

(** ** Aggregation stages *)

(** [$group: {_id: '$k', count: {$sum: 1}}], the groups in the order in
    which their keys first occur. *)
Fixpoint bump (key : value) (groups : list (value * Z)) : list (value * Z) :=
  match groups with
  | [] => [(key, 1)]
  | (k, n) :: rest =>
      if value_eqb k key then (k, n + 1) :: rest else (k, n) :: bump key rest
  end.

Definition groups_of (key : value -> value) (docs : list value) : list (value * Z) :=
  fold_left (fun acc d => bump (key d) acc) docs [].

Definition group_count (k : string) (docs : list value) : list value :=
  map (fun g => VObj [("_id", fst g); ("count", VNum (snd g))])
      (groups_of (field [k]) docs).

(** [$sort]: the documents in an order that [le] accepts. The store fixes
    no order among documents that compare equal; the model inserts from
    the right and keeps them as they came. *)
Fixpoint insert_sorted (le : value -> value -> bool) (x : value) (l : list value)
  : list value :=
  match l with
  | [] => [x]
  | y :: l' => if le x y then x :: y :: l' else y :: insert_sorted le x l'
  end.

Definition sort_docs (le : value -> value -> bool) (docs : list value) : list value :=
  fold_right (insert_sorted le) [] docs.

Definition num (v : value) : Z :=
  match v with
  | VNum n => n
  | _ => 0
  end.

(** [$unwind: '$k']: one document per element of the array, none for an
    empty array or a missing field. *)
Definition unwind (k : string) (docs : list value) : list value :=
  flat_map (fun d =>
              match get k d with
              | VArr xs => map (fun x => assign k x d) xs
              | VUndef | VNull => []
              | _ => [d]
              end) docs.

(** [$project: {k1: '$path1', ...}]: a field whose path is missing is left
    out of the result. *)
Definition project (spec : list (string * list string)) (doc : value) : value :=
  VObj (flat_map (fun kp =>
                    match get_path (snd kp) doc with
                    | VUndef => []
                    | v => [(fst kp, v)]
                    end) spec).

(** ** Responses *)

Record response : Type := mkResponse {
  status : Z;
  body : value
}.

(** [res.status(code).json(body)] *)
Definition json (code : Z) (b : value) : M response := ret (mkResponse code b).

Definition message (text : string) : value := VObj [("message", VStr text)].

Definition failure (text : string) (e : error) : value :=
  VObj [("message", VStr text); ("error", VStr (err_message e))].

Fixpoint chars (s : string) : list value :=
  match s with
  | EmptyString => []
  | String c s' => VStr (String c EmptyString) :: chars s'
  end.

(** The elements [for (const x of v)] visits. *)
Definition for_of (v : value) : M (list value) :=
  match v with
  | VArr xs => ret xs
  | VStr s => ret (chars s)
  | _ => throw (TypeError "value is not iterable")
  end.

(** [v.map(f)] *)
Definition array_map (f : value -> M value) (v : value) : M value :=
  match v with
  | VArr xs => ys <- mapM f xs ;; ret (VArr ys)
  | _ => throw (TypeError "map is not a function")
  end.

(** ** The route handlers

    A handler is entered only once [startServer] has assigned
    [app.locals.db] (the server listens after the assignment), so the
    [if (!db)] guard that opens every handler never fires and the model
    starts after it. *)

Section Handlers.

Context {RT : Runtime}.

(** [new ObjectId(v)] as a value. *)
Definition new_ObjectId (v : value) : M value :=
  hex <- lift (ObjectId_new v) ;; ret (VOid hex).

(** [new Date(v)] *)
Definition new_Date (v : value) : value := VDate (Date_parse v).

(** [v.toString()] *)
Definition toString (v : value) : M string :=
  match v with
  | VUndef | VNull => throw (TypeError "Cannot read properties of undefined (reading 'toString')")
  | VStr s => ret s
  | VOid hex => ret hex
  | _ => ret (String_of v)
  end.

(** The text of [v] in a template literal. *)
Definition interpolate (v : value) : string :=
  match v with
  | VStr s => s
  | _ => String_of v
  end.

(** Whether the store reads [v], in the place of a value of a filter, as
    query operators: an object whose first key starts with [$]. *)
Definition is_operator_object (v : value) : bool :=
  match v with
  | VObj ((String "$" _, _) :: _) => true
  | _ => false
  end.

(** The filter [{path: v}] for a [v] that the caller of the service
    chooses: the store's reading of the operators when [v] is an object of
    them, [field_is] otherwise. *)
Definition filter_by (path : list string) (v : value) : outcome (value -> bool) :=
  match v with
  | VObj ops => if is_operator_object v then operator_filter path ops
                else Ok (field_is path v)
  | _ => Ok (field_is path v)
  end.

(** [collection.findOne({path: v})] for such a [v]: the first match, or
    [null], or the store's refusal of the filter. *)
Definition findOne_by (name : string) (path : list string) (v : value) : M value :=
  _ <- log_op (OpFindOne name) ;;
  q <- lift (filter_by path v) ;;
  docs <- read_collection name ;;
  ret (match filter q docs with
       | [] => VNull
       | d :: _ => d
       end).

(** [collection.insertOne(doc)]: the driver gives the document an [_id]
    when it has none, the store accepts or rejects it, and an accepted
    document is appended to the collection. The result is the document as
    the caller sees it afterwards, [_id] included. *)
Definition insertOne (name : string) (doc : value) : M value :=
  _ <- log_op (OpInsertOne name) ;;
  doc' <- match get "_id" doc with
          | VUndef | VNull => n <- draw ;; ret (assign "_id" (VOid (ObjectId_generate n)) doc)
          | _ => ret doc
          end ;;
  docs <- read_collection name ;;
  match insert_rejected name docs (to_bson doc') with
  | Some e => throw e
  | None => _ <- put_collection name (docs ++ [to_bson doc']) ;; ret doc'
  end.

(** [collection.aggregate(pipeline).toArray()], the pipeline being a
    function of the store (for [$lookup]) and of the collection. *)
Definition aggregate (name : string) (pipeline : database -> list value -> list value)
  : M (list value) :=
  _ <- log_op (OpAggregate name) ;;
  fun w => (Ok (pipeline (db w) (documents name (db w))), w).

(** [$lookup: {from, localField, foreignField, as}] *)
Definition lookup (d : database) (from : string) (localField foreignField as_ : string)
  (docs : list value) : list value :=
  map (fun doc =>
         assign as_
           (VArr (filter (fun f => value_eqb (field [foreignField] f) (field [localField] doc))
                         (documents from d)))
           doc) docs.

(** *** POST /api/habits *)
Definition post_habits (newHabitData : value) : M response :=
  if falsy newHabitData || falsy (get "title" newHabitData)
     || falsy (get "createdBy" newHabitData) || falsy (get "assignedTo" newHabitData)
     || falsy (get "schedule" newHabitData)
  then json 400 (message "Missing required habit data (title, createdBy, assignedTo, or schedule).")
  else
    let assignedTo := get "assignedTo" newHabitData in
    if falsy (get "type" assignedTo) || falsy (get "id" assignedTo)
    then json 400 (message "Invalid assignedTo format.")
    else
      try_catch
        (if negb (ObjectId_isValid (get "createdBy" newHabitData))
            || negb (ObjectId_isValid (get "id" assignedTo))
         then json 400 (message "Invalid ID format for createdBy or assignedTo.id.")
         else
           createdBy <- new_ObjectId (get "createdBy" newHabitData) ;;
           assignedId <- new_ObjectId (get "id" assignedTo) ;;
           createdAt <- Date_now ;;
           let habitToInsert :=
             spread_with newHabitData
               [("createdBy", createdBy);
                ("assignedTo", object [("type", get "type" assignedTo); ("id", assignedId)]);
                ("createdAt", createdAt)] in
           inserted <- insertOne "habits" habitToInsert ;;
           json 201 (object [("message", VStr "Habit created successfully!");
                             ("insertedId", get "_id" inserted);
                             ("insertedHabit", inserted)]))
        (fun error => json 500 (failure "Failed to create habit." error)).

(** *** POST /api/users *)
Definition post_users (newUserData : value) : M response :=
  if falsy newUserData || falsy (get "username" newUserData)
     || falsy (get "email" newUserData) || falsy (get "password" newUserData)
  then json 400 (message "Missing required user data (username, email, password).")
  else
    try_catch
      (let saltRounds := 10 in
       n <- draw ;;
       let salt := bcrypt_genSalt saltRounds n in
       hashedPassword <- lift (bcrypt_hash (get "password" newUserData) salt) ;;
       createdAt <- Date_now ;;
       let userToInsert :=
         object [("username", get "username" newUserData);
                 ("email", get "email" newUserData);
                 ("password", VStr hashedPassword);
                 ("createdAt", createdAt)] in
       inserted <- insertOne "users" userToInsert ;;
       json 201 (object [("message", VStr "User created successfully!");
                         ("insertedId", get "_id" inserted);
                         ("username", get "username" userToInsert);
                         ("email", get "email" userToInsert)]))
      (fun error =>
         if is_duplicate_key error
         then json 409 (message "User with that email or username already exists.")
         else json 500 (failure "Failed to create user." error)).

(** *** POST /api/auth/login *)
Definition post_login (reqBody : value) : M response :=
  match reqBody with
  (* [const { email, password } = req.body], before the [try] *)
  | VUndef =>
      throw (TypeError "Cannot destructure property 'email' of 'req.body' as it is undefined.")
  | VNull =>
      throw (TypeError "Cannot destructure property 'email' of 'req.body' as it is null.")
  | _ =>
      let email := get "email" reqBody in
      let password := get "password" reqBody in
      if falsy email || falsy password
      then json 400 (message "Missing email or password.")
      else
        try_catch
          (user <- findOne_by "users" ["email"] email ;;
           if falsy user
           then json 401 (message "Invalid email or password.")
           else
             isMatch <- lift (bcrypt_compare password (get "password" user)) ;;
             if negb isMatch
             then json 401 (message "Invalid email or password.")
             else
               let token :=
                 jwt_sign (object [("id", get "_id" user); ("username", get "username" user)])
                          jwtSecret "1h" in
               json 200 (object [("message", VStr "Login successful!"); ("token", VStr token)]))
          (fun error => json 500 (failure "An error occurred during login." error))
  end.

(** *** POST /api/groups *)
Definition post_groups (newGroupData : value) : M response :=
  if falsy newGroupData || falsy (get "name" newGroupData)
     || falsy (get "ownerId" newGroupData)
  then json 400 (message "Missing required group data (name, ownerId).")
  else
    try_catch
      (if negb (ObjectId_isValid (get "ownerId" newGroupData))
       then json 400 (message ("Invalid ownerId format: "
                               ++ interpolate (get "ownerId" newGroupData)))
       else
         ownerId <- new_ObjectId (get "ownerId" newGroupData) ;;
         memberIds <- (if truthy (get "memberIds" newGroupData)
                       then array_map new_ObjectId (get "memberIds" newGroupData)
                       else owner <- new_ObjectId (get "ownerId" newGroupData) ;;
                            ret (VArr [owner])) ;;
         createdAt <- Date_now ;;
         let groupToInsert :=
           object [("name", get "name" newGroupData);
                   ("description", get "description" newGroupData);
                   ("ownerId", ownerId);
                   ("memberIds", memberIds);
                   ("createdAt", createdAt)] in
         invalid <- (if truthy (get "memberIds" newGroupData)
                     then ids <- for_of (get "memberIds" newGroupData) ;;
                          ret (List.find (fun id => negb (ObjectId_isValid id)) ids)
                     else ret None) ;;
         match invalid with
         | Some id => json 400 (message ("Invalid memberId format: " ++ interpolate id))
         | None =>
             inserted <- insertOne "groups" groupToInsert ;;
             json 201 (object [("message", VStr "Group created successfully!");
                               ("insertedId", get "_id" inserted);
                               ("insertedGroup", inserted)])
         end)
      (fun error =>
         if is_duplicate_key error
         then json 409 (message "Group name already exists.")
         else json 500 (failure "Failed to create group." error)).

(** The [catch] of the handlers that take a date. *)
Definition date_catch (text400 text500 : string) (error : error) : M response :=
  if is_range_or_type_error error
  then json 400 (message text400)
  else json 500 (failure text500 error).

(** *** POST /api/userHabitEntries *)
Definition post_userHabitEntries (newEntryData : value) : M response :=
  if falsy newEntryData || falsy (get "habitId" newEntryData)
     || falsy (get "userId" newEntryData) || falsy (get "date" newEntryData)
     || falsy (get "status" newEntryData)
  then json 400 (message "Missing required entry data (habitId, userId, date, or status).")
  else
    try_catch
      (if negb (ObjectId_isValid (get "habitId" newEntryData))
          || negb (ObjectId_isValid (get "userId" newEntryData))
       then json 400 (message "Invalid ID format for habitId or userId.")
       else
         habitId <- new_ObjectId (get "habitId" newEntryData) ;;
         userId <- new_ObjectId (get "userId" newEntryData) ;;
         let entryToInsert :=
           object [("habitId", habitId);
                   ("userId", userId);
                   ("date", new_Date (get "date" newEntryData));
                   ("status", get "status" newEntryData);
                   ("notes", get "notes" newEntryData)] in
         inserted <- insertOne "userHabitEntries" entryToInsert ;;
         json 201 (object [("message", VStr "User habit entry created successfully!");
                           ("insertedId", get "_id" inserted);
                           ("insertedEntry", inserted)]))
      (date_catch "Invalid date format provided." "Failed to create user habit entry.").

(** *** POST /api/groupHabitEntries *)
Definition post_groupHabitEntries (newEntryData : value) : M response :=
  if falsy newEntryData || falsy (get "habitId" newEntryData)
     || falsy (get "groupId" newEntryData) || falsy (get "date" newEntryData)
  then json 400 (message "Missing required entry data (habitId, groupId, or date).")
  else
    try_catch
      (if negb (ObjectId_isValid (get "habitId" newEntryData))
          || negb (ObjectId_isValid (get "groupId" newEntryData))
       then json 400 (message "Invalid ID format for habitId or groupId.")
       else
         invalid <- (if truthy (get "checkedBy" newEntryData)
                     then ids <- for_of (get "checkedBy" newEntryData) ;;
                          ret (List.find (fun id => negb (ObjectId_isValid id)) ids)
                     else ret None) ;;
         match invalid with
         | Some id => json 400 (message ("Invalid checkedBy ID format: " ++ interpolate id))
         | None =>
             habitId <- new_ObjectId (get "habitId" newEntryData) ;;
             groupId <- new_ObjectId (get "groupId" newEntryData) ;;
             checkedBy <- (if truthy (get "checkedBy" newEntryData)
                           then array_map new_ObjectId (get "checkedBy" newEntryData)
                           else ret (VArr [])) ;;
             let entryToInsert :=
               object [("habitId", habitId);
                       ("groupId", groupId);
                       ("date", new_Date (get "date" newEntryData));
                       ("checkedBy", checkedBy);
                       ("notes", if truthy (get "notes" newEntryData)
                                 then get "notes" newEntryData else VObj [])] in
             inserted <- insertOne "groupHabitEntries" entryToInsert ;;
             json 201 (object [("message", VStr "Group habit entry created successfully!");
                               ("insertedId", get "_id" inserted);
                               ("insertedEntry", inserted)])
         end)
      (date_catch "Invalid date format provided." "Failed to create group habit entry.").

(** *** GET /api/users/:userId/habits *)
Definition get_user_habits (userId : string) : M response :=
  if falsy (VStr userId)
  then json 400 (message "Missing user ID in parameters.")
  else
    try_catch
      (if negb (ObjectId_isValid (VStr userId))
       then json 400 (message "Invalid user ID format.")
       else
         userObjectId <- new_ObjectId (VStr userId) ;;
         personalHabits <-
           find "habits"
                (fun d => field_is ["createdBy"] userObjectId d
                          || (field_is ["assignedTo"; "id"] userObjectId d
                              && field_is ["assignedTo"; "type"] (VStr "user") d))
                id ;;
         json 200 (VArr personalHabits))
      (fun error => json 500 (failure "Failed to fetch personal habits." error)).

(** *** GET /api/users/:userId/groups *)
Definition get_user_groups (userId : string) : M response :=
  if falsy (VStr userId)
  then json 400 (message "Missing user ID in parameters.")
  else
    try_catch
      (if negb (ObjectId_isValid (VStr userId))
       then json 400 (message "Invalid user ID format.")
       else
         userObjectId <- new_ObjectId (VStr userId) ;;
         userGroups <- find "groups" (field_is ["memberIds"] userObjectId) id ;;
         json 200 (VArr userGroups))
      (fun error => json 500 (failure "Failed to fetch user groups." error)).

(** The filter of the habits assigned to a group. *)
Definition assigned_to_group (groupObjectId : value) (d : value) : bool :=
  field_is ["assignedTo"; "type"] (VStr "group") d
  && field_is ["assignedTo"; "id"] groupObjectId d.

(** *** GET /api/groups/:groupId/habits *)
Definition get_group_habits (groupId : string) : M response :=
  if falsy (VStr groupId)
  then json 400 (message "Missing group ID in parameters.")
  else
    try_catch
      (if negb (ObjectId_isValid (VStr groupId))
       then json 400 (message "Invalid group ID format.")
       else
         groupObjectId <- new_ObjectId (VStr groupId) ;;
         groupHabits <- find "habits" (assigned_to_group groupObjectId) id ;;
         json 200 (VArr groupHabits))
      (fun error => json 500 (failure "Failed to fetch group habits." error)).

(** [new Date(dateString); .setUTCHours(0, 0, 0, 0)] *)
Definition startOfDay (dateString : string) : option Z :=
  setUTCHours 0 0 0 0 (Date_parse (VStr dateString)).

(** [new Date(dateString); .setUTCHours(23, 59, 59, 999)] *)
Definition endOfDay (dateString : string) : option Z :=
  setUTCHours 23 59 59 999 (Date_parse (VStr dateString)).

(** The filter [{owner: oid, date: {$gte: startOfDay, $lte: endOfDay}}]. *)
Definition on_day (owner : string) (oid : value) (dateString : string) (d : value) : bool :=
  field_is [owner] oid d && date_between (startOfDay dateString) (endOfDay dateString) d.

(** *** GET /api/users/:userId/habitEntries/:date *)
Definition get_user_habitEntries (userId dateString : string) : M response :=
  if falsy (VStr userId) || falsy (VStr dateString)
  then json 400 (message "Missing user ID or date in parameters.")
  else
    try_catch
      (if negb (ObjectId_isValid (VStr userId))
       then json 400 (message "Invalid user ID format.")
       else
         userObjectId <- new_ObjectId (VStr userId) ;;
         entries <- find "userHabitEntries" (on_day "userId" userObjectId dateString) id ;;
         json 200 (VArr entries))
      (date_catch "Invalid date format provided. Use YYYY-MM-DD."
                  "Failed to fetch user habit entries.").

(** *** GET /api/groups/:groupId/habitEntries/:date *)
Definition get_group_habitEntries (groupId dateString : string) : M response :=
  if falsy (VStr groupId) || falsy (VStr dateString)
  then json 400 (message "Missing group ID or date in parameters.")
  else
    try_catch
      (if negb (ObjectId_isValid (VStr groupId))
       then json 400 (message "Invalid group ID format.")
       else
         groupObjectId <- new_ObjectId (VStr groupId) ;;
         entries <- find "groupHabitEntries" (on_day "groupId" groupObjectId dateString) id ;;
         json 200 (VArr entries))
      (date_catch "Invalid date format provided. Use YYYY-MM-DD."
                  "Failed to fetch group habit entries.").

(** *** GET /api/groups/:groupId/members/completion/:date *)

(** [userCompletionCounts] is a plain object, [{}]: besides the keys the
    loop gives it, it answers to the names it inherits from
    [Object.prototype], with a function (an accessor for [__proto__]) that
    is neither falsy nor a [Set]. *)
Definition inherited_names : list string :=
  ["constructor"; "__defineGetter__"; "__defineSetter__"; "hasOwnProperty";
   "__lookupGetter__"; "__lookupSetter__"; "isPrototypeOf"; "propertyIsEnumerable";
   "toString"; "valueOf"; "__proto__"; "toLocaleString"].

Definition inherited (k : string) : bool :=
  existsb (String.eqb k) inherited_names.

(** The body of [completedEntries.forEach]: [userCompletionCounts] maps a
    user identifier to the set of habit identifiers seen for it. Under an
    inherited name no set is made, since what is found there is truthy,
    and [.add] is not a function. *)
Definition record_completion (userCompletionCounts : gmap string (gset string))
  (entry : value) : M (gmap string (gset string)) :=
  userIdString <- toString (get "userId" entry) ;;
  habitIdString <- toString (get "habitId" entry) ;;
  match userCompletionCounts !! userIdString with
  | Some seen => ret (<[userIdString := seen ∪ {[habitIdString]}]> userCompletionCounts)
  | None =>
      if inherited userIdString
      then throw (TypeError "userCompletionCounts[userIdString].add is not a function")
      else ret (<[userIdString := ∅ ∪ {[habitIdString]}]> userCompletionCounts)
  end.

Fixpoint forEach {A} (f : A -> value -> M A) (acc : A) (l : list value) : M A :=
  match l with
  | [] => ret acc
  | x :: l' => acc' <- f acc x ;; forEach f acc' l'
  end.

(** The callback of [members.map]: the size of the member's set, 0 when
    there is nothing under the member's key, and [undefined], the [size]
    of what is inherited, under an inherited name. *)
Definition with_completion (userCompletionCounts : gmap string (gset string))
  (totalGroupHabits : Z) (member : value) : M value :=
  memberIdString <- toString (get "_id" member) ;;
  let completedCount := match userCompletionCounts !! memberIdString with
                        | Some s => VNum (Z.of_nat (size s))
                        | None => if inherited memberIdString then VUndef else VNum 0
                        end in
  ret (spread_with member [("completedGroupHabits", completedCount);
                           ("totalGroupHabits", VNum totalGroupHabits)]).

(** [{_id: {$in: memberIds}}]; the store refuses an [$in] that is not an
    array. *)
Definition in_ids (memberIds : value) : M (value -> bool) :=
  match memberIds with
  | VArr ids => ret (field_in ["_id"] ids)
  | _ => throw (MongoServerError 2 "$in needs an array")
  end.

Definition get_group_completion (groupId dateString : string) : M response :=
  if falsy (VStr groupId) || falsy (VStr dateString)
  then json 400 (message "Missing group ID or date in parameters.")
  else
    try_catch
      (if negb (ObjectId_isValid (VStr groupId))
       then json 400 (message "Invalid group ID format.")
       else
         groupObjectId <- new_ObjectId (VStr groupId) ;;
         group <- findOne "groups" (field_is ["_id"] groupObjectId) id ;;
         if falsy group
         then json 404 (message "Group not found.")
         else
           let memberIds := get "memberIds" group in
           _ <- log_op (OpFind "users") ;;
           isMember <- in_ids memberIds ;;
           allUsers <- read_collection "users" ;;
           let members := map (without "password") (filter isMember allUsers) in
           groupHabits <- find "habits" (assigned_to_group groupObjectId) id ;;
           let totalGroupHabits := Z.of_nat (length groupHabits) in
           completedEntries <-
             find "groupHabitEntries" (on_day "groupId" groupObjectId dateString) id ;;
           userCompletionCounts <- forEach record_completion ∅ completedEntries ;;
           membersWithCompletion <-
             mapM (with_completion userCompletionCounts totalGroupHabits) members ;;
           json 200 (VArr membersWithCompletion))
      (date_catch "Invalid date format provided. Use YYYY-MM-DD."
                  "Failed to fetch group members with completion status.").

(** *** GET /api/users/:userId/mostLoggedHabit *)

(** [$sort: {count: -1}] *)
Definition by_count (a b : value) : bool :=
  num (get "count" b) <=? num (get "count" a).

(** [$sort: {count: -1, 'habitDetails.createdAt': 1}] *)
Definition by_count_then_createdAt (a b : value) : bool :=
  (num (get "count" b) <? num (get "count" a))
  || ((num (get "count" a) =? num (get "count" b))
      && bson_le (field ["habitDetails"; "createdAt"] a)
                 (field ["habitDetails"; "createdAt"] b)).

(** The [$project] stage of the pipeline. *)
Definition top_projection : list (string * list string) :=
  [("_id", ["habitDetails"; "_id"]);
   ("title", ["habitDetails"; "title"]);
   ("completionCount", ["count"])].

Definition mostLogged_pipeline (userObjectId : value) (d : database)
  (entries : list value) : list value :=
  let matched := filter (field_is ["userId"] userObjectId) entries in
  let grouped := group_count "habitId" matched in
  let sorted := sort_docs by_count grouped in
  let joined := lookup d "habits" "_id" "_id" "habitDetails" sorted in
  let unwound := unwind "habitDetails" joined in
  let resorted := sort_docs by_count_then_createdAt unwound in
  let top := firstn 1 resorted in
  map (project top_projection) top.

Definition get_mostLoggedHabit (userId : string) : M response :=
  if falsy (VStr userId)
  then json 400 (message "Missing user ID in parameters.")
  else
    try_catch
      (if negb (ObjectId_isValid (VStr userId))
       then json 400 (message "Invalid user ID format.")
       else
         userObjectId <- new_ObjectId (VStr userId) ;;
         result <- aggregate "userHabitEntries" (mostLogged_pipeline userObjectId) ;;
         match result with
         | top :: _ => json 200 top
         | [] => json 404 (message "No logged habits found for this user.")
         end)
      (fun error => json 500 (failure "Failed to fetch most logged habit." error)).

(** *** GET /api/users/:userId/createdAt *)
Definition get_user_createdAt (userId : string) : M response :=
  if falsy (VStr userId)
  then json 400 (message "Missing user ID in parameters.")
  else
    try_catch
      (if negb (ObjectId_isValid (VStr userId))
       then json 400 (message "Invalid user ID format.")
       else
         userObjectId <- new_ObjectId (VStr userId) ;;
         user <- findOne "users" (field_is ["_id"] userObjectId) (only "createdAt") ;;
         if truthy user
         then json 200 (object [("createdAt", get "createdAt" user)])
         else json 404 (message "User not found."))
      (fun error => json 500 (failure "Failed to fetch user creation date." error)).

(** ** Requests *)

(** The routes that take an identifier in the path. *)
Inductive id_route : Type :=
| UserHabits
| UserGroups
| GroupHabits
| UserHabitEntries (date : string)
| GroupHabitEntries (date : string)
| GroupCompletion (date : string)
| MostLoggedHabit
| UserCreatedAt.

Inductive request : Type :=
| PostHabits (reqBody : value)
| PostUsers (reqBody : value)
| PostLogin (reqBody : value)
| PostGroups (reqBody : value)
| PostUserHabitEntries (reqBody : value)
| PostGroupHabitEntries (reqBody : value)
| GetById (route : id_route) (param : string).

Definition handle_id (route : id_route) (param : string) : M response :=
  match route with
  | UserHabits => get_user_habits param
  | UserGroups => get_user_groups param
  | GroupHabits => get_group_habits param
  | UserHabitEntries date => get_user_habitEntries param date
  | GroupHabitEntries date => get_group_habitEntries param date
  | GroupCompletion date => get_group_completion param date
  | MostLoggedHabit => get_mostLoggedHabit param
  | UserCreatedAt => get_user_createdAt param
  end.

Definition handle (r : request) : M response :=
  match r with
  | PostHabits b => post_habits b
  | PostUsers b => post_users b
  | PostLogin b => post_login b
  | PostGroups b => post_groups b
  | PostUserHabitEntries b => post_userHabitEntries b
  | PostGroupHabitEntries b => post_groupHabitEntries b
  | GetById route param => handle_id route param
  end.

(** Requests served one after the other; the responses, oldest first. *)
Fixpoint serve (rs : list request) (w : world) : list response * world :=
  match rs with
  | [] => ([], w)
  | r :: rs' =>
      match handle r w with
      | (Ok resp, w') => let (resps, w'') := serve rs' w' in (resp :: resps, w'')
      | (Throw _, w') => serve rs' w'
      end
  end.

End Handlers.

(** ** A concrete runtime

    Identifiers are the strings of 24 hexadecimal digits, dates are read
    from calendar-day text [YYYY-MM-DD] (midnight UTC of that day) or from
    a number of milliseconds, the hash is a toy that reverses the password
    behind the salt, and the store rejects a second user with the same
    email or username, a second group with the same name and a second
    document with the same [_id]. *)

Module Demo.

Definition is_hex (c : ascii) : bool :=
  let n := nat_of_ascii c in
  ((48 <=? n) && (n <=? 57) || (65 <=? n) && (n <=? 70) || (97 <=? n) && (n <=? 102))%nat.

Definition lower (c : ascii) : ascii :=
  let n := nat_of_ascii c in
  if ((65 <=? n) && (n <=? 70))%nat then ascii_of_nat (n + 32) else c.

Fixpoint all_hex (s : string) : bool :=
  match s with
  | EmptyString => true
  | String c s' => is_hex c && all_hex s'
  end.

Fixpoint lowercase (s : string) : string :=
  match s with
  | EmptyString => EmptyString
  | String c s' => String (lower c) (lowercase s')
  end.

Definition hex24 (s : string) : bool :=
  Nat.eqb (String.length s) 24 && all_hex s.

Definition oid_new (v : value) : outcome string :=
  match v with
  | VStr s => if hex24 s then Ok (lowercase s)
              else Throw (BSONError "input must be a 24 character hex string")
  | VOid hex => Ok hex
  | VUndef | VNull => Ok "eeeeeeeeeeeeeeeeeeeeeeee" (* a generated identifier *)
  | _ => Throw (BSONError "input must be a 24 character hex string")
  end.

Definition oid_isValid (v : value) : bool :=
  match v with
  | VStr s => hex24 s
  | VOid _ => true
  | _ => false
  end.

Definition hex_digit (n : N) : ascii :=
  ascii_of_N (if (n <? 10)%N then 48 + n else 87 + n)%N.

Fixpoint hex_fixed (width : nat) (n : N) (acc : string) : string :=
  match width with
  | O => acc
  | S w => hex_fixed w (n / 16)%N (String (hex_digit (n mod 16)%N) acc)
  end.

(** Generated identifiers start with [f], typed ones in the examples do not. *)
Definition oid_generate (n : N) : string :=
  String "f" (hex_fixed 23 n EmptyString).

Definition digit (c : ascii) : option Z :=
  let n := nat_of_ascii c in
  if ((48 <=? n) && (n <=? 57))%nat then Some (Z.of_nat n - 48) else None.

Fixpoint digits (s : string) (acc : Z) : option Z :=
  match s with
  | EmptyString => Some acc
  | String c s' =>
      match digit c with
      | Some d => digits s' (acc * 10 + d)
      | None => None
      end
  end.

(** Days since 1970-01-01 of a day of the proleptic Gregorian calendar. *)
Definition days_from_civil (y m d : Z) : Z :=
  let y' := if m <=? 2 then y - 1 else y in
  let era := y' / 400 in
  let yoe := y' - era * 400 in
  let doy := (153 * (if 2 <? m then m - 3 else m + 9) + 2) / 5 + d - 1 in
  let doe := yoe * 365 + yoe / 4 - yoe / 100 + doy in
  era * 146097 + doe - 719468.

Definition days_in_month (y m : Z) : Z :=
  if m =? 2
  then if ((y mod 4 =? 0) && negb (y mod 100 =? 0)) || (y mod 400 =? 0) then 29 else 28
  else if (m =? 4) || (m =? 6) || (m =? 9) || (m =? 11) then 30 else 31.

Definition parse_day (s : string) : option Z :=
  if Nat.eqb (String.length s) 10
     && String.eqb (substring 4 1 s) "-" && String.eqb (substring 7 1 s) "-"
  then
    match digits (substring 0 4 s) 0, digits (substring 5 2 s) 0, digits (substring 8 2 s) 0 with
    | Some y, Some m, Some d =>
        if (1 <=? m) && (m <=? 12) && (1 <=? d) && (d <=? days_in_month y m)
        then Some (days_from_civil y m d * msPerDay)
        else None
    | _, _, _ => None
    end
  else None.

Definition date_parse (v : value) : option Z :=
  match v with
  | VStr s => parse_day s
  | VNum n => TimeClip n
  | VDate t => t
  | _ => None
  end.

Definition string_of (v : value) : string :=
  match v with
  | VUndef => "undefined"
  | VNull => "null"
  | VBool true => "true"
  | VBool false => "false"
  | VStr s => s
  | VOid hex => hex
  | _ => "[object Object]"
  end.

Fixpoint reverse (s : string) (acc : string) : string :=
  match s with
  | EmptyString => acc
  | String c s' => reverse s' (String c acc)
  end.

Definition genSalt (rounds : Z) (n : N) : string :=
  "$2a$10$" ++ hex_fixed 8 n EmptyString.

Definition hash (data : value) (salt : string) : outcome string :=
  match data with
  | VStr p => Ok (salt ++ reverse p EmptyString)
  | _ => Throw (OtherError "Illegal arguments")
  end.

Definition compare_hash (data stored : value) : outcome bool :=
  match data, stored with
  | VStr p, VStr h =>
      Ok (String.eqb (substring 15 (String.length h - 15) h) (reverse p EmptyString))
  | _, _ => Throw (OtherError "Illegal arguments")
  end.

Definition sign (payload : value) (secret expiresIn : string) : string :=
  "jwt." ++ string_of (get "id" payload) ++ "." ++ expiresIn.

Definition same (k : string) (doc other : value) : bool :=
  value_eqb (get k doc) (get k other).

Definition rejected (name : string) (docs : list value) (doc : value) : option error :=
  let clash :=
    existsb (fun other =>
               same "_id" doc other
               || (String.eqb name "users" && (same "email" doc other || same "username" doc other))
               || (String.eqb name "groups" && same "name" doc other)) docs in
  if clash then Some (MongoServerError 11000 "E11000 duplicate key error") else None.

(** The place of a value's type in the BSON order, and its place within
    the type for the types that are numbers at heart. *)
Definition bson_rank (v : value) : Z * Z :=
  match v with
  | VUndef | VNull => (1, 0)
  | VNum n => (2, n)
  | VStr _ => (3, 0)
  | VObj _ => (4, 0)
  | VArr _ => (5, 0)
  | VOid _ => (7, 0)
  | VBool b => (8, if b then 1 else 0)
  | VDate (Some t) => (9, t)
  | VDate None => (9, 0)
  end.

Definition le (a b : value) : bool :=
  (fst (bson_rank a) <? fst (bson_rank b))
  || ((fst (bson_rank a) =? fst (bson_rank b)) && (snd (bson_rank a) <=? snd (bson_rank b))).

(** Two query operators, [{$eq: v}] and [{$ne: v}]; any other is refused. *)
Definition operators (path : list string) (ops : list (string * value))
  : outcome (value -> bool) :=
  match ops with
  | [(k, v)] =>
      if String.eqb k "$eq" then Ok (field_is path v)
      else if String.eqb k "$ne" then Ok (fun doc => negb (field_is path v doc))
      else Throw (MongoServerError 2 "unknown operator")
  | _ => Throw (MongoServerError 2 "unknown operator")
  end.

End Demo.

#[export] Instance demoRuntime : Runtime := {|
  ObjectId_new := Demo.oid_new;
  ObjectId_isValid := Demo.oid_isValid;
  ObjectId_generate := Demo.oid_generate;
  Date_parse := Demo.date_parse;
  String_of := Demo.string_of;
  bcrypt_genSalt := Demo.genSalt;
  bcrypt_hash := Demo.hash;
  bcrypt_compare := Demo.compare_hash;
  jwt_sign := Demo.sign;
  jwtSecret := "secret";
  insert_rejected := Demo.rejected;
  bson_le := Demo.le;
  operator_filter := Demo.operators
|}.

(** The world right after start-up: no collection, the clock at an instant
    of 2024-05-01. *)
Definition emptyWorld : world := mkWorld ∅ 1714557600000 0 [].

(** ** Vocabulary of the statements *)

(** How often a key occurs among the properties of an object. *)
Definition occurrences (k : string) (o : value) : nat :=
  length (filter (String.eqb k) (keys o)).

(** The response of a run, for a run that ends with one. *)
Definition answer (run : outcome response * world) : response :=
  match fst run with
  | Ok r => r
  | Throw _ => mkResponse 0 VUndef
  end.

(** Three identifiers, as the examples type them. *)
Definition alice : string := "a00000000000000000000001".
Definition team : string := "b00000000000000000000002".
Definition running : string := "c00000000000000000000003".

(** A habit payload that also carries a [createdAt] of the client's. *)
Definition habit_payload : value :=
  VObj [("title", VStr "run"); ("createdAt", VStr "1999-01-01");
        ("createdBy", VStr alice);
        ("assignedTo", VObj [("type", VStr "user"); ("id", VStr alice)]);
        ("schedule", VStr "daily")].

Definition group_payload : value :=
  VObj [("name", VStr "runners"); ("ownerId", VStr alice)].

Definition signup_payload : value :=
  VObj [("username", VStr "a"); ("email", VStr "a@x.com"); ("password", VStr "p")].

(** The world after the signup of [signup_payload]. *)
Definition oneUser : world := snd (handle (PostUsers signup_payload) emptyWorld).

(** A login body with a number where the password is expected. *)
Definition numeric_login (email : string) : value :=
  VObj [("email", VStr email); ("password", VNum 123)].

(** The entries of a calendar day, in the words of the specification: the
    date lies between 00:00:00.000 and 23:59:59.999 UTC of the day, bounds
    included. The day is counted from 1970-01-01. *)
Definition lastMsOfDay : Z := MakeTime 23 59 59 999.

Definition in_utc_day (day : Z) (doc : value) : bool :=
  match field ["date"] doc with
  | VDate (Some t) => (day * msPerDay <=? t) && (t <=? day * msPerDay + lastMsOfDay)
  | _ => false
  end.

(** The world after a log operation. *)
Definition logged (op : store_op) (w : world) : world :=
  mkWorld (db w) (clock w) (counter w) (oplog w ++ [op]).

(** A world with five entries of [alice]: the last millisecond of April,
    the first millisecond, noon and the last millisecond of 2024-05-01,
    and the first millisecond of 2 May. *)
Definition entry_at (t : Z) : value :=
  VObj [("habitId", VOid running); ("userId", VOid alice);
        ("date", VDate (Some t)); ("status", VStr "done")].

Definition threeDays : world :=
  mkWorld {[ "userHabitEntries" := [entry_at 1714521599999; entry_at 1714521600000;
                                    entry_at 1714564800000; entry_at 1714607999999;
                                    entry_at 1714608000000] ]}
          1714557600000 0 [].

(** The log entries of a user, as the [$match] stage selects them. *)
Definition user_entries (userObjectId : value) (w : world) : list value :=
  filter (field_is ["userId"] userObjectId) (documents "userHabitEntries" (db w)).

(** How many of the entries refer to a habit. *)
Definition times_logged (habitId : value) (entries : list value) : Z :=
  Z.of_nat (length (filter (fun e => value_eqb (field ["habitId"] e) habitId) entries)).

(** The count of a key among the groups, and among the documents. *)
Fixpoint glookup (k : value) (groups : list (value * Z)) : option Z :=
  match groups with
  | [] => None
  | (k', n) :: rest => if value_eqb k' k then Some n else glookup k rest
  end.

Definition count_key (key : value -> value) (k : value) (docs : list value) : Z :=
  Z.of_nat (length (filter (fun d => value_eqb (key d) k) docs)).

(** A grouped document joined with one of its habits, as [$unwind]
    leaves it. *)
Definition joined (k : value) (n : Z) (h : value) : value :=
  VObj [("_id", k); ("count", VNum n); ("habitDetails", h)].

(** The documents that reach the second [$sort] of the pipeline. *)
Definition candidates (userObjectId : value) (d : database) (entries : list value)
  : list value :=
  unwind "habitDetails"
    (lookup d "habits" "_id" "_id" "habitDetails"
       (sort_docs by_count
          (group_count "habitId" (filter (field_is ["userId"] userObjectId) entries)))).

(** Two habits logged three times each by [alice]; [swimming] is the older
    one and comes second in the collection. *)
Definition swimming : string := "d00000000000000000000004".

Definition habit_doc (hex title : string) (created : Z) : value :=
  VObj [("_id", VOid hex); ("title", VStr title); ("createdAt", VDate (Some created))].

Definition log_of (hex : string) : value :=
  VObj [("habitId", VOid hex); ("userId", VOid alice);
        ("date", VDate (Some 1714564800000)); ("status", VStr "done")].

Definition tiedHabits : world :=
  mkWorld {[ "habits" := [habit_doc running "run" 2000; habit_doc swimming "swim" 1000];
             "userHabitEntries" := [log_of running; log_of swimming; log_of running;
                                    log_of swimming; log_of running; log_of swimming] ]}
          1714557600000 0 [].

(** The world after [alice] logged a habit that no document describes;
    the route that logs does not look the habit up. *)
Definition dangling_payload : value :=
  VObj [("habitId", VStr running); ("userId", VStr alice);
        ("date", VStr "2024-05-01"); ("status", VStr "done")].

Definition danglingEntry : world :=
  snd (handle (PostUserHabitEntries dangling_payload) emptyWorld).

(** A group payload whose second member is no identifier. *)
Definition bad_members_payload : value :=
  VObj [("name", VStr "runners"); ("ownerId", VStr alice);
        ("memberIds", VArr [VStr alice; VStr "not-an-id"])].

(** The requests that set up a group of one member with one habit; the
    store numbers the documents: the user, the group, the habit. *)
Definition member : string := "f00000000000000000000001".
Definition runners : string := "f00000000000000000000002".
Definition jogging : string := "f00000000000000000000003".

Definition completion_setup : list request :=
  [PostUsers signup_payload;
   PostGroups (VObj [("name", VStr "runners"); ("ownerId", VStr member)]);
   PostHabits (VObj [("title", VStr "jog"); ("createdBy", VStr member);
                     ("assignedTo", VObj [("type", VStr "group"); ("id", VStr runners)]);
                     ("schedule", VStr "daily")])].

(** The member confirms the habit for 2024-05-01. *)
Definition confirmation : request :=
  PostGroupHabitEntries
    (VObj [("habitId", VStr jogging); ("groupId", VStr runners);
           ("date", VStr "2024-05-01"); ("checkedBy", VArr [VStr member])]).

Definition beforeConfirmation : world := snd (serve completion_setup emptyWorld).
Definition afterConfirmation : world := snd (serve [confirmation] beforeConfirmation).

(** ** The routes without an identifier of their own *)

(** [jwt.verify(token, secret, callback)]: the payload handed to the
    callback, or the error. *)
Class TokenVerifier : Type := {
  jwt_verify : value -> string -> outcome value
}.

(** [s.split(sep)] for a separator of one character. *)
Fixpoint split (sep : ascii) (s : string) : list string :=
  match s with
  | EmptyString => [EmptyString]
  | String c s' =>
      if Ascii.eqb c sep then EmptyString :: split sep s'
      else match split sep s' with
           | piece :: rest => String c piece :: rest
           | [] => [String c EmptyString]
           end
  end.

(** [authHeader && authHeader.split(' ')[1]], the header being a string
    when the request has it. *)
Definition bearer_token (authHeader : option string) : value :=
  match authHeader with
  | None => VUndef
  | Some s =>
      if truthy (VStr s)
      then match nth_error (split " " s) 1 with
           | Some token => VStr token
           | None => VUndef
           end
      else VStr s
  end.

(** [res.sendStatus(code)]: the status with its reason phrase as body. *)
Definition status_text (code : Z) : string :=
  if code =? 401 then "Unauthorized"
  else if code =? 403 then "Forbidden"
  else if code =? 404 then "Not Found"
  else if code =? 500 then "Internal Server Error"
  else "".

Definition sendStatus (code : Z) : M response :=
  ret (mkResponse code (VStr (status_text code))).

(** [o.k] where [o] may be [undefined] or [null]. *)
Definition prop (k : string) (o : value) : M value :=
  match o with
  | VUndef | VNull => throw (TypeError "Cannot read properties of undefined")
  | _ => ret (get k o)
  end.

Section Session.

Context {RT : Runtime} {TV : TokenVerifier}.

(** *** GET /api/auth/status *)
Definition get_auth_status (authHeader : option string) : M response :=
  let token := bearer_token authHeader in
  match token with
  | VUndef | VNull => sendStatus 401
  | _ =>
      match jwt_verify token jwtSecret with
      | Throw err => sendStatus 403
      | Ok userPayload =>
          try_catch
            (payloadId <- prop "id" userPayload ;;
             userObjectId <- new_ObjectId payloadId ;;
             user <- findOne "users" (field_is ["_id"] userObjectId) (without "password") ;;
             if falsy user
             then sendStatus 404
             else json 200 (object [("isAuthenticated", VBool true); ("user", user)]))
            (fun dbError => sendStatus 500)
      end
  end.

(** *** POST /api/auth/logout *)
Definition post_logout : M response :=
  json 200 (message "Logout successful (client-side token discarded).").

End Session.

(** ** The first version of the server, [server.js]

    It has the habit and the signup route only. The habit route stores the
    payload as it came, under a new [createdAt]. The file never binds
    [bcrypt], so the signup route stops at its first use of the name. *)

Module ServerJs.

Section Routes.

Context {RT : Runtime}.

(** The value of an identifier that no declaration binds. *)
Definition unbound {A} (name : string) : M A :=
  throw (OtherError (name ++ " is not defined")).

(** *** POST /api/habits *)
Definition post_habits (newHabitData : value) : M response :=
  if falsy newHabitData || falsy (get "title" newHabitData)
     || falsy (get "createdBy" newHabitData)
  then json 400 (message "Missing required habit data (title, createdBy).")
  else
    createdAt <- Date_now ;;
    let habitToInsert := spread_with newHabitData [("createdAt", createdAt)] in
    try_catch
      (inserted <- insertOne "habits" habitToInsert ;;
       json 201 (object [("message", VStr "Habit created successfully!");
                         ("insertedId", get "_id" inserted);
                         ("insertedHabit", inserted)]))
      (fun error => json 500 (failure "Failed to create habit." error)).

(** *** POST /api/users *)
Definition post_users (newUserData : value) : M response :=
  if falsy newUserData || falsy (get "username" newUserData)
     || falsy (get "email" newUserData) || falsy (get "password" newUserData)
  then json 400 (message "Missing required user data (username, email, password).")
  else
    try_catch
      (salt <- @unbound string "bcrypt" ;;
       hashedPassword <- @unbound string "bcrypt" ;;
       createdAt <- Date_now ;;
       let userToInsert :=
         object [("username", get "username" newUserData);
                 ("email", get "email" newUserData);
                 ("password", VStr hashedPassword);
                 ("createdAt", createdAt)] in
       inserted <- insertOne "users" userToInsert ;;
       json 201 (object [("message", VStr "User created successfully!");
                         ("insertedId", get "_id" inserted);
                         ("username", get "username" userToInsert);
                         ("email", get "email" userToInsert)]))
      (fun error =>
         if is_duplicate_key error
         then json 409 (message "User with that email or username already exists.")
         else json 500 (failure "Failed to create user." error)).

End Routes.

End ServerJs.

(** A verifier for [demoRuntime]: it reads back what [Demo.sign] wrote. *)
Definition demo_verify (token : value) (secret : string) : outcome value :=
  match token with
  | VStr t =>
      if String.eqb (substring 0 4 t) "jwt." && String.eqb (substring 28 3 t) ".1h"
      then Ok (VObj [("id", VStr (substring 4 24 t))])
      else Throw (OtherError "invalid token")
  | _ => Throw (OtherError "jwt must be provided")
  end.

#[export] Instance demoVerifier : TokenVerifier := {| jwt_verify := demo_verify |}.

(** ** What a computation does to the store *)

(** The computation leaves every collection as it was, whatever its
    outcome. *)
Definition stable {A} (m : M A) : Prop :=
  forall w, db (snd (m w)) = db w.

(** The computation issues no store operation. *)
Definition silent {A} (m : M A) : Prop :=
  forall w, oplog (snd (m w)) = oplog w.

(** One document more in one collection, nothing else changed. *)
Definition appended (name : string) (w w' : world) : Prop :=
  exists doc, db w' = <[name := (documents name (db w) ++ [doc])%list]> (db w).

(** A write route: status 201 with one document appended, or another
    status, or an exception, with the store as it was. *)
Definition writes_once (name : string) (m : M response) : Prop :=
  forall w,
    match m w with
    | (Ok r, w') =>
        (status r = 201 /\ appended name w w') \/ (status r <> 201 /\ db w' = db w)
    | (Throw _, w') => db w' = db w
    end.

(** Every response of the computation has one of the codes. *)
Definition yields (codes : list Z) (m : M response) : Prop :=
  forall w r w', m w = (Ok r, w') -> In (status r) codes.

(** No exception leaves the computation. *)
Definition caught {A} (m : M A) : Prop :=
  forall w, exists a w', m w = (Ok a, w').

(** The collection a write route inserts into. *)
Definition collection_of (r : request) : string :=
  match r with
  | PostHabits _ => "habits"
  | PostUsers _ => "users"
  | PostGroups _ => "groups"
  | PostUserHabitEntries _ => "userHabitEntries"
  | PostGroupHabitEntries _ => "groupHabitEntries"
  | PostLogin _ | GetById _ _ => ""
  end.

Definition is_write (r : request) : bool :=
  match r with
  | PostLogin _ | GetById _ _ => false
  | _ => true
  end.

(** The statuses a route answers with. *)
Definition statuses_of (r : request) : list Z :=
  match r with
  | PostHabits _ | PostUserHabitEntries _ | PostGroupHabitEntries _ => [201; 400; 500]
  | PostUsers _ | PostGroups _ => [201; 400; 409; 500]
  | PostLogin _ => [200; 400; 401; 500]
  | GetById (GroupCompletion _) _ | GetById MostLoggedHabit _ | GetById UserCreatedAt _ =>
      [200; 400; 404; 500]
  | GetById _ _ => [200; 400; 500]
  end.

(** The body of a request that has one. *)
Definition body_of (r : request) : value :=
  match r with
  | PostHabits b | PostUsers b | PostLogin b | PostGroups b
  | PostUserHabitEntries b | PostGroupHabitEntries b => b
  | GetById _ _ => VUndef
  end.

(** The fields a route tests for presence, and the paths of the
    identifiers it tests with [ObjectId.isValid]. *)
Definition required_fields (r : request) : list string :=
  match r with
  | PostHabits _ => ["title"; "createdBy"; "assignedTo"; "schedule"]
  | PostUsers _ => ["username"; "email"; "password"]
  | PostLogin _ => ["email"; "password"]
  | PostGroups _ => ["name"; "ownerId"]
  | PostUserHabitEntries _ => ["habitId"; "userId"; "date"; "status"]
  | PostGroupHabitEntries _ => ["habitId"; "groupId"; "date"]
  | GetById _ _ => []
  end.


(** The values that become the members of a new group. *)
Definition member_inputs (newGroupData : value) : list value :=
  if truthy (get "memberIds" newGroupData)
  then match get "memberIds" newGroupData with
       | VArr ids => ids
       | _ => []
       end
  else [get "ownerId" newGroupData].

(** Neither [undefined] nor [null]. *)
Definition present (v : value) : bool :=
  match v with
  | VUndef | VNull => false
  | _ => true
  end.

(** A login request that came without a body: [req.body] is [undefined]
    when no parser filled it. The login is the one handler that takes its
    body apart before it tests anything. *)
Definition login_without_body (r : request) : bool :=
  match r with
  | PostLogin b => negb (present b)
  | _ => false
  end.

(** The character occurs in the string. *)
Fixpoint mentions (c : ascii) (s : string) : bool :=
  match s with
  | EmptyString => false
  | String c' s' => Ascii.eqb c' c || mentions c s'
  end.

Section CompletionVocabulary.

Context {RT : Runtime}.

(** The string [toString] returns for a value that is [present]. *)
Definition text (v : value) : string :=
  match v with
  | VStr s => s
  | VOid hex => hex
  | _ => String_of v
  end.


End CompletionVocabulary.

(** The habits recorded for a member in [userCompletionCounts]. *)
Definition seen_by (counts : gmap string (gset string)) (memberId : string) : gset string :=
  match counts !! memberId with
  | Some s => s
  | None => ∅
  end.

(** Payloads and worlds of the further examples. *)
Definition login_payload : value :=
  VObj [("email", VStr "a@x.com"); ("password", VStr "p")].

Definition team_habit_payload : value :=
  VObj [("title", VStr "row"); ("createdBy", VStr alice);
        ("assignedTo", VObj [("type", VStr "group"); ("id", VStr team)]);
        ("schedule", VStr "weekly")].

Definition team_entry_payload : value :=
  VObj [("habitId", VStr running); ("groupId", VStr team);
        ("date", VStr "2024-05-01"); ("checkedBy", VArr [VStr alice])].


(** * Properties *)

(** ** Identifier validation comes before the store *)

Section Validation.

Context {RT : Runtime}.

(** C8. On each of the eight routes that take an identifier in the path, a
    parameter that [ObjectId.isValid] refuses is answered with status 400
    and the world is left as it was: no collection changed and no store
    operation was logged before the response. *)
Theorem invalid_path_id_400 (route : id_route) (param : string) (w : world) :
  ObjectId_isValid (VStr param) = false ->
  exists b,
    handle (GetById route param) w = (Ok (mkResponse 400 b), w)
    /\ oplog (snd (handle (GetById route param) w)) = oplog w.
Proof.
  intros Hinvalid.
  destruct route; cbn [handle handle_id];
    unfold get_user_habits, get_user_groups, get_group_habits,
      get_user_habitEntries, get_group_habitEntries, get_group_completion,
      get_mostLoggedHabit, get_user_createdAt;
    match goal with
    | |- context [if ?c then _ else _] => destruct c
    end;
    try (eexists; split; reflexivity);
    unfold try_catch; rewrite Hinvalid; cbn;
    eexists; split; reflexivity.
Qed.

End Validation.

(** The most-logged-habit route with a parameter that is no identifier. *)
Lemma invalid_path_id_400_witness :
  ObjectId_isValid (VStr "zz") = false /\
  exists b,
    handle (GetById MostLoggedHabit "zz") emptyWorld = (Ok (mkResponse 400 b), emptyWorld)
    /\ oplog (snd (handle (GetById MostLoggedHabit "zz") emptyWorld)) = oplog emptyWorld.
Proof.
  split; [reflexivity |].
  apply (invalid_path_id_400 MostLoggedHabit "zz" emptyWorld).
  reflexivity.
Defined.

(** ** Running a handler: inversion lemmas *)

Section Running.

Context {RT : Runtime}.

Lemma bind_Ok {A B} (m : M A) (k : A -> M B) w b w' :
  bind m k w = (Ok b, w') -> exists a w1, m w = (Ok a, w1) /\ k a w1 = (Ok b, w').
Proof.
  unfold bind. destruct (m w) as [[a|e] w1]; [eauto | discriminate].
Qed.

Lemma try_catch_Ok {A} (m : M A) (h : error -> M A) w a w' :
  try_catch m h w = (Ok a, w') ->
  m w = (Ok a, w') \/ exists e w1, m w = (Throw e, w1) /\ h e w1 = (Ok a, w').
Proof.
  unfold try_catch. destruct (m w) as [[x|e] w1]; [auto | eauto].
Qed.

Lemma json_Ok code b w r w' :
  json code b w = (Ok r, w') -> r = mkResponse code b /\ w' = w.
Proof. unfold json, ret. intros H; inversion H; auto. Qed.

Lemma lift_Ok {A} (o : outcome A) w a w' :
  lift o w = (Ok a, w') -> o = Ok a /\ w' = w.
Proof. unfold lift. intros H; inversion H; auto. Qed.

Lemma new_ObjectId_Ok v w x w' :
  new_ObjectId v w = (Ok x, w') ->
  exists hex, ObjectId_new v = Ok hex /\ x = VOid hex /\ w' = w.
Proof.
  unfold new_ObjectId. intros H. apply bind_Ok in H as (hex & w1 & H1 & H2).
  apply lift_Ok in H1 as [H1 ->]. unfold ret in H2. inversion H2; subst. eauto.
Qed.

Lemma Date_now_Ok w x w' :
  Date_now w = (Ok x, w') -> x = VDate (Some (clock w)) /\ w' = w.
Proof. unfold Date_now. intros H; inversion H; auto. Qed.

Lemma draw_Ok w n w' :
  draw w = (Ok n, w') ->
  n = counter w /\ db w' = db w /\ clock w' = clock w /\ counter w' = N.succ (counter w).
Proof. unfold draw. intros H; inversion H; subst; cbn; auto. Qed.

(** An accepted insert appends what the driver wrote for the document,
    which is the caller's document with at most an [_id] added. *)
Lemma insertOne_Ok name doc w d' w' :
  insertOne name doc w = (Ok d', w') ->
  documents name (db w') = (documents name (db w) ++ [to_bson d'])%list
  /\ (d' = doc \/ d' = assign "_id" (VOid (ObjectId_generate (counter w))) doc)
  /\ clock w' = clock w.
Proof.
  unfold insertOne, bind, log_op, read_collection, put_collection, draw, ret, throw.
  destruct (get "_id" doc); cbn;
    match goal with
    | |- context [insert_rejected ?n ?ds ?d] => destruct (insert_rejected n ds d)
    end; intros H; inversion H; subst; cbn; unfold documents;
    rewrite lookup_insert_eq; auto.
Qed.

(** A document without [_id] gets the generated one. *)
Lemma insertOne_fresh name doc w d' w' :
  get "_id" doc = VUndef ->
  insertOne name doc w = (Ok d', w') ->
  d' = assign "_id" (VOid (ObjectId_generate (counter w))) doc.
Proof.
  intros Hid. unfold insertOne, bind, log_op, read_collection, put_collection, draw, ret, throw.
  rewrite Hid; cbn.
  match goal with
  | |- context [insert_rejected ?n ?ds ?d] => destruct (insert_rejected n ds d)
  end; intros H; inversion H; subst; reflexivity.
Qed.

End Running.

Ltac json_status H :=
  apply json_Ok in H as [-> ->]; cbn in *; try discriminate.

(** ** Objects: reading after writing *)

Lemma assoc_remove_other k k' fs :
  k <> k' -> assoc k (remove_assoc k' fs) = assoc k fs.
Proof.
  intros Hne. induction fs as [|[k0 v0] fs IH]; cbn; [reflexivity|].
  destruct (String.eqb_spec k' k0) as [->|Hk0]; cbn.
  - rewrite IH. destruct (String.eqb_spec k k0); congruence.
  - rewrite IH. reflexivity.
Qed.

Lemma assoc_set_same k v fs : assoc k (set_assoc k v fs) = Some v.
Proof.
  induction fs as [|[k0 v0] fs IH]; cbn.
  - now rewrite String.eqb_refl.
  - destruct (String.eqb_spec k k0) as [->|Hk0]; cbn.
    + now rewrite String.eqb_refl.
    + destruct (String.eqb_spec k k0); congruence.
Qed.

Lemma assoc_set_other k k' v fs :
  k <> k' -> assoc k (set_assoc k' v fs) = assoc k fs.
Proof.
  intros Hne. induction fs as [|[k0 v0] fs IH]; cbn.
  - destruct (String.eqb_spec k k'); congruence.
  - destruct (String.eqb_spec k' k0) as [->|Hk0]; cbn.
    + destruct (String.eqb_spec k k0); [congruence|]. now apply assoc_remove_other.
    + rewrite IH. reflexivity.
Qed.

Lemma assoc_to_bson k fs :
  assoc k (map (fun kv => (fst kv, to_bson (snd kv))) fs) = option_map to_bson (assoc k fs).
Proof.
  induction fs as [|[k0 v0] fs IH]; cbn; [reflexivity|].
  destruct (String.eqb k k0); [reflexivity | exact IH].
Qed.

Lemma get_to_bson k o : has_key k o = true -> get k (to_bson o) = to_bson (get k o).
Proof.
  destruct o; cbn; try discriminate.
  rewrite assoc_to_bson. destruct (assoc k fields); cbn; [reflexivity | discriminate].
Qed.

Lemma get_assign_other k k' v o : k <> k' -> get k (assign k' v o) = get k o.
Proof.
  intros Hne. destruct o; cbn; try reflexivity. now rewrite assoc_set_other.
Qed.

Lemma has_key_assign_other k k' v o :
  k <> k' -> has_key k (assign k' v o) = has_key k o.
Proof.
  intros Hne. destruct o; cbn; try reflexivity. now rewrite assoc_set_other.
Qed.

Lemma occ_remove_same k fs :
  filter (String.eqb k) (map fst (remove_assoc k fs)) = [].
Proof.
  induction fs as [|[k0 v0] fs IH]; cbn; [reflexivity|].
  destruct (String.eqb k k0) eqn:E; cbn; [exact IH | now rewrite E].
Qed.

Lemma occ_remove_other k k' fs :
  k <> k' ->
  filter (String.eqb k) (map fst (remove_assoc k' fs)) = filter (String.eqb k) (map fst fs).
Proof.
  intros Hne. induction fs as [|[k0 v0] fs IH]; cbn; [reflexivity|].
  destruct (String.eqb_spec k' k0) as [->|Hk0]; cbn.
  - destruct (String.eqb_spec k k0); [congruence | exact IH].
  - now rewrite IH.
Qed.

Lemma occ_set_same k v fs :
  filter (String.eqb k) (map fst (set_assoc k v fs)) = [k].
Proof.
  induction fs as [|[k0 v0] fs IH]; cbn.
  - now rewrite String.eqb_refl.
  - destruct (String.eqb_spec k k0) as [->|Hk0]; cbn.
    + now rewrite String.eqb_refl, occ_remove_same.
    + destruct (String.eqb_spec k k0); [congruence | exact IH].
Qed.

Lemma occ_set_other k k' v fs :
  k <> k' ->
  filter (String.eqb k) (map fst (set_assoc k' v fs)) = filter (String.eqb k) (map fst fs).
Proof.
  intros Hne. induction fs as [|[k0 v0] fs IH]; cbn.
  - destruct (String.eqb_spec k k'); congruence.
  - destruct (String.eqb_spec k' k0) as [->|Hk0]; cbn.
    + destruct (String.eqb_spec k k0); [congruence|]. now apply occ_remove_other.
    + now rewrite IH.
Qed.

Lemma occurrences_assign_other k k' v o :
  k <> k' -> occurrences k (assign k' v o) = occurrences k o.
Proof.
  intros Hne. destruct o; try reflexivity.
  unfold occurrences; cbn. now rewrite occ_set_other.
Qed.

Lemma occurrences_to_bson k o : occurrences k (to_bson o) = occurrences k o.
Proof.
  destruct o; try reflexivity.
  unfold occurrences; cbn. now rewrite map_map.
Qed.

(** The property written last in an object literal is read back, and is
    there once, whatever was spread before it. *)
Lemma spread_with_last src kvs k v :
  get k (spread_with src (kvs ++ [(k, v)])) = v
  /\ has_key k (spread_with src (kvs ++ [(k, v)])) = true
  /\ occurrences k (spread_with src (kvs ++ [(k, v)])) = 1%nat.
Proof.
  unfold spread_with, occurrences. rewrite fold_left_app. cbn.
  now rewrite assoc_set_same, occ_set_same.
Qed.

(** ** Creating documents *)

Section Creation.

Context {RT : Runtime}.

(** C5. When a habit payload is accepted (status 201), exactly one document
    is appended to the habits, and its [createdAt] is the date the server
    read from its clock, once and whatever the payload carried under that
    key. *)
Theorem habit_createdAt_is_server_time (newHabitData : value) (w w' : world) (r : response) :
  post_habits newHabitData w = (Ok r, w') ->
  status r = 201 ->
  exists stored,
    documents "habits" (db w') = (documents "habits" (db w) ++ [stored])%list
    /\ get "createdAt" stored = VDate (Some (clock w))
    /\ occurrences "createdAt" stored = 1%nat
    /\ get "createdAt" (get "insertedHabit" (body r)) = VDate (Some (clock w)).
Proof.
  unfold post_habits. intros H Hs.
  destruct (_ || _) in H; [json_status H|].
  cbn zeta in H.
  destruct (_ || _) in H; [json_status H|].
  apply try_catch_Ok in H as [H | (e & w1 & _ & H)]; [|json_status H].
  destruct (_ || _) in H; [json_status H|].
  apply bind_Ok in H as (createdBy & w1 & H1 & H).
  apply new_ObjectId_Ok in H1 as (c & _ & -> & ->).
  apply bind_Ok in H as (assignedId & w1 & H1 & H).
  apply new_ObjectId_Ok in H1 as (a & _ & -> & ->).
  apply bind_Ok in H as (createdAt & w1 & H1 & H).
  apply Date_now_Ok in H1 as (-> & ->).
  apply bind_Ok in H as (inserted & w1 & H1 & H).
  apply json_Ok in H as [-> ->].
  apply insertOne_Ok in H1 as (Hdocs & Hdoc & _).
  exists (to_bson inserted). split; [exact Hdocs|].
  match type of Hdoc with
  | context [spread_with ?src [?a; ?b; (?k, ?v)]] =>
      destruct (spread_with_last src [a; b] k v) as (Hget & Hkey & Hocc);
      cbn [app] in Hget, Hkey, Hocc
  end.
  assert (Hget' : get "createdAt" inserted = VDate (Some (clock w))).
  { destruct Hdoc as [-> | ->]; [|rewrite get_assign_other by discriminate]; exact Hget. }
  repeat split.
  - rewrite get_to_bson, Hget'; [reflexivity|].
    destruct Hdoc as [-> | ->]; [|rewrite has_key_assign_other by discriminate]; exact Hkey.
  - rewrite occurrences_to_bson.
    destruct Hdoc as [-> | ->]; [|rewrite occurrences_assign_other by discriminate]; exact Hocc.
  - cbn. exact Hget'.
Qed.

(** A payload that passes the checks of the handler is stored, unless the
    store rejects the document. *)
Lemma valid_habit_payload_is_stored (newHabitData : value) (w : world) (c a : string) :
  truthy (get "title" newHabitData) = true ->
  truthy (get "createdBy" newHabitData) = true ->
  truthy (get "schedule" newHabitData) = true ->
  truthy (get "type" (get "assignedTo" newHabitData)) = true ->
  truthy (get "id" (get "assignedTo" newHabitData)) = true ->
  ObjectId_isValid (get "createdBy" newHabitData) = true ->
  ObjectId_isValid (get "id" (get "assignedTo" newHabitData)) = true ->
  ObjectId_new (get "createdBy" newHabitData) = Ok c ->
  ObjectId_new (get "id" (get "assignedTo" newHabitData)) = Ok a ->
  (forall docs doc, insert_rejected "habits" docs doc = None) ->
  exists r w', post_habits newHabitData w = (Ok r, w') /\ status r = 201.
Proof.
  intros Htitle Hby Hsched Htype Hid Hv1 Hv2 Hc Ha Haccept.
  assert (Hbody : truthy newHabitData = true).
  { destruct newHabitData; try reflexivity; cbn in Htitle; discriminate. }
  assert (Hto : truthy (get "assignedTo" newHabitData) = true).
  { destruct (get "assignedTo" newHabitData); try reflexivity; cbn in Htype; discriminate. }
  unfold post_habits, falsy.
  rewrite Hbody, Htitle, Hby, Hto, Hsched. cbn [negb orb].
  rewrite Htype, Hid. cbn [negb orb].
  unfold try_catch. rewrite Hv1, Hv2. cbn [negb orb].
  unfold bind at 1. unfold new_ObjectId at 1, bind at 1, lift. rewrite Hc.
  unfold ret at 1. unfold bind at 1. unfold new_ObjectId at 1, bind at 1, lift. rewrite Ha.
  unfold ret at 1. unfold bind at 1, Date_now at 1. unfold bind at 1.
  unfold insertOne, bind, log_op, read_collection, put_collection, draw, ret, throw, json.
  match goal with
  | |- context [get "_id" ?doc] => destruct (get "_id" doc)
  end; cbn; rewrite Haccept; eauto.
Qed.

(** C6. When a group payload without [memberIds] is accepted (status 201),
    exactly one document is appended to the groups; its [ownerId] is the
    identifier made from the payload's [ownerId] and its [memberIds] is the
    array of that identifier alone. *)
Theorem group_members_default_to_owner (newGroupData : value) (w w' : world) (r : response) :
  has_key "memberIds" newGroupData = false ->
  post_groups newGroupData w = (Ok r, w') ->
  status r = 201 ->
  exists owner stored,
    ObjectId_new (get "ownerId" newGroupData) = Ok owner
    /\ documents "groups" (db w') = (documents "groups" (db w) ++ [stored])%list
    /\ get "ownerId" stored = VOid owner
    /\ get "memberIds" stored = VArr [VOid owner].
Proof.
  intros Hnone. unfold post_groups. intros H Hs.
  assert (Hm : get "memberIds" newGroupData = VUndef).
  { destruct newGroupData; try reflexivity. cbn in *.
    destruct (assoc "memberIds" fields); [discriminate | reflexivity]. }
  rewrite Hm in H. cbn [truthy] in H.
  destruct (_ || _) in H; [json_status H|].
  apply try_catch_Ok in H as [H | (e & w1 & _ & H)];
    [|destruct (is_duplicate_key e); json_status H].
  destruct (negb _) in H; [json_status H|].
  apply bind_Ok in H as (ownerId & w1 & H1 & H).
  apply new_ObjectId_Ok in H1 as (owner & Howner & -> & ->).
  apply bind_Ok in H as (memberIds & w1 & H1 & H).
  apply bind_Ok in H1 as (owner' & w2 & H1 & H2).
  apply new_ObjectId_Ok in H1 as (o' & Ho' & -> & ->).
  unfold ret in H2. inversion H2; subst; clear H2.
  rewrite Howner in Ho'. inversion Ho'; subst; clear Ho'.
  apply bind_Ok in H as (createdAt & w3 & H1 & H).
  apply Date_now_Ok in H1 as (-> & ->).
  apply bind_Ok in H as (invalid & w4 & H1 & H).
  unfold ret in H1. inversion H1; subst; clear H1.
  apply bind_Ok in H as (inserted & w5 & H1 & H).
  apply json_Ok in H as [-> ->].
  pose proof H1 as Hfresh. apply insertOne_fresh in Hfresh as ->; [|reflexivity].
  apply insertOne_Ok in H1 as (Hdocs & _ & _).
  exists o', (to_bson (assign "_id" (VOid (ObjectId_generate (counter w4)))
                (object [("name", get "name" newGroupData);
                         ("description", get "description" newGroupData);
                         ("ownerId", VOid o');
                         ("memberIds", VArr [VOid o']);
                         ("createdAt", VDate (Some (clock w4)))]))).
  repeat split; [exact Howner | exact Hdocs].
Qed.

(** C7. When a signup is accepted (status 201), the response body is made
    of the message, the inserted identifier, the username and the email,
    and has no [password]; the one document appended to the users holds,
    under [password], the string that [bcrypt.hash] returned for the
    payload's password and a fresh salt of cost 10, beside the username,
    the email, the creation date and the identifier. *)
Theorem signup_returns_no_password_and_stores_hash
  (newUserData : value) (w w' : world) (r : response) :
  post_users newUserData w = (Ok r, w') ->
  status r = 201 ->
  exists insertedId hashedPassword,
    bcrypt_hash (get "password" newUserData) (bcrypt_genSalt 10 (counter w)) = Ok hashedPassword
    /\ body r = VObj [("message", VStr "User created successfully!");
                      ("insertedId", VOid insertedId);
                      ("username", get "username" newUserData);
                      ("email", get "email" newUserData)]
    /\ has_key "password" (body r) = false
    /\ documents "users" (db w')
       = (documents "users" (db w)
          ++ [VObj [("username", to_bson (get "username" newUserData));
                    ("email", to_bson (get "email" newUserData));
                    ("password", VStr hashedPassword);
                    ("createdAt", VDate (Some (clock w)));
                    ("_id", VOid insertedId)]])%list.
Proof.
  unfold post_users. intros H Hs.
  destruct (_ || _) in H; [json_status H|].
  apply try_catch_Ok in H as [H | (e & w1 & _ & H)];
    [|destruct (is_duplicate_key e); json_status H].
  cbn zeta in H.
  apply bind_Ok in H as (n & w1 & H1 & H).
  apply draw_Ok in H1 as (-> & Hdb & Hclock & Hcounter).
  apply bind_Ok in H as (hashedPassword & w2 & H1 & H).
  apply lift_Ok in H1 as (Hhash & ->).
  apply bind_Ok in H as (createdAt & w2 & H1 & H).
  apply Date_now_Ok in H1 as (-> & ->).
  apply bind_Ok in H as (inserted & w2 & H1 & H).
  apply json_Ok in H as [-> ->].
  pose proof H1 as Hfresh. apply insertOne_fresh in Hfresh as ->; [|reflexivity].
  apply insertOne_Ok in H1 as (Hdocs & _ & _).
  exists (ObjectId_generate (counter w1)), hashedPassword.
  repeat split; [exact Hhash|].
  rewrite Hdocs, Hdb, Hclock. reflexivity.
Qed.

End Creation.

Lemma habit_createdAt_is_server_time_witness :
  status (answer (post_habits habit_payload emptyWorld)) = 201 /\
  exists stored,
    documents "habits" (db (snd (post_habits habit_payload emptyWorld)))
    = (documents "habits" (db emptyWorld) ++ [stored])%list
    /\ get "createdAt" stored = VDate (Some (clock emptyWorld))
    /\ occurrences "createdAt" stored = 1%nat
    /\ get "createdAt" (get "insertedHabit" (body (answer (post_habits habit_payload emptyWorld))))
       = VDate (Some (clock emptyWorld)).
Proof.
  split; [vm_compute; reflexivity|].
  apply (habit_createdAt_is_server_time habit_payload emptyWorld
           (snd (post_habits habit_payload emptyWorld))
           (answer (post_habits habit_payload emptyWorld)));
    vm_compute; reflexivity.
Defined.

Lemma group_members_default_to_owner_witness :
  has_key "memberIds" group_payload = false /\
  status (answer (post_groups group_payload emptyWorld)) = 201 /\
  exists owner stored,
    ObjectId_new (get "ownerId" group_payload) = Ok owner
    /\ documents "groups" (db (snd (post_groups group_payload emptyWorld)))
       = (documents "groups" (db emptyWorld) ++ [stored])%list
    /\ get "ownerId" stored = VOid owner
    /\ get "memberIds" stored = VArr [VOid owner].
Proof.
  split; [reflexivity|]. split; [vm_compute; reflexivity|].
  apply (group_members_default_to_owner group_payload emptyWorld
           (snd (post_groups group_payload emptyWorld))
           (answer (post_groups group_payload emptyWorld)));
    vm_compute; reflexivity.
Defined.

Lemma signup_returns_no_password_and_stores_hash_witness :
  status (answer (post_users signup_payload emptyWorld)) = 201 /\
  exists insertedId hashedPassword,
    bcrypt_hash (get "password" signup_payload) (bcrypt_genSalt 10 (counter emptyWorld))
    = Ok hashedPassword
    /\ body (answer (post_users signup_payload emptyWorld))
       = VObj [("message", VStr "User created successfully!");
               ("insertedId", VOid insertedId);
               ("username", get "username" signup_payload);
               ("email", get "email" signup_payload)]
    /\ has_key "password" (body (answer (post_users signup_payload emptyWorld))) = false
    /\ documents "users" (db (snd (post_users signup_payload emptyWorld)))
       = (documents "users" (db emptyWorld)
          ++ [VObj [("username", to_bson (get "username" signup_payload));
                    ("email", to_bson (get "email" signup_payload));
                    ("password", VStr hashedPassword);
                    ("createdAt", VDate (Some (clock emptyWorld)));
                    ("_id", VOid insertedId)]])%list.
Proof.
  split; [vm_compute; reflexivity|].
  apply (signup_returns_no_password_and_stores_hash signup_payload emptyWorld
           (snd (post_users signup_payload emptyWorld))
           (answer (post_users signup_payload emptyWorld)));
    vm_compute; reflexivity.
Defined.

(** ** Login *)

Section Login.

Context {RT : Runtime}.

Lemma value_eqb_null_l v : value_eqb VNull v = true -> v = VNull.
Proof. destruct v; cbn; (reflexivity || discriminate). Qed.

(** Only an object can match a filter on one of its fields with a truthy
    value. *)
Lemma field_is_truthy k v doc :
  field_is [k] v doc = true -> truthy v = true -> truthy doc = true.
Proof.
  unfold field_is, field. cbn [get_path].
  destruct doc; try reflexivity; cbn;
    rewrite orb_false_r; intros H%value_eqb_null_l; subst; discriminate.
Qed.

(** With a string in the place of the email the filter is [field_is]. *)
Lemma findOne_by_string name path text w :
  findOne_by name path (VStr text) w = findOne name (field_is path (VStr text)) id w.
Proof. reflexivity. Qed.

(** C4, as the code has it. Two login bodies whose [email] and [password]
    are non-empty strings: one whose email matches no user, one whose
    email matches a user for whom [bcrypt.compare] answers [false]. Both
    runs end the same way, with the same response, status 401 and the one
    message, after the same single lookup. *)
Theorem login_failures_are_identical
  (unknownEmail wrongPassword : value) (email1 password1 email2 password2 : string)
  (w : world) (user : value) (others : list value) :
  get "email" unknownEmail = VStr email1 -> email1 <> "" ->
  get "password" unknownEmail = VStr password1 -> password1 <> "" ->
  get "email" wrongPassword = VStr email2 -> email2 <> "" ->
  get "password" wrongPassword = VStr password2 -> password2 <> "" ->
  filter (field_is ["email"] (VStr email1)) (documents "users" (db w)) = [] ->
  filter (field_is ["email"] (VStr email2)) (documents "users" (db w)) = user :: others ->
  bcrypt_compare (VStr password2) (get "password" user) = Ok false ->
  post_login unknownEmail w = post_login wrongPassword w
  /\ fst (post_login unknownEmail w)
     = Ok (mkResponse 401 (message "Invalid email or password."))
  /\ db (snd (post_login unknownEmail w)) = db w.
Proof.
  intros He1 Hn1 Hp1 Hq1 He2 Hn2 Hp2 Hq2 Hnone Hsome Hcmp.
  assert (Hfalsy : forall s, s <> "" -> falsy (VStr s) = false).
  { intros s Hs. unfold falsy; cbn. destruct (String.eqb_spec s ""); [contradiction | reflexivity]. }
  assert (Huser : truthy user = true).
  { apply (field_is_truthy "email" (VStr email2)).
    - assert (Hin : In user (filter (field_is ["email"] (VStr email2))
                                    (documents "users" (db w)))).
      { rewrite Hsome. now left. }
      apply filter_In in Hin. tauto.
    - specialize (Hfalsy _ Hn2). unfold falsy in Hfalsy.
      now destruct (truthy (VStr email2)). }
  destruct unknownEmail; try discriminate He1.
  destruct wrongPassword; try discriminate He2.
  unfold post_login.
  rewrite He1, Hp1, He2, Hp2, !Hfalsy by assumption. cbn [orb].
  unfold try_catch, bind. rewrite !findOne_by_string.
  unfold findOne, bind, log_op, read_collection, ret, lift, json; cbn.
  rewrite Hnone, Hsome. cbn.
  unfold falsy. rewrite Huser, Hcmp. cbn.
  repeat split.
Qed.

End Login.

(** The one user of [oneUser] and a stranger. *)
Lemma login_failures_are_identical_witness :
  post_login (VObj [("email", VStr "b@x.com"); ("password", VStr "q")]) oneUser
  = post_login (VObj [("email", VStr "a@x.com"); ("password", VStr "q")]) oneUser
  /\ fst (post_login (VObj [("email", VStr "b@x.com"); ("password", VStr "q")]) oneUser)
     = Ok (mkResponse 401 (message "Invalid email or password."))
  /\ db (snd (post_login (VObj [("email", VStr "b@x.com"); ("password", VStr "q")]) oneUser))
     = db oneUser.
Proof.
  apply (login_failures_are_identical
           (VObj [("email", VStr "b@x.com"); ("password", VStr "q")])
           (VObj [("email", VStr "a@x.com"); ("password", VStr "q")])
           "b@x.com" "q" "a@x.com" "q"
           oneUser
           (VObj [("username", VStr "a"); ("email", VStr "a@x.com");
                  ("password", VStr "$2a$10$00000000p");
                  ("createdAt", VDate (Some 1714557600000));
                  ("_id", VOid "f00000000000000000000001")])
           []);
    solve [discriminate | vm_compute; reflexivity].
Defined.

(** C4, as the specification has it, fails for two bodies of one shape,
    an email and the number 123 for a password, both of which the handler
    takes for present: for the stranger the lookup finds nobody and the
    answer is 401; for the user of [oneUser] the lookup finds the user,
    [bcrypt.compare] refuses the number, and the answer is 500. *)
Lemma login_tells_a_known_email_by_a_numeric_password :
  fst (post_login (numeric_login "b@x.com") oneUser)
  = Ok (mkResponse 401 (message "Invalid email or password."))
  /\ fst (post_login (numeric_login "a@x.com") oneUser)
     = Ok (mkResponse 500 (failure "An error occurred during login."
                                   (OtherError "Illegal arguments")))
  /\ truthy (get "password" (numeric_login "a@x.com")) = true
  /\ keys (numeric_login "a@x.com") = keys (numeric_login "b@x.com").
Proof. vm_compute. repeat split. Qed.

(** The login takes its body apart before its [try]: without a body it
    throws there, and nothing is sent. *)
Example login_without_a_body_throws :
  post_login VUndef oneUser
  = (Throw (TypeError "Cannot destructure property 'email' of 'req.body' as it is undefined."),
     oneUser).
Proof. reflexivity. Qed.

(** An object of query operators in the place of the email is read by the
    store, not compared with the field: [{$ne: null}] selects the first
    user that has an email, and the password decides. *)
Example login_by_operator_object :
  fst (post_login (VObj [("email", VObj [("$ne", VNull)]); ("password", VStr "p")]) oneUser)
  = Ok (mkResponse 200 (VObj [("message", VStr "Login successful!");
                              ("token", VStr "jwt.f00000000000000000000001.1h")])).
Proof. vm_compute. reflexivity. Qed.

(** ** The entries of a day *)

Section DayQueries.

Context {RT : Runtime}.

Lemma falsy_nonempty s : s <> "" -> falsy (VStr s) = false.
Proof.
  intros Hne. unfold falsy; cbn. destruct (String.eqb_spec s ""); [contradiction | reflexivity].
Qed.

Lemma lastMsOfDay_value : lastMsOfDay = msPerDay - 1.
Proof. reflexivity. Qed.

(** The day of an instant, and the bounds of the instants whose days are
    all dates. *)
Lemma day_bounds t :
  - maxTime <= t < maxTime ->
  Day t * msPerDay <= t <= Day t * msPerDay + lastMsOfDay
  /\ Z.abs (Day t * msPerDay) <= maxTime
  /\ Z.abs (Day t * msPerDay + lastMsOfDay) <= maxTime.
Proof.
  unfold Day, lastMsOfDay, MakeTime, msPerDay, maxTime. intros Ht.
  pose proof (Z.div_mod t 86400000 ltac:(lia)) as Hdm.
  pose proof (Z.mod_pos_bound t 86400000 ltac:(lia)) as Hmod.
  lia.
Qed.

Lemma day_start dateString t :
  Date_parse (VStr dateString) = Some t -> - maxTime <= t < maxTime ->
  startOfDay dateString = Some (Day t * msPerDay).
Proof.
  intros Hparse Ht. unfold startOfDay, setUTCHours, TimeClip, MakeDate. rewrite Hparse.
  change (MakeTime 0 0 0 0) with 0. rewrite Z.add_0_r.
  destruct (day_bounds t Ht) as (_ & Hlo & _).
  apply Z.leb_le in Hlo. now rewrite Hlo.
Qed.

Lemma day_end dateString t :
  Date_parse (VStr dateString) = Some t -> - maxTime <= t < maxTime ->
  endOfDay dateString = Some (Day t * msPerDay + lastMsOfDay).
Proof.
  intros Hparse Ht. unfold endOfDay, setUTCHours, TimeClip, MakeDate. rewrite Hparse.
  fold lastMsOfDay.
  destruct (day_bounds t Ht) as (_ & _ & Hhi).
  apply Z.leb_le in Hhi. now rewrite Hhi.
Qed.

(** The filter of the two handlers selects the entries of the owner that
    lie in the day of the parsed date. *)
Lemma on_day_spec owner oid dateString t doc :
  Date_parse (VStr dateString) = Some t -> - maxTime <= t < maxTime ->
  on_day owner oid dateString doc = field_is [owner] oid doc && in_utc_day (Day t) doc.
Proof.
  intros Hparse Ht. unfold on_day, date_between, in_utc_day.
  now rewrite (day_start _ _ Hparse Ht), (day_end _ _ Hparse Ht).
Qed.

(** An entry lies in a day exactly when its date is an instant of that
    day. *)
Lemma in_utc_day_iff day doc :
  in_utc_day day doc = true <-> exists t, field ["date"] doc = VDate (Some t) /\ Day t = day.
Proof.
  unfold in_utc_day, Day, lastMsOfDay, MakeTime, msPerDay.
  destruct (field ["date"] doc) as [| | | | | |[t|]| |];
    try (split; [discriminate | intros (t' & [=] & _)]).
  split.
  - intros [Hlo Hhi]%andb_true_iff. apply Z.leb_le in Hlo, Hhi.
    exists t. split; [reflexivity|].
    symmetry. apply (Z.div_unique t 86400000 day (t - day * 86400000)); lia.
  - intros (t' & [= <-] & <-).
    pose proof (Z.div_mod t 86400000 ltac:(lia)).
    pose proof (Z.mod_pos_bound t 86400000 ltac:(lia)).
    apply andb_true_iff; split; apply Z.leb_le; lia.
Qed.

(** C9. For a path identifier that the driver accepts and a date text that
    parses to an instant [t] whose day lies within the range of dates, the
    user route answers 200 with exactly the documents of the user's
    entries whose owner field matches the identifier and whose date lies
    between 00:00:00.000 and 23:59:59.999 UTC of the day of [t], in
    stored order, after one [find]; the group route does the same on the
    group entries. *)
Theorem day_entries_are_the_entries_of_the_day
  (param dateString hex : string) (t : Z) (w : world) :
  param <> "" -> dateString <> "" ->
  ObjectId_isValid (VStr param) = true ->
  ObjectId_new (VStr param) = Ok hex ->
  Date_parse (VStr dateString) = Some t ->
  - maxTime <= t < maxTime ->
  get_user_habitEntries param dateString w
  = (Ok (mkResponse 200
           (VArr (filter (fun e => field_is ["userId"] (VOid hex) e && in_utc_day (Day t) e)
                         (documents "userHabitEntries" (db w))))),
     logged (OpFind "userHabitEntries") w)
  /\ get_group_habitEntries param dateString w
     = (Ok (mkResponse 200
              (VArr (filter (fun e => field_is ["groupId"] (VOid hex) e && in_utc_day (Day t) e)
                            (documents "groupHabitEntries" (db w))))),
        logged (OpFind "groupHabitEntries") w).
Proof.
  intros Hp Hd Hvalid Hnew Hparse Ht.
  unfold get_user_habitEntries, get_group_habitEntries.
  rewrite (falsy_nonempty _ Hp), (falsy_nonempty _ Hd), Hvalid. cbn [orb negb].
  unfold try_catch, new_ObjectId, find, bind, lift, log_op, read_collection, ret, json, logged.
  rewrite Hnew. cbn. rewrite !map_id.
  split; do 4 f_equal; apply filter_ext; intros e; now apply on_day_spec.
Qed.

End DayQueries.

(** Of the five entries of [threeDays], the day 2024-05-01 has the three
    in the middle, its first and last millisecond included. *)
Lemma day_entries_are_the_entries_of_the_day_witness :
  get_user_habitEntries alice "2024-05-01" threeDays
  = (Ok (mkResponse 200 (VArr [entry_at 1714521600000; entry_at 1714564800000;
                               entry_at 1714607999999])),
     logged (OpFind "userHabitEntries") threeDays)
  /\ get_group_habitEntries alice "2024-05-01" threeDays
     = (Ok (mkResponse 200 (VArr [])), logged (OpFind "groupHabitEntries") threeDays).
Proof.
  apply (day_entries_are_the_entries_of_the_day alice "2024-05-01" alice
           (19844 * msPerDay) threeDays);
    try (vm_compute; reflexivity); try discriminate.
  vm_compute. split; [intros [=] | reflexivity].
Defined.

(** ** Equality of values *)

Lemma value_eqb_eq : forall a b, value_eqb a b = true -> a = b.
Proof.
  fix IH 1.
  intros [| |x|x|x|x|x|xs|fs] [| |y|y|y|y|y|ys|gs]; cbn; try discriminate; try reflexivity.
  - intros H%Bool.eqb_prop. now subst.
  - intros H%Z.eqb_eq. now subst.
  - intros H%String.eqb_eq. now subst.
  - intros H%String.eqb_eq. now subst.
  - destruct x, y; cbn; try discriminate; [|reflexivity]. intros H%Z.eqb_eq. now subst.
  - intros H. f_equal. revert ys H.
    induction xs as [|x xs IHxs]; intros [|y ys]; try discriminate; [reflexivity|].
    intros [H1 H2]%andb_true_iff. f_equal; [now apply IH | now apply IHxs].
  - intros H. f_equal. revert gs H.
    induction fs as [|[k x] fs IHfs]; intros [|[k' y] gs]; try discriminate; [reflexivity|].
    intros [[H0 H1]%andb_true_iff H2]%andb_true_iff.
    apply String.eqb_eq in H0. subst. f_equal; [f_equal; now apply IH | now apply IHfs].
Qed.

Lemma value_eqb_refl : forall a, value_eqb a a = true.
Proof.
  fix IH 1.
  intros [| |x|x|x|x|x|xs|fs]; cbn; try reflexivity.
  - now destruct x.
  - apply Z.eqb_refl.
  - apply String.eqb_refl.
  - apply String.eqb_refl.
  - destruct x; cbn; [apply Z.eqb_refl | reflexivity].
  - induction xs as [|x xs IHxs]; [reflexivity|]. now rewrite IH, IHxs.
  - induction fs as [|[k x] fs IHfs]; [reflexivity|]. now rewrite String.eqb_refl, IH, IHfs.
Qed.

Lemma value_eqb_spec a b : value_eqb a b = true <-> a = b.
Proof. split; [apply value_eqb_eq | intros ->; apply value_eqb_refl]. Qed.
(** ** Grouping: [$group] counts the occurrences of each key *)

Lemma value_eqb_false a b : a <> b -> value_eqb a b = false.
Proof.
  intros Hne. destruct (value_eqb a b) eqn:E; [|reflexivity].
  apply value_eqb_eq in E. contradiction.
Qed.

Lemma glookup_bump key k groups :
  glookup k (bump key groups)
  = if value_eqb key k
    then Some (match glookup key groups with Some n => n + 1 | None => 1 end)
    else glookup k groups.
Proof.
  induction groups as [|[k0 n0] groups IH]; cbn.
  - destruct (value_eqb key k); reflexivity.
  - destruct (value_eqb k0 key) eqn:E0; cbn.
    + apply value_eqb_eq in E0; subst k0.
      destruct (value_eqb key k); reflexivity.
    + rewrite IH. destruct (value_eqb key k) eqn:E1; [|reflexivity].
      apply value_eqb_eq in E1; subst k. now rewrite E0.
Qed.

Lemma bump_keys key groups :
  map fst (bump key groups)
  = if existsb (fun k => value_eqb k key) (map fst groups)
    then map fst groups else (map fst groups ++ [key])%list.
Proof.
  induction groups as [|[k0 n0] groups IH]; cbn; [reflexivity|].
  destruct (value_eqb k0 key) eqn:E0; cbn; [reflexivity|].
  rewrite IH. now destruct (existsb _ _).
Qed.

Lemma bump_NoDup key groups :
  NoDup (map fst groups) -> NoDup (map fst (bump key groups)).
Proof.
  intros Hnd. rewrite bump_keys.
  destruct (existsb _ _) eqn:E; [exact Hnd|].
  apply NoDup_app; [exact Hnd | repeat constructor; intros [] |].
  intros k Hin [Hk|[]]. subst k.
  assert (existsb (fun k' => value_eqb k' key) (map fst groups) = true); [|congruence].
  apply existsb_exists. exists key. split; [exact Hin | apply value_eqb_refl].
Qed.

Lemma In_glookup k n groups :
  NoDup (map fst groups) -> (In (k, n) groups <-> glookup k groups = Some n).
Proof.
  induction groups as [|[k0 n0] groups IH]; cbn; intros Hnd.
  - split; [intros [] | discriminate].
  - inversion Hnd as [|? ? Hnotin Hnd']; subst.
    destruct (value_eqb k0 k) eqn:E.
    + apply value_eqb_eq in E; subst k0. split.
      * intros [[= ->] | Hin]; [reflexivity|].
        exfalso. apply Hnotin. apply in_map_iff. exists (k, n). auto.
      * intros [= ->]. now left.
    + rewrite <- (IH Hnd'). split; [|auto].
      intros [[= -> ->] | Hin]; [|exact Hin].
      now rewrite value_eqb_refl in E.
Qed.

Section Grouping.

Variable key : value -> value.

Lemma groups_of_snoc docs d : groups_of key (docs ++ [d]) = bump (key d) (groups_of key docs).
Proof. unfold groups_of. now rewrite fold_left_app. Qed.

Lemma count_key_snoc k docs d :
  count_key key k (docs ++ [d]) = count_key key k docs + (if value_eqb (key d) k then 1 else 0).
Proof.
  unfold count_key. rewrite filter_app, length_app; cbn.
  destruct (value_eqb (key d) k); cbn; lia.
Qed.

Lemma count_key_nonneg k docs : 0 <= count_key key k docs.
Proof. unfold count_key. lia. Qed.

Lemma groups_of_NoDup docs : NoDup (map fst (groups_of key docs)).
Proof.
  induction docs as [|d docs IH] using rev_ind; [constructor|].
  rewrite groups_of_snoc. now apply bump_NoDup.
Qed.

Lemma groups_of_lookup k docs :
  glookup k (groups_of key docs)
  = if count_key key k docs =? 0 then None else Some (count_key key k docs).
Proof.
  induction docs as [|d docs IH] using rev_ind; [reflexivity|].
  rewrite groups_of_snoc, glookup_bump, count_key_snoc.
  pose proof (count_key_nonneg k docs) as Hk.
  destruct (value_eqb (key d) k) eqn:E.
  - apply value_eqb_eq in E; subst k. rewrite IH.
    destruct (Z.eqb_spec (count_key key (key d) docs) 0) as [->|Hne]; cbn; [reflexivity|].
    destruct (Z.eqb_spec (count_key key (key d) docs + 1) 0); [lia | reflexivity].
  - rewrite IH, Z.add_0_r. reflexivity.
Qed.

(** The groups are the keys that occur, each with the number of its
    occurrences. *)
Lemma groups_of_In k n docs :
  In (k, n) (groups_of key docs) <-> n = count_key key k docs /\ 0 < n.
Proof.
  rewrite (In_glookup _ _ _ (groups_of_NoDup docs)), groups_of_lookup.
  pose proof (count_key_nonneg k docs) as Hk.
  destruct (Z.eqb_spec (count_key key k docs) 0) as [H0|Hne].
  - split; [discriminate | lia].
  - split; [intros [= <-]; lia | intros [-> _]; reflexivity].
Qed.

End Grouping.
(** ** Sorting: [$sort] puts a least document first *)

Section Sorting.

Variable le : value -> value -> bool.

Lemma insert_sorted_In x y l : In x (insert_sorted le y l) <-> x = y \/ In x l.
Proof.
  induction l as [|z l IH]; cbn.
  - intuition.
  - destruct (le y z); cbn; [intuition|]. rewrite IH. intuition.
Qed.

Lemma sort_docs_In x l : In x (sort_docs le l) <-> In x l.
Proof.
  induction l as [|y l IH]; cbn; [reflexivity|].
  rewrite insert_sorted_In, IH. intuition.
Qed.

Hypothesis le_total : forall a b, le a b = true \/ le b a = true.
Hypothesis le_trans : forall a b c, le a b = true -> le b c = true -> le a c = true.

Lemma insert_sorted_sorted x l :
  StronglySorted (fun a b => le a b = true) l ->
  StronglySorted (fun a b => le a b = true) (insert_sorted le x l).
Proof.
  induction 1 as [|y l Hsorted IH Hall]; cbn.
  - repeat constructor.
  - destruct (le x y) eqn:E.
    + constructor; [now constructor|].
      constructor; [exact E|].
      eapply Forall_impl; [|exact Hall]. intros z Hz. now apply (le_trans x y z).
    + constructor; [exact IH|].
      apply Forall_forall. intros z Hz%insert_sorted_In.
      destruct Hz as [->|Hz].
      * destruct (le_total x y); congruence.
      * rewrite Forall_forall in Hall. now apply Hall.
Qed.

Lemma sort_docs_sorted l : StronglySorted (fun a b => le a b = true) (sort_docs le l).
Proof.
  induction l as [|x l IH]; cbn; [constructor | now apply insert_sorted_sorted].
Qed.

(** The first document of a sorted list is below every document. *)
Lemma sort_docs_head x rest l :
  sort_docs le l = x :: rest -> In x l /\ forall y, In y l -> le x y = true.
Proof.
  intros Hsort. split.
  - apply sort_docs_In. rewrite Hsort. now left.
  - intros y Hy%sort_docs_In.
    pose proof (sort_docs_sorted l) as Hs. rewrite Hsort in *.
    destruct Hy as [<-|Hy].
    + destruct (le_total x x); assumption.
    + apply StronglySorted_inv in Hs as [_ Hall].
      rewrite Forall_forall in Hall. now apply Hall.
Qed.

Lemma sort_docs_nil l : sort_docs le l = [] -> l = [].
Proof.
  destruct l as [|x l]; [reflexivity|]. intros H.
  assert (Hin : In x (sort_docs le (x :: l))) by (apply sort_docs_In; now left).
  rewrite H in Hin. destruct Hin.
Qed.

End Sorting.

(** ** The most logged habit *)

Section MostLogged.

Context {RT : Runtime}.

Lemma field_not_undef path doc : field path doc <> VUndef.
Proof. unfold field. destruct (get_path path doc); discriminate. Qed.

Lemma field_of_field k v rest :
  v <> VUndef -> field [k] (VObj ((k, v) :: rest)) = v.
Proof.
  intros Hv. unfold field; cbn. rewrite String.eqb_refl. destruct v; congruence.
Qed.

(** What reaches the second sort: one document for each stored habit that
    the user logged at least once, with the number of its entries. *)
Lemma candidates_In u d entries x :
  In x (candidates u d entries)
  <-> exists h,
        x = joined (field ["_id"] h)
                   (times_logged (field ["_id"] h) (filter (field_is ["userId"] u) entries)) h
        /\ In h (documents "habits" d)
        /\ 0 < times_logged (field ["_id"] h) (filter (field_is ["userId"] u) entries).
Proof.
  unfold candidates, unwind, lookup, group_count.
  set (es := filter (field_is ["userId"] u) entries).
  rewrite in_flat_map. split.
  - intros (j & Hj & Hx).
    apply in_map_iff in Hj as (g & <- & Hg).
    apply sort_docs_In, in_map_iff in Hg as ([k n] & <- & Hkn).
    apply (groups_of_In (field ["habitId"])) in Hkn as (Hn & Hpos).
    cbn in Hx. apply in_map_iff in Hx as (h & <- & Hh).
    apply filter_In in Hh as (Hh & Heq).
    assert (Hk : k <> VUndef).
    { intros ->. unfold count_key in Hn. 
      assert (filter (fun d0 => value_eqb (field ["habitId"] d0) VUndef) es = []) as Hnil.
      { clear. induction es as [|e l IH]; cbn; [reflexivity|].
        rewrite value_eqb_false by apply field_not_undef. exact IH. }
      rewrite Hnil in Hn. cbn in Hn. lia. }
    rewrite (field_of_field "_id" k _ Hk) in Heq.
    apply value_eqb_eq in Heq. subst k.
    exists h. cbn. unfold times_logged. fold es. unfold count_key in Hn. rewrite <- Hn.
    repeat split; [exact Hh | exact Hpos].
  - intros (h & -> & Hh & Hpos).
    set (k := field ["_id"] h) in *. set (n := times_logged k es) in *.
    exists (assign "habitDetails"
              (VArr (filter (fun f => value_eqb (field ["_id"] f)
                                        (field ["_id"] (VObj [("_id", k); ("count", VNum n)])))
                            (documents "habits" d)))
              (VObj [("_id", k); ("count", VNum n)])).
    split.
    + apply in_map_iff. eexists; split; [reflexivity|].
      apply sort_docs_In, in_map_iff. exists (k, n). split; [reflexivity|].
      apply (groups_of_In (field ["habitId"])). split; [reflexivity | exact Hpos].
    + cbn. apply in_map_iff. exists h. split; [reflexivity|].
      apply filter_In. split; [exact Hh|].
      rewrite (field_of_field "_id" k _ (field_not_undef _ _)). apply value_eqb_refl.
Qed.


(** The handler answers with the first document of the second sort. *)
Lemma mostLogged_run userId hex w :
  userId <> "" ->
  ObjectId_isValid (VStr userId) = true ->
  ObjectId_new (VStr userId) = Ok hex ->
  get_mostLoggedHabit userId w
  = (Ok (match sort_docs by_count_then_createdAt
                 (candidates (VOid hex) (db w) (documents "userHabitEntries" (db w))) with
         | x :: _ => mkResponse 200 (project top_projection x)
         | [] => mkResponse 404 (message "No logged habits found for this user.")
         end),
     logged (OpAggregate "userHabitEntries") w).
Proof.
  intros Hne Hvalid Hnew. unfold get_mostLoggedHabit.
  rewrite (falsy_nonempty _ Hne), Hvalid. cbn [negb].
  unfold try_catch, new_ObjectId, aggregate, bind, lift, log_op, ret, json, logged.
  rewrite Hnew. cbn. unfold mostLogged_pipeline. fold (candidates (VOid hex) (db w) (documents "userHabitEntries" (db w))).
  destruct (sort_docs _ _); reflexivity.
Qed.

Lemma times_logged_pos k es :
  0 < times_logged k es <-> exists e, In e es /\ field ["habitId"] e = k.
Proof.
  unfold times_logged. split.
  - intros Hpos.
    destruct (filter (fun e => value_eqb (field ["habitId"] e) k) es) as [|e l] eqn:E;
      [cbn in Hpos; lia|].
    assert (Hin : In e (filter (fun e => value_eqb (field ["habitId"] e) k) es))
      by (rewrite E; now left).
    apply filter_In in Hin as [Hin Heq]. apply value_eqb_eq in Heq. eauto.
  - intros (e & Hin & Heq).
    assert (Hin' : In e (filter (fun e => value_eqb (field ["habitId"] e) k) es)).
    { apply filter_In. split; [exact Hin|]. subst k. apply value_eqb_refl. }
    destruct (filter _ es); [destruct Hin' | cbn; lia].
Qed.

Lemma joined_createdAt k n h :
  field ["habitDetails"; "createdAt"] (joined k n h) = field ["createdAt"] h.
Proof. reflexivity. Qed.

Lemma joined_count k n h : num (get "count" (joined k n h)) = n.
Proof. reflexivity. Qed.

Lemma project_joined k n h :
  let top := project top_projection (joined k n h) in
  get "_id" top = get "_id" h
  /\ get "title" top = get "title" h
  /\ get "completionCount" top = VNum n.
Proof.
  unfold project, top_projection, joined. cbn.
  destruct (get "_id" h), (get "title" h); cbn; auto.
Qed.

(** No candidate, no result. *)
Lemma mostLogged_none userId hex w :
  userId <> "" ->
  ObjectId_isValid (VStr userId) = true ->
  ObjectId_new (VStr userId) = Ok hex ->
  (forall e h, In e (user_entries (VOid hex) w) -> In h (documents "habits" (db w)) ->
               field ["_id"] h <> field ["habitId"] e) ->
  get_mostLoggedHabit userId w
  = (Ok (mkResponse 404 (message "No logged habits found for this user.")),
     logged (OpAggregate "userHabitEntries") w).
Proof.
  intros Hne Hvalid Hnew Hnone.
  rewrite (mostLogged_run userId hex w Hne Hvalid Hnew).
  destruct (sort_docs _ _) as [|x rest] eqn:E; [reflexivity|].
  exfalso.
  assert (Hx : In x (x :: rest)) by now left.
  rewrite <- E in Hx. apply sort_docs_In, candidates_In in Hx as (h & _ & Hh & Hpos).
  apply times_logged_pos in Hpos as (e & He & Heq).
  exact (Hnone e h He Hh (eq_sym Heq)).
Qed.

(** C10. When none of the user's log entries refers to a stored habit (the
    user has no entry, or every entry names a habit that no document of
    the habits has as [_id]), the route answers 404 with the message of
    the empty case: the join drops every group before the top one is
    taken. *)
Theorem most_logged_404_without_stored_habit (userId hex : string) (w : world) :
  userId <> "" ->
  ObjectId_isValid (VStr userId) = true ->
  ObjectId_new (VStr userId) = Ok hex ->
  (forall e, In e (user_entries (VOid hex) w) ->
             forall h, In h (documents "habits" (db w)) ->
                       field ["_id"] h <> field ["habitId"] e) ->
  get_mostLoggedHabit userId w
  = (Ok (mkResponse 404 (message "No logged habits found for this user.")),
     logged (OpAggregate "userHabitEntries") w).
Proof.
  intros Hne Hvalid Hnew Hnone.
  apply (mostLogged_none userId hex w Hne Hvalid Hnew).
  intros e h He Hh. exact (Hnone e He h Hh).
Qed.

Hypothesis bson_le_total : forall a b, bson_le a b = true \/ bson_le b a = true.
Hypothesis bson_le_trans :
  forall a b c, bson_le a b = true -> bson_le b c = true -> bson_le a c = true.
Hypothesis bson_le_dates :
  forall t t', bson_le (VDate (Some t)) (VDate (Some t')) = (t <=? t').

Lemma by_count_then_createdAt_total a b :
  by_count_then_createdAt a b = true \/ by_count_then_createdAt b a = true.
Proof.
  unfold by_count_then_createdAt.
  set (na := num (get "count" a)). set (nb := num (get "count" b)).
  destruct (Z.ltb_spec nb na); [now left|].
  destruct (Z.ltb_spec na nb); [now right|].
  assert (na = nb) as -> by lia. rewrite Z.eqb_refl. cbn.
  apply bson_le_total.
Qed.

Lemma by_count_then_createdAt_trans a b c :
  by_count_then_createdAt a b = true -> by_count_then_createdAt b c = true ->
  by_count_then_createdAt a c = true.
Proof.
  unfold by_count_then_createdAt.
  set (na := num (get "count" a)). set (nb := num (get "count" b)).
  set (nc := num (get "count" c)).
  intros Hab Hbc.
  apply orb_true_iff in Hab as [Hab | [Hab Hab']%andb_true_iff];
    apply orb_true_iff in Hbc as [Hbc | [Hbc Hbc']%andb_true_iff];
    apply orb_true_iff;
    try apply Z.ltb_lt in Hab; try apply Z.ltb_lt in Hbc;
    try apply Z.eqb_eq in Hab; try apply Z.eqb_eq in Hbc.
  - left. apply Z.ltb_lt. lia.
  - left. apply Z.ltb_lt. lia.
  - left. apply Z.ltb_lt. lia.
  - right. apply andb_true_iff. split; [apply Z.eqb_eq; lia|].
    now apply (bson_le_trans _ _ _ Hab' Hbc').
Qed.

(** C2, amended. Let the store order sort keys by a total preorder that
    orders dates by their time. When
    the user logged at least one stored habit, the route answers 200 with
    one result: the identifier, the title and the number of entries of a
    stored habit that the user logged, such that every other stored habit
    the user logged has fewer entries, or as many and a [createdAt] that
    sorts no lower, which for two dates means created no earlier; with
    three entries each for two habits, the one created first. When the
    user logged no stored habit, the route answers 404. *)
Theorem most_logged_habit_among_stored_habits (userId hex : string) (w : world) :
  userId <> "" ->
  ObjectId_isValid (VStr userId) = true ->
  ObjectId_new (VStr userId) = Ok hex ->
  let logs h := times_logged (field ["_id"] h) (user_entries (VOid hex) w) in
  let habits := documents "habits" (db w) in
  ((exists h, In h habits /\ 0 < logs h) ->
   exists top h,
     get_mostLoggedHabit userId w
     = (Ok (mkResponse 200 top), logged (OpAggregate "userHabitEntries") w)
     /\ In h habits /\ 0 < logs h
     /\ get "_id" top = get "_id" h
     /\ get "title" top = get "title" h
     /\ get "completionCount" top = VNum (logs h)
     /\ forall h', In h' habits -> 0 < logs h' ->
          logs h' < logs h
          \/ (logs h' = logs h
              /\ bson_le (field ["createdAt"] h) (field ["createdAt"] h') = true
              /\ forall t t', field ["createdAt"] h = VDate (Some t) ->
                              field ["createdAt"] h' = VDate (Some t') -> t <= t'))
  /\ ((forall h, In h habits -> logs h = 0) ->
      get_mostLoggedHabit userId w
      = (Ok (mkResponse 404 (message "No logged habits found for this user.")),
         logged (OpAggregate "userHabitEntries") w)).
Proof.
  intros Hne Hvalid Hnew logs habits. split.
  - intros (h0 & Hh0 & Hpos0).
    rewrite (mostLogged_run userId hex w Hne Hvalid Hnew).
    destruct (sort_docs _ _) as [|x rest] eqn:E.
    + exfalso. apply sort_docs_nil in E.
      assert (Hin : In (joined (field ["_id"] h0) (logs h0) h0)
                       (candidates (VOid hex) (db w) (documents "userHabitEntries" (db w)))).
      { apply candidates_In. exists h0. auto. }
      rewrite E in Hin. destruct Hin.
    + apply (sort_docs_head _ by_count_then_createdAt_total by_count_then_createdAt_trans)
        in E as (Hx & Hmin).
      apply candidates_In in Hx as (h & -> & Hh & Hpos).
      fold (user_entries (VOid hex) w) in *. fold (logs h) in *.
      destruct (project_joined (field ["_id"] h) (logs h) h) as (Hid & Htitle & Hcount).
      eexists _, h. repeat split; try eassumption.
      intros h' Hh' Hpos'.
      assert (Hin' : In (joined (field ["_id"] h') (logs h') h')
                        (candidates (VOid hex) (db w) (documents "userHabitEntries" (db w)))).
      { apply candidates_In. exists h'. auto. }
      apply Hmin in Hin'. unfold by_count_then_createdAt in Hin'.
      rewrite !joined_createdAt, !joined_count in Hin'.
      apply orb_true_iff in Hin' as [Hlt | [Heq Hle]%andb_true_iff].
      * left. now apply Z.ltb_lt.
      * right. split; [symmetry; now apply Z.eqb_eq|]. split; [exact Hle|].
        intros t t' Ht Ht'. rewrite Ht, Ht', bson_le_dates in Hle. now apply Z.leb_le.
  - intros Hzero. apply (mostLogged_none userId hex w Hne Hvalid Hnew).
    intros e h He Hh Heq.
    specialize (Hzero h Hh). unfold logs in Hzero.
    assert (0 < times_logged (field ["_id"] h) (user_entries (VOid hex) w)); [|lia].
    apply times_logged_pos. eauto.
Qed.
End MostLogged.

(** The order of [demoRuntime] is a total preorder. *)
Lemma demo_le_total a b : Demo.le a b = true \/ Demo.le b a = true.
Proof.
  unfold Demo.le.
  destruct (Demo.bson_rank a) as [ra ma], (Demo.bson_rank b) as [rb mb]; cbn.
  destruct (Z.ltb_spec ra rb); [now left|].
  destruct (Z.ltb_spec rb ra); [now right|].
  assert (ra = rb) as -> by lia. rewrite Z.eqb_refl; cbn.
  destruct (Z.leb_spec ma mb); [now left|].
  right. apply Z.leb_le. lia.
Qed.

Lemma demo_le_trans a b c :
  Demo.le a b = true -> Demo.le b c = true -> Demo.le a c = true.
Proof.
  unfold Demo.le.
  destruct (Demo.bson_rank a) as [ra ma], (Demo.bson_rank b) as [rb mb],
    (Demo.bson_rank c) as [rc mc]; cbn.
  rewrite !orb_true_iff, !andb_true_iff, !Z.ltb_lt, !Z.eqb_eq, !Z.leb_le. lia.
Qed.

Lemma demo_le_dates t t' : Demo.le (VDate (Some t)) (VDate (Some t')) = (t <=? t').
Proof. reflexivity. Qed.

(** The entry of [danglingEntry] names no stored habit. *)
Lemma most_logged_404_without_stored_habit_witness :
  user_entries (VOid alice) danglingEntry <> []
  /\ get_mostLoggedHabit alice danglingEntry
     = (Ok (mkResponse 404 (message "No logged habits found for this user.")),
        logged (OpAggregate "userHabitEntries") danglingEntry).
Proof.
  split; [vm_compute; discriminate|].
  apply (most_logged_404_without_stored_habit alice alice danglingEntry);
    [discriminate | reflexivity | reflexivity |].
  intros e _ h Hh. vm_compute in Hh. destruct Hh.
Defined.

(** C2, as stated, fails: [alice] has a log entry, created through the
    route that logs, and the most-logged route answers 404, not a
    result. *)
Lemma most_logged_needs_a_stored_habit :
  user_entries (VOid alice) danglingEntry
  = [VObj [("habitId", VOid running); ("userId", VOid alice);
           ("date", VDate (Some 1714521600000)); ("status", VStr "done");
           ("notes", VNull); ("_id", VOid "f00000000000000000000000")]]
  /\ status (answer (handle (PostUserHabitEntries dangling_payload) emptyWorld)) = 201
  /\ answer (get_mostLoggedHabit alice danglingEntry)
     = mkResponse 404 (message "No logged habits found for this user.").
Proof. vm_compute. repeat split. Qed.

(** Three entries each: the result is [swimming], created first. *)
Example tie_goes_to_the_older_habit :
  answer (get_mostLoggedHabit alice tiedHabits)
  = mkResponse 200 (VObj [("_id", VOid swimming); ("title", VStr "swim");
                          ("completionCount", VNum 3)]).
Proof. vm_compute. reflexivity. Qed.

Lemma most_logged_habit_among_stored_habits_witness :
  exists top h,
    get_mostLoggedHabit alice tiedHabits
    = (Ok (mkResponse 200 top), logged (OpAggregate "userHabitEntries") tiedHabits)
    /\ In h (documents "habits" (db tiedHabits))
    /\ 0 < times_logged (field ["_id"] h) (user_entries (VOid alice) tiedHabits)
    /\ get "_id" top = get "_id" h
    /\ get "title" top = get "title" h
    /\ get "completionCount" top
       = VNum (times_logged (field ["_id"] h) (user_entries (VOid alice) tiedHabits))
    /\ forall h', In h' (documents "habits" (db tiedHabits)) ->
         0 < times_logged (field ["_id"] h') (user_entries (VOid alice) tiedHabits) ->
         times_logged (field ["_id"] h') (user_entries (VOid alice) tiedHabits)
         < times_logged (field ["_id"] h) (user_entries (VOid alice) tiedHabits)
         \/ (times_logged (field ["_id"] h') (user_entries (VOid alice) tiedHabits)
             = times_logged (field ["_id"] h) (user_entries (VOid alice) tiedHabits)
             /\ bson_le (field ["createdAt"] h) (field ["createdAt"] h') = true
             /\ forall t t', field ["createdAt"] h = VDate (Some t) ->
                             field ["createdAt"] h' = VDate (Some t') -> t <= t').
Proof.
  apply (proj1 (most_logged_habit_among_stored_habits (RT := demoRuntime)
                  demo_le_total demo_le_trans demo_le_dates alice alice tiedHabits
                  ltac:(discriminate) eq_refl eq_refl)).
  exists (habit_doc swimming "swim" 1000). split; [right; left; reflexivity|].
  vm_compute. reflexivity.
Defined.

(** ** Group creation with a member list *)

Section GroupMembers.

Context {RT : Runtime}.

Lemma mapM_new_ObjectId_throws ids bad e0 w :
  In bad ids -> ObjectId_new bad = Throw e0 ->
  exists x e, In x ids /\ ObjectId_new x = Throw e
              /\ mapM new_ObjectId ids w = (Throw e, w).
Proof.
  induction ids as [|x ids IH]; intros Hin Hbad; [destruct Hin|].
  cbn. unfold bind at 1. unfold new_ObjectId at 1, bind, lift, ret.
  destruct (ObjectId_new x) as [hex|e] eqn:Hx.
  - destruct Hin as [->|Hin]; [congruence|].
    destruct (IH Hin Hbad) as (y & e & Hy & Hye & Hrun).
    exists y, e. split; [now right|]. split; [exact Hye|].
    unfold bind in Hrun. now rewrite Hrun.
  - exists x, e. split; [now left|]. split; [exact Hx | reflexivity].
Qed.

(** The members are converted while [groupToInsert] is built, before the
    loop that validates them: a member on which the constructor throws
    ends the request in the [catch], with status 500, and nothing is
    inserted. *)
Lemma malformed_member_is_answered_500 (newGroupData : value) (w : world)
  (owner : string) (ids : list value) (bad : value) (e0 : error) :
  (forall v e, ObjectId_new v = Throw e -> is_duplicate_key e = false) ->
  truthy (get "name" newGroupData) = true ->
  truthy (get "ownerId" newGroupData) = true ->
  ObjectId_isValid (get "ownerId" newGroupData) = true ->
  ObjectId_new (get "ownerId" newGroupData) = Ok owner ->
  get "memberIds" newGroupData = VArr ids ->
  In bad ids -> ObjectId_new bad = Throw e0 ->
  exists e,
    post_groups newGroupData w
    = (Ok (mkResponse 500 (failure "Failed to create group." e)), w).
Proof.
  intros Hcode Hname Howner Hvalid Hnew Hids Hin Hbad.
  destruct (mapM_new_ObjectId_throws ids bad e0 w Hin Hbad) as (x & e & _ & Hx & Hrun).
  exists e. unfold post_groups, falsy.
  assert (Hbody : truthy newGroupData = true).
  { destruct newGroupData; try reflexivity; cbn in Hname; discriminate. }
  rewrite Hbody, Hname, Howner, Hvalid, Hids. cbn [negb orb truthy].
  unfold try_catch, bind at 1. unfold new_ObjectId at 1, bind at 1, lift. rewrite Hnew.
  unfold ret at 1. unfold bind at 1. unfold array_map, bind at 1.
  rewrite Hrun. rewrite (Hcode x e Hx). reflexivity.
Qed.

End GroupMembers.

(** C3, at the failing input. The second member of [bad_members_payload]
    is refused by [ObjectId.isValid]; the request is answered with status
    500 and the message of the [catch], not with 400. The world is as
    before: nothing was inserted. *)
Theorem malformed_member_gets_500_not_400 :
  ObjectId_isValid (VStr "not-an-id") = false
  /\ post_groups bad_members_payload emptyWorld
     = (Ok (mkResponse 500
              (VObj [("message", VStr "Failed to create group.");
                     ("error", VStr "input must be a 24 character hex string")])),
        emptyWorld).
Proof. split; vm_compute; reflexivity. Qed.

(** The validation loop is reached by a member that the constructor
    accepts and [ObjectId.isValid] refuses, such as [null]. *)
Example null_member_gets_400 :
  answer (post_groups (VObj [("name", VStr "runners"); ("ownerId", VStr alice);
                             ("memberIds", VArr [VNull])]) emptyWorld)
  = mkResponse 400 (message "Invalid memberId format: null").
Proof. vm_compute. reflexivity. Qed.

(** ** The completion summary of a group *)

Section Completion.

Context {RT : Runtime}.

Lemma toString_state v w : snd (toString v w) = w.
Proof. destruct v; reflexivity. Qed.

Lemma toString_missing v w :
  v = VUndef \/ v = VNull -> exists text, toString v w = (Throw (TypeError text), w).
Proof. intros [-> | ->]; eexists; reflexivity. Qed.

Lemma toString_outcome v w :
  (exists s, toString v w = (Ok s, w)) \/ (exists text, toString v w = (Throw (TypeError text), w)).
Proof. destruct v; cbn; unfold ret, throw; eauto. Qed.

(** The loop over the entries of the day reads [entry.userId]: one entry
    without that field, and the loop ends in a [TypeError]. *)
Lemma forEach_record_completion_throws entries acc w entry :
  In entry entries ->
  get "userId" entry = VUndef \/ get "userId" entry = VNull ->
  exists text, forEach record_completion acc entries w = (Throw (TypeError text), w).
Proof.
  revert acc. induction entries as [|e entries IH]; intros acc Hin Hmissing; [destruct Hin|].
  cbn. unfold bind at 1. unfold record_completion at 1. unfold bind at 1.
  destruct Hin as [-> | Hin].
  - destruct (toString_missing _ w Hmissing) as (text & ->). eauto.
  - destruct (toString_outcome (get "userId" e) w) as [(u & ->) | (text & ->)]; [|eauto].
    unfold bind at 1.
    destruct (toString_outcome (get "habitId" e) w) as [(h & ->) | (text & ->)]; [|eauto].
    destruct (acc !! u) as [seen|]; [unfold ret at 1; now apply IH|].
    destruct (inherited u); [unfold throw; eauto|].
    unfold ret at 1. now apply IH.
Qed.

(** Where the field is there, a second entry of the same user for the
    same habit changes nothing: the habits of a user are a set. *)
Lemma record_completion_twice entry acc w acc' :
  record_completion acc entry w = (Ok acc', w) ->
  record_completion acc' entry w = (Ok acc', w).
Proof.
  unfold record_completion, bind.
  destruct (toString_outcome (get "userId" entry) w) as [(u & ->) | (text & ->)];
    [|discriminate].
  destruct (toString_outcome (get "habitId" entry) w) as [(h & ->) | (text & ->)];
    [|discriminate].
  assert (Hagain : forall seen : gset string,
             <[u := seen ∪ {[h]} ∪ {[h]}]> (<[u := seen ∪ {[h]}]> acc)
             = <[u := seen ∪ {[h]}]> acc).
  { intros seen. rewrite insert_insert_eq.
    now rewrite <- (assoc_L (∪)), (idemp_L (∪) {[h]}). }
  destruct (acc !! u) as [seen|]; [|destruct (inherited u); [discriminate|]];
    unfold ret; intros Hrun; injection Hrun as <-;
    rewrite lookup_insert_eq, Hagain; reflexivity.
Qed.

(** An entry whose [userId] reads as a name that [userCompletionCounts]
    inherits ends the loop as well: what is found under the name is not a
    [Set]. *)
Lemma record_completion_inherited entry acc w :
  get "userId" entry = VStr "constructor" ->
  present (get "habitId" entry) = true ->
  acc !! "constructor" = None ->
  exists text, record_completion acc entry w = (Throw (TypeError text), w).
Proof.
  intros Hu Hh Hacc. unfold record_completion, bind. rewrite Hu. cbn [toString ret].
  destruct (get "habitId" entry); try discriminate Hh; cbn [toString ret];
    rewrite Hacc; eexists; reflexivity.
Qed.

End Completion.

(** C1, at the failing input. Before the confirmation the summary lists
    the member with no completed habit out of one. The confirmation is
    accepted and stored with the member under [checkedBy]; the entry has
    no [userId]. The summary of that day is then answered with status 400
    and the message for a malformed date, and lists no member. *)
Theorem completion_summary_breaks_on_a_confirmation :
  answer (get_group_completion runners "2024-05-01" beforeConfirmation)
  = mkResponse 200
      (VArr [VObj [("username", VStr "a"); ("email", VStr "a@x.com");
                   ("createdAt", VDate (Some 1714557600000));
                   ("_id", VOid member);
                   ("completedGroupHabits", VNum 0);
                   ("totalGroupHabits", VNum 1)]])
  /\ map status (fst (serve [confirmation] beforeConfirmation)) = [201]
  /\ documents "groupHabitEntries" (db afterConfirmation)
     = [VObj [("habitId", VOid jogging); ("groupId", VOid runners);
              ("date", VDate (Some 1714521600000));
              ("checkedBy", VArr [VOid member]);
              ("notes", VObj []);
              ("_id", VOid "f00000000000000000000004")]]
  /\ answer (get_group_completion runners "2024-05-01" afterConfirmation)
     = mkResponse 400 (message "Invalid date format provided. Use YYYY-MM-DD.").
Proof. vm_compute. repeat split. Qed.

(** * Further properties of the handlers *)

(** ** Rules for the effects of a computation *)

Section Effects.

Context {RT : Runtime}.

Lemma stable_ret {A} (a : A) : stable (ret a).
Proof. intros w. reflexivity. Qed.

Lemma stable_throw {A} (e : error) : stable (@throw A e).
Proof. intros w. reflexivity. Qed.

Lemma stable_lift {A} (o : outcome A) : stable (lift o).
Proof. intros w. reflexivity. Qed.

Lemma stable_json code b : stable (json code b).
Proof. intros w. reflexivity. Qed.

Lemma stable_sendStatus code : stable (sendStatus code).
Proof. intros w. reflexivity. Qed.

Lemma stable_Date_now : stable Date_now.
Proof. intros w. reflexivity. Qed.

Lemma stable_draw : stable draw.
Proof. intros w. reflexivity. Qed.

Lemma stable_log_op op : stable (log_op op).
Proof. intros w. reflexivity. Qed.

Lemma stable_read_collection name : stable (read_collection name).
Proof. intros w. reflexivity. Qed.

Lemma stable_bind {A B} (m : M A) (k : A -> M B) :
  stable m -> (forall a, stable (k a)) -> stable (bind m k).
Proof.
  intros Hm Hk w. unfold bind. specialize (Hm w).
  destruct (m w) as [[a|e] w1]; cbn in *; [|exact Hm].
  now rewrite Hk.
Qed.

Lemma stable_try_catch {A} (m : M A) (h : error -> M A) :
  stable m -> (forall e, stable (h e)) -> stable (try_catch m h).
Proof.
  intros Hm Hh w. unfold try_catch. specialize (Hm w).
  destruct (m w) as [[a|e] w1]; cbn in *; [exact Hm|].
  now rewrite Hh.
Qed.

Lemma stable_mapM {A B} (f : A -> M B) l : (forall x, stable (f x)) -> stable (mapM f l).
Proof.
  intros Hf. induction l as [|x l IH]; cbn; [apply stable_ret|].
  apply stable_bind; [apply Hf|]. intros y.
  apply stable_bind; [exact IH|]. intros ys. apply stable_ret.
Qed.

Lemma stable_forEach {A} (f : A -> value -> M A) l :
  (forall acc x, stable (f acc x)) -> forall acc, stable (forEach f acc l).
Proof.
  intros Hf. induction l as [|x l IH]; intros acc; cbn; [apply stable_ret|].
  apply stable_bind; [apply Hf | exact IH].
Qed.

Lemma stable_array_map f v : (forall x, stable (f x)) -> stable (array_map f v).
Proof.
  intros Hf. unfold array_map. destruct v; try apply stable_throw.
  apply stable_bind; [now apply stable_mapM|]. intros ys. apply stable_ret.
Qed.

End Effects.

Create HintDb store.

#[local] Hint Resolve stable_ret stable_throw stable_lift stable_json stable_sendStatus
  stable_Date_now stable_draw stable_log_op stable_read_collection : store.

(** Case analysis on the conditional or the match that heads a
    computation. *)
Ltac head_cases :=
  match goal with
  | |- _ (if ?c then _ else _) => destruct c
  | |- _ (match ?x with _ => _ end) => destruct x
  | |- _ _ (if ?c then _ else _) => destruct c
  | |- _ _ (match ?x with _ => _ end) => destruct x
  end.

Ltac stable_steps :=
  repeat first
    [ apply stable_bind; [|intros ?]
    | apply stable_try_catch; [|intros ?]
    | apply stable_mapM; intros ?
    | apply stable_array_map; intros ?
    | apply stable_forEach; intros ? ?
    | solve [auto with store]
    | progress cbv zeta
    | head_cases ].

Section ReadsAndWrites.

Context {RT : Runtime}.

Lemma stable_new_ObjectId v : stable (new_ObjectId v).
Proof. unfold new_ObjectId. stable_steps. Qed.

Lemma stable_toString v : stable (toString v).
Proof. unfold toString. stable_steps. Qed.

Lemma stable_prop k o : stable (prop k o).
Proof. unfold prop. stable_steps. Qed.

Lemma stable_for_of v : stable (for_of v).
Proof. unfold for_of. stable_steps. Qed.

Lemma stable_find name q proj : stable (find name q proj).
Proof. unfold find. stable_steps. Qed.

Lemma stable_findOne name q proj : stable (findOne name q proj).
Proof. unfold findOne. stable_steps. Qed.

Lemma stable_aggregate name pipeline : stable (aggregate name pipeline).
Proof. unfold aggregate. apply stable_bind; [apply stable_log_op|]. intros _ w. reflexivity. Qed.

Lemma stable_in_ids v : stable (in_ids v).
Proof. unfold in_ids. stable_steps. Qed.

End ReadsAndWrites.

#[local] Hint Resolve stable_new_ObjectId stable_toString stable_prop stable_for_of
  stable_find stable_findOne stable_aggregate stable_in_ids : store.

Section Reads.

Context {RT : Runtime} {TV : TokenVerifier}.

(** X2. The eight routes that read by identifier, and the login, leave
    every collection as it was, whatever they answer. *)
Theorem read_routes_never_write (r : request) (w : world) :
  is_write r = false -> db (snd (handle r w)) = db w.
Proof.
  intros Hread. revert w. change (stable (handle r)).
  destruct r as [b|b|b|b|b|b|route param]; try discriminate.
  - cbn [handle]. unfold post_login. stable_steps.
  - cbn [handle]. destruct route; cbn [handle_id];
      unfold get_user_habits, get_user_groups, get_group_habits,
        get_user_habitEntries, get_group_habitEntries, get_group_completion,
        get_mostLoggedHabit, get_user_createdAt, date_catch,
        record_completion, with_completion;
      stable_steps.
Qed.
End Reads.

Section WriteRules.

Context {RT : Runtime}.

Lemma insertOne_effect name doc w :
  match insertOne name doc w with
  | (Ok _, w') => appended name w w'
  | (Throw _, w') => db w' = db w
  end.
Proof.
  unfold insertOne, bind, log_op, read_collection, put_collection, draw, ret, throw, appended.
  destruct (get "_id" doc); cbn;
    match goal with
    | |- context [insert_rejected ?n ?ds ?d] => destruct (insert_rejected n ds d)
    end; cbn; eauto.
Qed.

Lemma writes_once_json name code b : code <> 201 -> writes_once name (json code b).
Proof. intros Hcode w. cbn. right. split; [exact Hcode | reflexivity]. Qed.

Lemma writes_once_bind {A} name (m : M A) (k : A -> M response) :
  stable m -> (forall a, writes_once name (k a)) -> writes_once name (bind m k).
Proof.
  intros Hm Hk w. unfold bind. specialize (Hm w).
  destruct (m w) as [[a|e] w1]; cbn in Hm; [|exact Hm].
  specialize (Hk a w1). destruct (k a w1) as [[r|e] w']; [|congruence].
  unfold appended in *. rewrite Hm in Hk. destruct Hk as [Hk|[Hs Hk]]; [now left|].
  right. split; [exact Hs | congruence].
Qed.

Lemma writes_once_insert name doc (f : value -> value) :
  writes_once name (bind (insertOne name doc) (fun inserted => json 201 (f inserted))).
Proof.
  intros w. unfold bind. pose proof (insertOne_effect name doc w) as He.
  destruct (insertOne name doc w) as [[d|e] w1]; cbn; [|exact He].
  left. split; [reflexivity | exact He].
Qed.

Lemma writes_once_try_catch name (m : M response) (h : error -> M response) :
  writes_once name m -> (forall e, writes_once name (h e)) ->
  writes_once name (try_catch m h).
Proof.
  intros Hm Hh w. unfold try_catch. specialize (Hm w).
  destruct (m w) as [[r|e] w1]; [exact Hm|].
  specialize (Hh e w1). destruct (h e w1) as [[r|e'] w']; [|congruence].
  unfold appended in *. rewrite Hm in Hh. destruct Hh as [Hh|[Hs Hh]]; [now left|].
  right. split; [exact Hs | congruence].
Qed.

Lemma yields_json codes code b : In code codes -> yields codes (json code b).
Proof. intros Hin w r w' H. apply json_Ok in H as [-> _]. exact Hin. Qed.

Lemma yields_bind {A} codes (m : M A) (k : A -> M response) :
  (forall a, yields codes (k a)) -> yields codes (bind m k).
Proof.
  intros Hk w r w' H. apply bind_Ok in H as (a & w1 & _ & H). exact (Hk a w1 r w' H).
Qed.

Lemma yields_try_catch codes (m : M response) (h : error -> M response) :
  yields codes m -> (forall e, yields codes (h e)) -> yields codes (try_catch m h).
Proof.
  intros Hm Hh w r w' H. apply try_catch_Ok in H as [H | (e & w1 & _ & H)].
  - exact (Hm w r w' H).
  - exact (Hh e w1 r w' H).
Qed.

Lemma caught_json code b : caught (json code b).
Proof. intros w. unfold json, ret. eauto. Qed.

Lemma caught_try_catch {A} (m : M A) (h : error -> M A) :
  (forall e, caught (h e)) -> caught (try_catch m h).
Proof.
  intros Hh w. unfold try_catch. destruct (m w) as [[a|e] w1]; [eauto | apply Hh].
Qed.

End WriteRules.

Ltac writes_steps :=
  repeat first
    [ apply writes_once_insert
    | apply writes_once_json; discriminate
    | apply writes_once_try_catch; [|intros ?]
    | apply writes_once_bind; [solve [stable_steps] | intros ?]
    | progress cbv zeta
    | head_cases ].

Ltac yields_steps :=
  repeat first
    [ apply yields_json; cbn; tauto
    | apply yields_try_catch; [|intros ?]
    | apply yields_bind; intros ?
    | progress cbv zeta
    | head_cases ].

Ltac caught_steps :=
  repeat first
    [ apply caught_json
    | apply caught_try_catch; intros ?
    | progress cbv zeta
    | head_cases ].

Ltac unfold_handlers :=
  cbn [handle handle_id];
  unfold post_habits, post_users, post_login, post_groups, post_userHabitEntries,
    post_groupHabitEntries, get_user_habits, get_user_groups, get_group_habits,
    get_user_habitEntries, get_group_habitEntries, get_group_completion,
    get_mostLoggedHabit, get_user_createdAt, date_catch.

Section AllRequests.

Context {RT : Runtime}.

(** X1. Every request is answered, with one exception: no exception
    leaves a handler, and the status is one of those the route has in its
    source. The exception is the login request without a body: the
    handler fails with a [TypeError] where it takes the body apart, before
    its [try], sends nothing and leaves the world as it was. *)
Theorem every_request_is_answered (r : request) (w : world) :
  if login_without_body r
  then exists text, handle r w = (Throw (TypeError text), w)
  else exists resp w', handle r w = (Ok resp, w') /\ In (status resp) (statuses_of r).
Proof.
  destruct (login_without_body r) eqn:Hbody.
  { destruct r as [b|b|b|b|b|b|route param]; try discriminate Hbody.
    destruct b; try discriminate Hbody; eexists; reflexivity. }
  assert (Hc : caught (handle r)).
  { destruct r as [b|b|b|b|b|b|route param];
      [| |destruct b; try discriminate Hbody | | | |destruct route];
      unfold_handlers; cbv iota; caught_steps. }
  assert (Hy : yields (statuses_of r) (handle r)).
  { destruct r as [b|b|b|b|b|b|route param];
      [| |destruct b; try discriminate Hbody | | | |destruct route];
      unfold_handlers; cbv iota; cbn [statuses_of]; yields_steps. }
  destruct (Hc w) as (resp & w' & Hrun).
  exists resp, w'. split; [exact Hrun | exact (Hy w resp w' Hrun)].
Qed.

(** X3. A write route either answers 201 and has appended exactly one
    document to its own collection, every other collection and every
    earlier document being as before, or answers another status and has
    left the store unchanged. *)
Theorem write_routes_append_one_document_or_nothing
  (r : request) (w w' : world) (resp : response) :
  is_write r = true ->
  handle r w = (Ok resp, w') ->
  (status resp = 201
   /\ exists doc,
        db w' = <[collection_of r := (documents (collection_of r) (db w) ++ [doc])%list]> (db w))
  \/ (status resp <> 201 /\ db w' = db w).
Proof.
  intros Hwrite Hrun.
  assert (Hw : writes_once (collection_of r) (handle r)).
  { destruct r as [b|b|b|b|b|b|route param]; try discriminate;
      unfold_handlers; cbn [collection_of]; writes_steps. }
  specialize (Hw w). rewrite Hrun in Hw. exact Hw.
Qed.

End AllRequests.

(** ** Validation of the write routes *)

Section WriteValidation.

Context {RT : Runtime}.

(** X4. A body in which a required field of the route is missing or falsy
    is answered with status 400, with the world as it was: no store
    operation was issued. The login request without any body is set
    apart: it is not answered. *)
Theorem missing_field_is_answered_400 (r : request) (k : string) (w : world) :
  login_without_body r = false ->
  In k (required_fields r) ->
  truthy (get k (body_of r)) = false ->
  exists b, handle r w = (Ok (mkResponse 400 b), w).
Proof.
  intros Hbody Hin Hk.
  destruct r as [b|b|b|b|b|b|route param]; cbn [required_fields body_of] in *;
    [| |destruct b; try discriminate Hbody | | | |destruct Hin];
    unfold_handlers; cbv iota; unfold falsy;
    repeat (destruct Hin as [<-|Hin]; [rewrite Hk; cbn [negb]; rewrite ?orb_true_r; cbn [orb];
                                        eexists; reflexivity|]);
    destruct Hin.
Qed.


Lemma find_refused ids bad :
  In bad ids -> ObjectId_isValid bad = false ->
  exists id, List.find (fun id => negb (ObjectId_isValid id)) ids = Some id.
Proof.
  intros Hin Hbad.
  destruct (List.find (fun id => negb (ObjectId_isValid id)) ids) eqn:E; [eauto|].
  apply (find_none _ _ E) in Hin. rewrite Hbad in Hin. discriminate.
Qed.

(** X6. A group entry whose [checkedBy] array has a member that
    [ObjectId.isValid] refuses is answered with status 400, with the world
    as it was: here the members are validated before they are
    converted. *)
Theorem refused_checkedBy_member_is_answered_400
  (newEntryData : value) (ids : list value) (bad : value) (w : world) :
  get "checkedBy" newEntryData = VArr ids ->
  In bad ids ->
  ObjectId_isValid bad = false ->
  exists b, post_groupHabitEntries newEntryData w = (Ok (mkResponse 400 b), w).
Proof.
  intros Hids Hin Hbad. unfold post_groupHabitEntries.
  destruct (_ || _); [eexists; reflexivity|].
  unfold try_catch.
  destruct (_ || _); [eexists; reflexivity|].
  rewrite Hids. cbn [truthy]. unfold for_of, bind at 1. unfold bind at 1. unfold ret at 1.
  unfold ret at 1.
  destruct (find_refused ids bad Hin Hbad) as (id & ->).
  eexists; reflexivity.
Qed.

End WriteValidation.

(** ** What an accepted write stores *)

Ltac passed E :=
  repeat (apply orb_false_iff in E; let F := fresh "Hpassed" in destruct E as [E F]);
  unfold falsy in *; rewrite ?negb_false_iff in *.

Section Accepted.

Context {RT : Runtime}.

Lemma post_users_201 newUserData w r w' :
  post_users newUserData w = (Ok r, w') -> status r = 201 ->
  truthy (get "email" newUserData) = true
  /\ truthy (get "password" newUserData) = true
  /\ exists hashedPassword,
       bcrypt_hash (get "password" newUserData) (bcrypt_genSalt 10 (counter w))
       = Ok hashedPassword
       /\ get "insertedId" (body r) = VOid (ObjectId_generate (N.succ (counter w)))
       /\ documents "users" (db w')
          = (documents "users" (db w)
             ++ [VObj [("username", to_bson (get "username" newUserData));
                       ("email", to_bson (get "email" newUserData));
                       ("password", VStr hashedPassword);
                       ("createdAt", VDate (Some (clock w)));
                       ("_id", VOid (ObjectId_generate (N.succ (counter w))))]])%list.
Proof.
  unfold post_users. intros H Hs.
  destruct (_ || _) eqn:E in H; [json_status H|]. passed E.
  apply try_catch_Ok in H as [H | (e & w1 & _ & H)];
    [|destruct (is_duplicate_key e); json_status H].
  cbn zeta in H.
  apply bind_Ok in H as (n & w1 & H1 & H).
  apply draw_Ok in H1 as (-> & Hdb & Hclock & Hcounter).
  apply bind_Ok in H as (hashedPassword & w2 & H1 & H).
  apply lift_Ok in H1 as (Hhash & ->).
  apply bind_Ok in H as (createdAt & w2 & H1 & H).
  apply Date_now_Ok in H1 as (-> & ->).
  apply bind_Ok in H as (inserted & w2 & H1 & H).
  apply json_Ok in H as [-> ->].
  pose proof H1 as Hfresh. apply insertOne_fresh in Hfresh as ->; [|reflexivity].
  apply insertOne_Ok in H1 as (Hdocs & _ & _).
  repeat split; try assumption.
  exists hashedPassword. rewrite Hcounter in *.
  repeat split; [exact Hhash|].
  rewrite Hdocs, Hdb, Hclock. reflexivity.
Qed.

(** X7. After an accepted signup with a new email, a login with that
    email and the same password answers 200 with a token that signs the
    inserted identifier and the stored username for one hour, provided
    [bcrypt.compare] accepts the hash that [bcrypt.hash] made of the
    password. *)
Theorem signup_then_login_succeeds
  (newUserData reqBody : value) (email : string) (w w' : world) (r : response) :
  (forall h, bcrypt_hash (get "password" newUserData) (bcrypt_genSalt 10 (counter w)) = Ok h ->
             bcrypt_compare (get "password" newUserData) (VStr h) = Ok true) ->
  get "email" newUserData = VStr email ->
  get "email" reqBody = VStr email ->
  get "password" reqBody = get "password" newUserData ->
  filter (field_is ["email"] (VStr email)) (documents "users" (db w)) = [] ->
  post_users newUserData w = (Ok r, w') ->
  status r = 201 ->
  fst (post_login reqBody w')
  = Ok (mkResponse 200
          (VObj [("message", VStr "Login successful!");
                 ("token",
                  VStr (jwt_sign (VObj [("id", get "insertedId" (body r));
                                        ("username", to_bson (get "username" newUserData))])
                                 jwtSecret "1h"))])).
Proof.
  intros Hlaw Hemail Hemail' Hpw Hnew Hrun Hs.
  destruct (post_users_201 _ _ _ _ Hrun Hs) as (He & Hp & hashed & Hhash & Hid & Hdocs).
  rewrite Hemail in He, Hdocs. cbn [to_bson] in Hdocs.
  destruct reqBody; try discriminate Hemail'.
  unfold post_login, falsy. rewrite Hemail', Hpw, He, Hp. cbn [negb orb].
  unfold try_catch, bind. rewrite findOne_by_string.
  unfold findOne, bind, log_op, read_collection, ret, lift, json.
  cbn [db]. rewrite Hdocs, filter_app, Hnew.
  assert (Hmatch : forall rest, field_is ["email"] (VStr email)
                     (VObj (("username", to_bson (get "username" newUserData))
                            :: ("email", VStr email) :: rest)) = true).
  { intros rest. unfold field_is, field; cbn. now rewrite String.eqb_refl. }
  cbn [filter app]. rewrite Hmatch. cbn [app id truthy negb get assoc String.eqb Ascii.eqb Bool.eqb].
  rewrite (Hlaw _ Hhash). cbn [negb]. rewrite Hid. reflexivity.
Qed.


(** X8. When the store rejects the user document of a signup, the answer
    is 409 for a duplicate-key error (code 11000) and 500 with the error's
    message for any other error, and no collection has changed. *)
Theorem rejected_signup_is_answered_409_or_500
  (newUserData : value) (w : world) (hashedPassword : string) (e : error) :
  truthy (get "username" newUserData) = true ->
  truthy (get "email" newUserData) = true ->
  truthy (get "password" newUserData) = true ->
  bcrypt_hash (get "password" newUserData) (bcrypt_genSalt 10 (counter w)) = Ok hashedPassword ->
  insert_rejected "users" (documents "users" (db w))
    (VObj [("username", to_bson (get "username" newUserData));
           ("email", to_bson (get "email" newUserData));
           ("password", VStr hashedPassword);
           ("createdAt", VDate (Some (clock w)));
           ("_id", VOid (ObjectId_generate (N.succ (counter w))))]) = Some e ->
  fst (post_users newUserData w)
  = Ok (if is_duplicate_key e
        then mkResponse 409 (message "User with that email or username already exists.")
        else mkResponse 500 (failure "Failed to create user." e))
  /\ db (snd (post_users newUserData w)) = db w.
Proof.
  intros Hu He Hp Hhash Hrej.
  assert (Hbody : truthy newUserData = true).
  { destruct newUserData; try reflexivity; cbn in Hu; discriminate. }
  assert (Hrun : post_users newUserData w
                 = (Ok (if is_duplicate_key e
                        then mkResponse 409
                               (message "User with that email or username already exists.")
                        else mkResponse 500 (failure "Failed to create user." e)),
                    mkWorld (db w) (clock w) (N.succ (N.succ (counter w)))
                            (oplog w ++ [OpInsertOne "users"]))).
  { unfold post_users, falsy. rewrite Hbody, Hu, He, Hp. cbn [negb orb].
    unfold try_catch, bind at 1. unfold draw at 1. cbv zeta.
    unfold bind at 1, lift at 1. rewrite Hhash.
    unfold bind at 1, Date_now at 1. cbn [clock].
    unfold bind at 1.
    unfold insertOne, bind, log_op, read_collection, put_collection, draw, ret, throw.
    cbn. rewrite Hrej. destruct (is_duplicate_key e); reflexivity. }
  rewrite Hrun. split; reflexivity.
Qed.

Lemma mapM_new_ObjectId_Ok ids w ys w' :
  mapM new_ObjectId ids w = (Ok ys, w') ->
  w' = w
  /\ Forall2 (fun id y => exists hex, ObjectId_new id = Ok hex /\ y = VOid hex) ids ys.
Proof.
  revert ys w w'. induction ids as [|id ids IH]; cbn; intros ys w w' H.
  - unfold ret in H. inversion H; subst. split; [reflexivity | constructor].
  - apply bind_Ok in H as (y & w1 & H1 & H).
    apply new_ObjectId_Ok in H1 as (hex & Hhex & -> & ->).
    apply bind_Ok in H as (ys' & w2 & H1 & H).
    apply IH in H1 as (-> & Hall).
    unfold ret in H. inversion H; subst.
    split; [reflexivity|]. constructor; [eauto | exact Hall].
Qed.

Lemma to_bson_oids ids ys :
  Forall2 (fun id y => exists hex, ObjectId_new id = Ok hex /\ y = VOid hex) ids ys ->
  map to_bson ys = ys.
Proof.
  induction 1 as [|id y ids ys (hex & _ & ->) _ IH]; cbn; [reflexivity | now rewrite IH].
Qed.

Lemma find_all_valid ids :
  List.find (fun id => negb (ObjectId_isValid id)) ids = None ->
  forall id, In id ids -> ObjectId_isValid id = true.
Proof.
  intros Hnone id Hin. apply (find_none _ _ Hnone) in Hin.
  now apply negb_false_iff in Hin.
Qed.

(** An accepted group: every input of [member_inputs] is a valid
    identifier, and the stored members are their conversions, in order. *)
Lemma post_groups_201 newGroupData w r w' :
  post_groups newGroupData w = (Ok r, w') -> status r = 201 ->
  exists members stored,
    Forall2 (fun id y => exists hex, ObjectId_new id = Ok hex /\ y = VOid hex)
            (member_inputs newGroupData) members
    /\ (forall id, In id (member_inputs newGroupData) -> ObjectId_isValid id = true)
    /\ documents "groups" (db w') = (documents "groups" (db w) ++ [stored])%list
    /\ get "memberIds" stored = VArr members
    /\ get "name" stored = to_bson (get "name" newGroupData)
    /\ get "_id" stored = get "insertedId" (body r).
Proof.
  unfold post_groups. intros H Hs.
  destruct (_ || _) eqn:E in H; [json_status H|]. passed E.
  apply try_catch_Ok in H as [H | (e & w1 & _ & H)];
    [|destruct (is_duplicate_key e); json_status H].
  destruct (negb _) eqn:Evalid in H; [json_status H|]. apply negb_false_iff in Evalid.
  apply bind_Ok in H as (ownerId & w1 & H1 & H).
  apply new_ObjectId_Ok in H1 as (owner & Howner & -> & ->).
  apply bind_Ok in H as (memberIds & w1 & Hmembers & H).
  apply bind_Ok in H as (createdAt & w2 & H1 & H).
  apply Date_now_Ok in H1 as (-> & ->).
  apply bind_Ok in H as (invalid & w3 & Hinvalid & H).
  destruct invalid as [id|]; [json_status H|].
  apply bind_Ok in H as (inserted & w4 & H1 & H).
  apply json_Ok in H as [-> ->].
  pose proof H1 as Hfresh. apply insertOne_fresh in Hfresh; [|reflexivity].
  apply insertOne_Ok in H1 as (Hdocs & _ & _).
  unfold member_inputs.
  destruct (truthy (get "memberIds" newGroupData)).
  - unfold array_map in Hmembers.
    destruct (get "memberIds" newGroupData) as [| | | | | | |ids|]; try discriminate.
    apply bind_Ok in Hmembers as (ys & w5 & Hmap & Hret).
    apply mapM_new_ObjectId_Ok in Hmap as (-> & Hall).
    unfold ret in Hret. inversion Hret; subst; clear Hret.
    unfold for_of in Hinvalid. apply bind_Ok in Hinvalid as (ids' & w6 & Hfor & Hret).
    unfold ret in Hfor, Hret. inversion Hfor; subst; clear Hfor. inversion Hret; subst; clear Hret.
    subst. eexists ys, _.
    split; [exact Hall|]. split; [now apply find_all_valid|]. split; [exact Hdocs|].
    cbn. now rewrite (to_bson_oids _ _ Hall).
  - apply bind_Ok in Hmembers as (o & w5 & H1 & Hret).
    apply new_ObjectId_Ok in H1 as (hex & Hhex & -> & ->).
    unfold ret in Hret, Hinvalid. inversion Hret; subst; clear Hret.
    inversion Hinvalid; subst; clear Hinvalid.
    eexists [VOid hex], _.
    split; [repeat constructor; eauto|].
    split; [intros id [<-|[]]; exact Evalid|]. split; [exact Hdocs|].
    cbn. repeat split.
Qed.

(** X9. After an accepted group creation, the groups of each user whose
    identifier was among the member inputs (the [memberIds] of the
    payload, or its [ownerId] where there are none) end with the new
    group. *)
Theorem new_group_is_listed_for_each_member
  (newGroupData : value) (userId : string) (w w' : world) (r : response) :
  userId <> "" ->
  In (VStr userId) (member_inputs newGroupData) ->
  post_groups newGroupData w = (Ok r, w') ->
  status r = 201 ->
  exists earlier stored,
    fst (get_user_groups userId w') = Ok (mkResponse 200 (VArr (earlier ++ [stored])))
    /\ get "_id" stored = get "insertedId" (body r)
    /\ get "name" stored = to_bson (get "name" newGroupData).
Proof.
  intros Hne Hin Hrun Hs.
  destruct (post_groups_201 _ _ _ _ Hrun Hs)
    as (members & stored & Hall & Hvalid & Hdocs & Hmembers & Hname & Hid).
  assert (Hhex : exists hex, ObjectId_new (VStr userId) = Ok hex /\ In (VOid hex) members).
  { clear - Hall Hin. induction Hall as [|id y ids ys (hex & Hhex & ->) _ IH]; [destruct Hin|].
    destruct Hin as [->|Hin].
    - exists hex. split; [exact Hhex | now left].
    - destruct (IH Hin) as (hex' & ? & ?). exists hex'. split; [assumption | now right]. }
  destruct Hhex as (hex & Hhex & Hmember).
  exists (filter (field_is ["memberIds"] (VOid hex)) (documents "groups" (db w))), stored.
  split; [|split; assumption].
  unfold get_user_groups. rewrite (falsy_nonempty _ Hne), (Hvalid _ Hin). cbn [negb].
  unfold try_catch, new_ObjectId, find, bind, lift, log_op, read_collection, ret, json.
  rewrite Hhex. cbn [db fst]. rewrite Hdocs, filter_app, map_id. cbn [filter].
  assert (Hlisted : field_is ["memberIds"] (VOid hex) stored = true).
  { unfold field_is, field. cbn [get_path]. rewrite Hmembers.
    apply orb_true_iff. right. apply existsb_exists.
    exists (VOid hex). split; [exact Hmember | apply value_eqb_refl]. }
  now rewrite Hlisted.
Qed.


Lemma get_spread_with_3 src k1 v1 k2 v2 k3 v3 :
  k1 <> k2 -> k1 <> k3 -> k2 <> k3 ->
  get k1 (spread_with src [(k1, v1); (k2, v2); (k3, v3)]) = v1
  /\ get k2 (spread_with src [(k1, v1); (k2, v2); (k3, v3)]) = v2
  /\ has_key k1 (spread_with src [(k1, v1); (k2, v2); (k3, v3)]) = true
  /\ has_key k2 (spread_with src [(k1, v1); (k2, v2); (k3, v3)]) = true
  /\ forall k, k <> k1 -> k <> k2 -> k <> k3 ->
       get k (spread_with src [(k1, v1); (k2, v2); (k3, v3)]) = get k src
       /\ has_key k (spread_with src [(k1, v1); (k2, v2); (k3, v3)]) = has_key k src.
Proof.
  intros H12 H13 H23. unfold spread_with; cbn [fold_left fst snd get has_key].
  rewrite !(assoc_set_other k1 k3), !(assoc_set_other k1 k2), !assoc_set_same by congruence.
  rewrite !(assoc_set_other k2 k3), !assoc_set_same by congruence.
  repeat split.
  all: rewrite !assoc_set_other by congruence; destruct src; reflexivity.
Qed.

(** An accepted habit. *)
Lemma post_habits_201 newHabitData w r w' :
  post_habits newHabitData w = (Ok r, w') -> status r = 201 ->
  exists createdBy assignedId stored,
    ObjectId_new (get "createdBy" newHabitData) = Ok createdBy
    /\ ObjectId_new (get "id" (get "assignedTo" newHabitData)) = Ok assignedId
    /\ ObjectId_isValid (get "createdBy" newHabitData) = true
    /\ ObjectId_isValid (get "id" (get "assignedTo" newHabitData)) = true
    /\ truthy (get "createdBy" newHabitData) = true
    /\ truthy (get "id" (get "assignedTo" newHabitData)) = true
    /\ documents "habits" (db w') = (documents "habits" (db w) ++ [stored])%list
    /\ get "createdBy" stored = VOid createdBy
    /\ get "assignedTo" stored
       = VObj [("type", to_bson (get "type" (get "assignedTo" newHabitData)));
               ("id", VOid assignedId)]
    /\ get "title" stored = to_bson (get "title" newHabitData).
Proof.
  unfold post_habits. intros H Hs.
  destruct (_ || _) eqn:E in H; [json_status H|]. passed E.
  cbn zeta in H.
  destruct (_ || _) eqn:E2 in H; [json_status H|]. passed E2.
  apply try_catch_Ok in H as [H | (e & w1 & _ & H)]; [|json_status H].
  destruct (_ || _) eqn:E3 in H; [json_status H|].
  apply orb_false_iff in E3 as [Ev1 Ev2]. apply negb_false_iff in Ev1, Ev2.
  apply bind_Ok in H as (createdBy & w1 & H1 & H).
  apply new_ObjectId_Ok in H1 as (c & Hc & -> & ->).
  apply bind_Ok in H as (assignedId & w1 & H1 & H).
  apply new_ObjectId_Ok in H1 as (a & Ha & -> & ->).
  apply bind_Ok in H as (createdAt & w1 & H1 & H).
  apply Date_now_Ok in H1 as (-> & ->).
  apply bind_Ok in H as (inserted & w1 & H1 & H).
  apply json_Ok in H as [-> ->].
  apply insertOne_Ok in H1 as (Hdocs & Hdoc & _).
  match type of Hdoc with
  | context [spread_with ?src [(?k1, ?v1); (?k2, ?v2); (?k3, ?v3)]] =>
      destruct (get_spread_with_3 src k1 v1 k2 v2 k3 v3)
        as (Hg1 & Hg2 & Hk1 & Hk2 & Hrest); try discriminate
  end.
  destruct (Hrest "title") as (Htitle & Hktitle); try discriminate.
  assert (Hhas : has_key "title" newHabitData = true).
  { destruct newHabitData; try discriminate. cbn in *.
    destruct (assoc "title" fields); [reflexivity | discriminate]. }
  exists c, a, (to_bson inserted).
  repeat split; try assumption.
  - rewrite get_to_bson.
    + destruct Hdoc as [-> | ->]; [|rewrite get_assign_other by discriminate]; now rewrite Hg1.
    + destruct Hdoc as [-> | ->]; [|rewrite has_key_assign_other by discriminate]; exact Hk1.
  - rewrite get_to_bson.
    + destruct Hdoc as [-> | ->]; [|rewrite get_assign_other by discriminate]; now rewrite Hg2.
    + destruct Hdoc as [-> | ->]; [|rewrite has_key_assign_other by discriminate]; exact Hk2.
  - rewrite get_to_bson.
    + destruct Hdoc as [-> | ->]; [|rewrite get_assign_other by discriminate]; now rewrite Htitle.
    + destruct Hdoc as [-> | ->]; [|rewrite has_key_assign_other by discriminate];
        now rewrite Hktitle.
Qed.

Lemma truthy_string s : truthy (VStr s) = true -> s <> "".
Proof. cbn. intros H ->. discriminate. Qed.

(** X10. After an accepted habit creation, the habits of the user named
    in [createdBy] end with the new habit. *)
Theorem new_habit_is_listed_for_its_creator
  (newHabitData : value) (userId : string) (w w' : world) (r : response) :
  get "createdBy" newHabitData = VStr userId ->
  post_habits newHabitData w = (Ok r, w') ->
  status r = 201 ->
  exists earlier stored,
    fst (get_user_habits userId w') = Ok (mkResponse 200 (VArr (earlier ++ [stored])))
    /\ documents "habits" (db w') = (documents "habits" (db w) ++ [stored])%list
    /\ get "title" stored = to_bson (get "title" newHabitData).
Proof.
  intros Hby Hrun Hs.
  destruct (post_habits_201 _ _ _ _ Hrun Hs)
    as (c & a & stored & Hc & Ha & Hv1 & Hv2 & Ht1 & Ht2 & Hdocs & Hcreated & Hassigned & Htitle).
  rewrite Hby in *. apply truthy_string in Ht1.
  eexists _, stored. split; [|split; assumption].
  unfold get_user_habits. rewrite (falsy_nonempty _ Ht1), Hv1. cbn [negb].
  unfold try_catch, new_ObjectId, find, bind, lift, log_op, read_collection, ret, json.
  rewrite Hc. cbn [db fst]. rewrite Hdocs, filter_app, map_id. cbn [filter].
  assert (Hlisted : field_is ["createdBy"] (VOid c) stored = true).
  { unfold field_is, field. cbn [get_path]. rewrite Hcreated. cbn. now rewrite String.eqb_refl. }
  rewrite Hlisted. reflexivity.
Qed.

(** X11. After the accepted creation of a habit assigned to a group, the
    habits of that group end with the new habit. *)
Theorem new_group_habit_is_listed_for_its_group
  (newHabitData : value) (groupId : string) (w w' : world) (r : response) :
  get "type" (get "assignedTo" newHabitData) = VStr "group" ->
  get "id" (get "assignedTo" newHabitData) = VStr groupId ->
  post_habits newHabitData w = (Ok r, w') ->
  status r = 201 ->
  exists earlier stored,
    fst (get_group_habits groupId w') = Ok (mkResponse 200 (VArr (earlier ++ [stored])))
    /\ documents "habits" (db w') = (documents "habits" (db w) ++ [stored])%list
    /\ get "title" stored = to_bson (get "title" newHabitData).
Proof.
  intros Htype Hid Hrun Hs.
  destruct (post_habits_201 _ _ _ _ Hrun Hs)
    as (c & a & stored & Hc & Ha & Hv1 & Hv2 & Ht1 & Ht2 & Hdocs & Hcreated & Hassigned & Htitle).
  rewrite Htype, Hid in *. apply truthy_string in Ht2.
  eexists _, stored. split; [|split; assumption].
  unfold get_group_habits. rewrite (falsy_nonempty _ Ht2), Hv2. cbn [negb].
  unfold try_catch, new_ObjectId, find, bind, lift, log_op, read_collection, ret, json.
  rewrite Ha. cbn [db fst]. rewrite Hdocs, filter_app, map_id. cbn [filter].
  assert (Hlisted : assigned_to_group (VOid a) stored = true).
  { unfold assigned_to_group, field_is, field. cbn [get_path]. rewrite Hassigned. cbn.
    now rewrite String.eqb_refl. }
  rewrite Hlisted. reflexivity.
Qed.


(** A date of the parsed instant's own day. *)
Lemma in_own_day t doc :
  field ["date"] doc = VDate (Some t) -> in_utc_day (Day t) doc = true.
Proof. intros Hdate. apply in_utc_day_iff. eauto. Qed.

(** X12. After an accepted user entry whose date text parses, the entries
    of that user for the same date text end with the new entry. *)
Theorem logged_entry_is_listed_on_its_day
  (newEntryData : value) (userId dateString : string) (t : Z) (w w' : world) (r : response) :
  get "userId" newEntryData = VStr userId ->
  get "date" newEntryData = VStr dateString ->
  Date_parse (VStr dateString) = Some t ->
  - maxTime <= t < maxTime ->
  post_userHabitEntries newEntryData w = (Ok r, w') ->
  status r = 201 ->
  exists earlier stored,
    fst (get_user_habitEntries userId dateString w')
    = Ok (mkResponse 200 (VArr (earlier ++ [stored])))
    /\ documents "userHabitEntries" (db w')
       = (documents "userHabitEntries" (db w) ++ [stored])%list
    /\ get "_id" stored = get "insertedId" (body r)
    /\ get "date" stored = VDate (Some t)
    /\ get "status" stored = to_bson (get "status" newEntryData).
Proof.
  intros Huser Hdate Hparse Ht. unfold post_userHabitEntries. intros H Hs.
  destruct (_ || _) eqn:E in H; [json_status H|]. passed E.
  apply try_catch_Ok in H as [H | (e & w1 & _ & H)];
    [|unfold date_catch in H; destruct (is_range_or_type_error e); json_status H].
  destruct (_ || _) eqn:E3 in H; [json_status H|].
  apply orb_false_iff in E3 as [Ev1 Ev2]. apply negb_false_iff in Ev1, Ev2.
  apply bind_Ok in H as (habitId & w1 & H1 & H).
  apply new_ObjectId_Ok in H1 as (h & Hh & -> & ->).
  apply bind_Ok in H as (uid & w1 & H1 & H).
  apply new_ObjectId_Ok in H1 as (u & Hu & -> & ->).
  apply bind_Ok in H as (inserted & w1 & H1 & H).
  apply json_Ok in H as [-> ->].
  pose proof H1 as Hfresh. apply insertOne_fresh in Hfresh; [|reflexivity].
  apply insertOne_Ok in H1 as (Hdocs & _ & _). subst inserted.
  rewrite Huser, Hdate in *. unfold new_Date in Hdocs. rewrite Hparse in Hdocs.
  match type of Hdocs with _ = (_ ++ [?doc])%list => set (stored := doc) in * end.
  match goal with
  | Hu' : truthy (VStr userId) = true, Hd' : truthy (VStr dateString) = true |- _ =>
      apply truthy_string in Hu', Hd';
      pose proof (falsy_nonempty _ Hu') as Hfu; pose proof (falsy_nonempty _ Hd') as Hfd
  end.
  eexists _, stored. split; [|repeat split; exact Hdocs].
  unfold get_user_habitEntries. rewrite Hfu, Hfd, Ev2. cbn [negb orb].
  unfold try_catch, new_ObjectId, find, bind, lift, log_op, read_collection, ret, json.
  rewrite Hu. cbn [db fst]. rewrite Hdocs, filter_app, map_id. cbn [filter].
  assert (Hlisted : on_day "userId" (VOid u) dateString stored = true).
  { rewrite (on_day_spec _ _ _ t _ Hparse Ht). apply andb_true_iff. split.
    - unfold field_is, field, stored. cbn. now rewrite String.eqb_refl.
    - apply in_own_day. reflexivity. }
  rewrite Hlisted. reflexivity.
Qed.

(** X13. After an accepted group entry whose date text parses, the
    entries of that group for the same date text end with the new entry,
    whose [checkedBy] holds the conversions of the members sent, in
    order. *)
Theorem confirmed_group_entry_is_listed_on_its_day
  (newEntryData : value) (groupId dateString : string) (t : Z) (w w' : world) (r : response) :
  get "groupId" newEntryData = VStr groupId ->
  get "date" newEntryData = VStr dateString ->
  Date_parse (VStr dateString) = Some t ->
  - maxTime <= t < maxTime ->
  post_groupHabitEntries newEntryData w = (Ok r, w') ->
  status r = 201 ->
  exists earlier stored,
    fst (get_group_habitEntries groupId dateString w')
    = Ok (mkResponse 200 (VArr (earlier ++ [stored])))
    /\ documents "groupHabitEntries" (db w')
       = (documents "groupHabitEntries" (db w) ++ [stored])%list
    /\ get "_id" stored = get "insertedId" (body r)
    /\ get "date" stored = VDate (Some t)
    /\ exists checkedBy,
         get "checkedBy" stored = VArr checkedBy
         /\ Forall2 (fun id y => exists hex, ObjectId_new id = Ok hex /\ y = VOid hex)
                    (if truthy (get "checkedBy" newEntryData)
                     then match get "checkedBy" newEntryData with
                          | VArr ids => ids
                          | _ => []
                          end
                     else [])
                    checkedBy.
Proof.
  intros Hgroup Hdate Hparse Ht. unfold post_groupHabitEntries. intros H Hs.
  destruct (_ || _) eqn:E in H; [json_status H|]. passed E.
  apply try_catch_Ok in H as [H | (e & w1 & _ & H)];
    [|unfold date_catch in H; destruct (is_range_or_type_error e); json_status H].
  destruct (_ || _) eqn:E3 in H; [json_status H|].
  apply orb_false_iff in E3 as [Ev1 Ev2]. apply negb_false_iff in Ev1, Ev2.
  apply bind_Ok in H as (invalid & w0 & Hinvalid & H).
  destruct invalid as [id|]; [json_status H|].
  assert (w0 = w) as ->.
  { destruct (truthy (get "checkedBy" newEntryData)).
    - apply bind_Ok in Hinvalid as (ids & w2 & Hfor & Hret).
      unfold for_of in Hfor. unfold ret in Hret. inversion Hret; subst.
      destruct (get "checkedBy" newEntryData); unfold ret, throw in Hfor;
        inversion Hfor; reflexivity.
    - unfold ret in Hinvalid. now inversion Hinvalid. }
  apply bind_Ok in H as (habitId & w1 & H1 & H).
  apply new_ObjectId_Ok in H1 as (h & Hh & -> & ->).
  apply bind_Ok in H as (gid & w1 & H1 & H).
  apply new_ObjectId_Ok in H1 as (g & Hg & -> & ->).
  apply bind_Ok in H as (checkedBy & w1 & Hchecked & H).
  apply bind_Ok in H as (inserted & w2 & H1 & H).
  apply json_Ok in H as [-> ->].
  pose proof H1 as Hfresh. apply insertOne_fresh in Hfresh; [|reflexivity].
  apply insertOne_Ok in H1 as (Hdocs & _ & _). subst inserted.
  assert (Hmembers : exists ys,
            checkedBy = VArr ys /\ w1 = w
            /\ Forall2 (fun id y => exists hex, ObjectId_new id = Ok hex /\ y = VOid hex)
                 (if truthy (get "checkedBy" newEntryData)
                  then match get "checkedBy" newEntryData with
                       | VArr ids => ids
                       | _ => []
                       end
                  else []) ys).
  { destruct (truthy (get "checkedBy" newEntryData)).
    - unfold array_map in Hchecked.
      destruct (get "checkedBy" newEntryData) as [| | | | | | |ids|]; try discriminate.
      apply bind_Ok in Hchecked as (ys & w5 & Hmap & Hret).
      apply mapM_new_ObjectId_Ok in Hmap as (-> & Hall).
      unfold ret in Hret. inversion Hret; subst. eauto.
    - unfold ret in Hchecked. inversion Hchecked; subst.
      exists []. repeat split. constructor. }
  destruct Hmembers as (ys & -> & -> & Hall).
  rewrite Hgroup, Hdate in *. unfold new_Date in Hdocs. rewrite Hparse in Hdocs.
  match type of Hdocs with _ = (_ ++ [?doc])%list => set (stored := doc) in * end.
  match goal with
  | Hu' : truthy (VStr groupId) = true, Hd' : truthy (VStr dateString) = true |- _ =>
      apply truthy_string in Hu', Hd';
      pose proof (falsy_nonempty _ Hu') as Hfu; pose proof (falsy_nonempty _ Hd') as Hfd
  end.
  eexists _, stored. split.
  - unfold get_group_habitEntries. rewrite Hfu, Hfd, Ev2. cbn [negb orb].
    unfold try_catch, new_ObjectId, find, bind, lift, log_op, read_collection, ret, json.
    rewrite Hg. cbn [db fst]. rewrite Hdocs, filter_app, map_id. cbn [filter].
    assert (Hlisted : on_day "groupId" (VOid g) dateString stored = true).
    { rewrite (on_day_spec _ _ _ t _ Hparse Ht). apply andb_true_iff. split.
      - unfold field_is, field, stored. cbn. now rewrite String.eqb_refl.
      - apply in_own_day. reflexivity. }
    rewrite Hlisted. reflexivity.
  - split; [exact Hdocs|]. split; [reflexivity|]. split; [reflexivity|].
    exists ys. split; [|exact Hall].
    unfold stored. cbn. now rewrite (to_bson_oids _ _ Hall).
Qed.

End Accepted.

(** ** The completion summary, where it answers *)

Section Summary.

Context {RT : Runtime}.

(** X14. The completion summary of a group that no document of the
    groups has as [_id] is answered 404 after the one lookup of the
    group. *)
Theorem completion_of_an_unknown_group_is_404
  (groupId dateString hex : string) (w : world) :
  groupId <> "" -> dateString <> "" ->
  ObjectId_isValid (VStr groupId) = true ->
  ObjectId_new (VStr groupId) = Ok hex ->
  filter (field_is ["_id"] (VOid hex)) (documents "groups" (db w)) = [] ->
  get_group_completion groupId dateString w
  = (Ok (mkResponse 404 (message "Group not found.")), logged (OpFindOne "groups") w).
Proof.
  intros Hg Hd Hvalid Hnew Hnone. unfold get_group_completion.
  rewrite (falsy_nonempty _ Hg), (falsy_nonempty _ Hd), Hvalid. cbn [orb negb].
  unfold try_catch, bind at 1. unfold new_ObjectId, bind at 1, lift. rewrite Hnew.
  unfold ret at 1. unfold bind at 1, findOne, bind at 1, log_op.
  unfold bind at 1, read_collection, ret at 1. cbn [db]. rewrite Hnone.
  reflexivity.
Qed.


Lemma toString_Ok v w s w' : toString v w = (Ok s, w') -> s = text v /\ w' = w.
Proof.
  destruct v; cbn; unfold ret, throw; intros H; inversion H; auto.
Qed.





(** The loop gives [userCompletionCounts] no key of its own under an
    inherited name. *)
Lemma record_completion_keys acc e w counts w' :
  record_completion acc e w = (Ok counts, w') ->
  (forall k, inherited k = true -> acc !! k = None) ->
  forall k, inherited k = true -> counts !! k = None.
Proof.
  unfold record_completion. intros H Hacc k Hk.
  apply bind_Ok in H as (u & w1 & _ & H).
  apply bind_Ok in H as (h & w2 & _ & H).
  assert (Hne : counts = <[u := seen_by acc u ∪ {[h]}]> acc /\ u <> k).
  { unfold seen_by. destruct (acc !! u) as [seen|] eqn:Hown.
    - unfold ret in H. inversion H; subst. split; [reflexivity|].
      intros ->. rewrite (Hacc k Hk) in Hown. discriminate.
    - destruct (inherited u) eqn:Hu; [unfold throw in H; discriminate|].
      unfold ret in H. inversion H; subst. split; [reflexivity|].
      intros ->. congruence. }
  destruct Hne as (-> & Hne). rewrite lookup_insert_ne by exact Hne. now apply Hacc.
Qed.

Lemma forEach_record_completion_keys entries :
  forall acc w counts w',
  forEach record_completion acc entries w = (Ok counts, w') ->
  (forall k, inherited k = true -> acc !! k = None) ->
  forall k, inherited k = true -> counts !! k = None.
Proof.
  induction entries as [|e entries IH]; intros acc w counts w' H Hacc.
  - cbn in H. unfold ret in H. inversion H; subst. exact Hacc.
  - cbn [forEach] in H. apply bind_Ok in H as (acc' & w1 & H1 & H).
    exact (IH _ _ _ _ H (record_completion_keys _ _ _ _ _ H1 Hacc)).
Qed.

Lemma mapM_Ok_Forall2 {A B} (f : A -> M B) (R : A -> B -> Prop) :
  (forall x w y w', f x w = (Ok y, w') -> w' = w /\ R x y) ->
  forall l w ys w', mapM f l w = (Ok ys, w') -> w' = w /\ Forall2 R l ys.
Proof.
  intros Hf. induction l as [|x l IH]; cbn; intros w ys w' H.
  - unfold ret in H. inversion H; subst. split; [reflexivity | constructor].
  - apply bind_Ok in H as (y & w1 & H1 & H).
    apply Hf in H1 as (-> & Hy).
    apply bind_Ok in H as (ys' & w2 & H1 & H).
    apply IH in H1 as (-> & Hall).
    unfold ret in H. inversion H; subst.
    split; [reflexivity | now constructor].
Qed.

Lemma assoc_remove_same k fs : assoc k (remove_assoc k fs) = None.
Proof.
  induction fs as [|[k0 v0] fs IH]; cbn; [reflexivity|].
  destruct (String.eqb k k0) eqn:E; cbn; [exact IH | now rewrite E].
Qed.

Lemma has_key_without k doc : has_key k (without k doc) = false.
Proof. destruct doc; cbn; try reflexivity. now rewrite assoc_remove_same. Qed.

Lemma get_without_other k k' doc : k <> k' -> get k (without k' doc) = get k doc.
Proof. intros Hne. destruct doc; cbn; try reflexivity. now rewrite assoc_remove_other. Qed.

(** What the callback of [members.map] returns for a member. *)
Lemma with_completion_Ok counts total member w out w' :
  with_completion counts total member w = (Ok out, w') ->
  w' = w
  /\ has_key "password" out = has_key "password" member
  /\ get "_id" out = get "_id" member
  /\ get "totalGroupHabits" out = VNum total
  /\ get "completedGroupHabits" out
     = match counts !! text (get "_id" member) with
       | Some s => VNum (Z.of_nat (size s))
       | None => if inherited (text (get "_id" member)) then VUndef else VNum 0
       end.
Proof.
  unfold with_completion. intros H.
  apply bind_Ok in H as (s & w1 & H1 & H).
  apply toString_Ok in H1 as (-> & ->).
  unfold ret in H. inversion H; subst; clear H.
  split; [reflexivity|].
  unfold spread_with; cbn [fold_left fst snd get has_key].
  rewrite !assoc_set_same, !(assoc_set_other "password"), !(assoc_set_other "_id"),
    (assoc_set_other "completedGroupHabits"), assoc_set_same by discriminate.
  repeat split; destruct member; reflexivity.
Qed.

(** X15. When the completion summary answers 200, its body has one
    element for each user whose [_id] is among the [memberIds] of the
    group, in stored order; each element has the user's [_id], no
    [password], the number of habits assigned to the group as
    [totalGroupHabits], and a count that is not negative; for a user whose
    [_id] reads as a name that a plain object inherits, there is
    [undefined] in the place of the count. *)
Theorem completion_summary_lists_the_members
  (groupId dateString : string) (w w' : world) (r : response) :
  get_group_completion groupId dateString w = (Ok r, w') ->
  status r = 200 ->
  exists hex group ids members,
    ObjectId_new (VStr groupId) = Ok hex
    /\ In group (documents "groups" (db w))
    /\ field_is ["_id"] (VOid hex) group = true
    /\ get "memberIds" group = VArr ids
    /\ body r = VArr members
    /\ Forall2
         (fun user m =>
            has_key "password" m = false
            /\ get "_id" m = get "_id" user
            /\ get "totalGroupHabits" m
               = VNum (Z.of_nat (length (filter (assigned_to_group (VOid hex))
                                                (documents "habits" (db w)))))
            /\ if inherited (text (get "_id" user))
               then get "completedGroupHabits" m = VUndef
               else exists n, get "completedGroupHabits" m = VNum n /\ 0 <= n)
         (filter (field_in ["_id"] ids) (documents "users" (db w)))
         members.
Proof.
  unfold get_group_completion. intros H Hs.
  destruct (_ || _) in H; [json_status H|].
  apply try_catch_Ok in H as [H | (e & w1 & _ & H)];
    [|unfold date_catch in H; destruct (is_range_or_type_error e); json_status H].
  destruct (negb _) in H; [json_status H|].
  apply bind_Ok in H as (oid & w1 & H1 & H).
  apply new_ObjectId_Ok in H1 as (hex & Hhex & -> & ->).
  apply bind_Ok in H as (group & w1 & Hgroup & H).
  unfold findOne in Hgroup.
  apply bind_Ok in Hgroup as ([] & w2 & Hlog & Hgroup).
  apply bind_Ok in Hgroup as (groups & w3 & Hread & Hgroup).
  unfold log_op in Hlog. inversion Hlog; subst w2; clear Hlog.
  unfold read_collection in Hread. inversion Hread; subst; clear Hread. cbn [db] in *.
  unfold ret in Hgroup. inversion Hgroup; subst; clear Hgroup.
  destruct (filter (field_is ["_id"] (VOid hex)) (documents "groups" (db w)))
    as [|g rest] eqn:Hfound; [json_status H|].
  unfold id in H.
  destruct (falsy g) in H; [json_status H|].
  assert (Hin : In g (filter (field_is ["_id"] (VOid hex)) (documents "groups" (db w))))
    by (rewrite Hfound; now left).
  apply filter_In in Hin as (Hin & Hmatch).
  apply bind_Ok in H as ([] & w2 & Hlog & H).
  unfold log_op in Hlog. inversion Hlog; subst w2; clear Hlog.
  apply bind_Ok in H as (isMember & w2 & Hids & H).
  unfold in_ids in Hids.
  destruct (get "memberIds" g) as [| | | | | | |ids|] eqn:Hmembers; try discriminate.
  unfold ret in Hids. inversion Hids; subst; clear Hids.
  apply bind_Ok in H as (allUsers & w2 & Hread & H).
  unfold read_collection in Hread. inversion Hread; subst; clear Hread. cbn [db] in *.
  apply bind_Ok in H as (groupHabits & w2 & Hhabits & H).
  unfold find in Hhabits.
  apply bind_Ok in Hhabits as ([] & w3 & Hlog & Hhabits).
  unfold log_op in Hlog. inversion Hlog; subst w3; clear Hlog.
  apply bind_Ok in Hhabits as (habits & w3 & Hread & Hhabits).
  unfold read_collection in Hread. inversion Hread; subst; clear Hread. cbn [db] in *.
  unfold ret in Hhabits. inversion Hhabits; subst; clear Hhabits.
  rewrite map_id in H.
  apply bind_Ok in H as (completedEntries & w2 & _ & H).
  apply bind_Ok in H as (counts & w3 & Hloop & H).
  apply bind_Ok in H as (membersWithCompletion & w4 & Hmap & H).
  apply json_Ok in H as [-> ->].
  apply (mapM_Ok_Forall2 _ _ (with_completion_Ok counts _)) in Hmap as (_ & Hall).
  pose proof (forEach_record_completion_keys _ _ _ _ _ Hloop (fun k _ => lookup_empty k))
    as Hkeys.
  exists hex, g, ids, membersWithCompletion.
  repeat split; try assumption.
  clear - Hall Hkeys.
  remember (map (without "password") (filter (field_in ["_id"] ids) (documents "users" (db w))))
    as members eqn:Hm.
  revert Hm. generalize (filter (field_in ["_id"] ids) (documents "users" (db w))).
  induction Hall as [|member out members outs (Hpw & Hid & Htotal & Hn) _ IH];
    intros [|user users] Hm; try discriminate; [constructor|].
  cbn in Hm. injection Hm as -> ->.
  constructor; [|now apply IH].
  rewrite Hpw, has_key_without, Hid, get_without_other by discriminate.
  repeat split; try assumption.
  rewrite Hn, get_without_other by discriminate.
  destruct (inherited (text (get "_id" user))) eqn:Hown.
  - now rewrite (Hkeys _ Hown).
  - destruct (counts !! text (get "_id" user)); eexists; (split; [reflexivity | lia]).
Qed.

End Summary.

(** ** The creation date of an account *)

Section Account.

Context {RT : Runtime}.

Lemma field_is_object k v doc :
  field_is [k] v doc = true -> present v = true -> exists fs, doc = VObj fs.
Proof.
  unfold field_is, field. cbn [get_path].
  destruct doc; eauto; cbn; rewrite orb_false_r;
    intros H%value_eqb_null_l; subst; discriminate.
Qed.

Lemma get_only k fs : get k (only k (VObj fs)) = get k (VObj fs).
Proof.
  cbn. induction fs as [|[k0 v0] fs IH]; cbn; [reflexivity|].
  destruct (String.eqb_spec k k0) as [->|Hne].
  - rewrite String.eqb_refl, orb_true_r. cbn. now rewrite String.eqb_refl.
  - destruct (String.eqb_spec k0 k); [congruence|]. rewrite orb_false_r.
    destruct (String.eqb k0 "_id"); cbn; [|exact IH].
    destruct (String.eqb_spec k k0); [congruence | exact IH].
Qed.

(** X17. The creation-date route answers 200 with an object of the one
    field [createdAt] of the first user with the identifier, and 404
    where there is none. *)
Theorem account_creation_date_and_nothing_else (userId hex : string) (w : world) :
  userId <> "" ->
  ObjectId_isValid (VStr userId) = true ->
  ObjectId_new (VStr userId) = Ok hex ->
  fst (get_user_createdAt userId w)
  = Ok (match filter (field_is ["_id"] (VOid hex)) (documents "users" (db w)) with
        | user :: _ => mkResponse 200 (VObj [("createdAt", get "createdAt" user)])
        | [] => mkResponse 404 (message "User not found.")
        end).
Proof.
  intros Hne Hvalid Hnew. unfold get_user_createdAt.
  rewrite (falsy_nonempty _ Hne), Hvalid. cbn [negb].
  unfold try_catch, new_ObjectId, findOne, bind, lift, log_op, read_collection, ret, json.
  rewrite Hnew. cbn [db fst].
  destruct (filter (field_is ["_id"] (VOid hex)) (documents "users" (db w)))
    as [|user rest] eqn:Hfound; [reflexivity|].
  assert (Hin : In user (filter (field_is ["_id"] (VOid hex)) (documents "users" (db w))))
    by (rewrite Hfound; now left).
  apply filter_In in Hin as (_ & Hmatch).
  destruct (field_is_object _ _ _ Hmatch eq_refl) as (fs & ->).
  cbn [only truthy]. unfold object, spread_with. cbn [fold_left spread fst snd set_assoc].
  change (VObj (filter (fun kv => String.eqb (fst kv) "_id" || String.eqb (fst kv) "createdAt") fs))
    with (only "createdAt" (VObj fs)).
  now rewrite get_only.
Qed.

End Account.

(** ** The session routes *)

Section SessionRoutes.

Context {RT : Runtime} {TV : TokenVerifier}.

Lemma split_without_separator sep s : mentions sep s = false -> split sep s = [s].
Proof.
  induction s as [|c s IH]; cbn; [reflexivity|].
  intros [Hc Hs]%orb_false_iff. rewrite Hc, (IH Hs). reflexivity.
Qed.

(** X18. A request without an [Authorization] header, or with one that
    has no space, is answered 401; no token is verified and the store is
    not asked. *)
Theorem request_without_bearer_token_is_401 (authHeader : option string) (w : world) :
  (authHeader = None
   \/ exists s, authHeader = Some s /\ s <> "" /\ mentions " " s = false) ->
  get_auth_status authHeader w = (Ok (mkResponse 401 (VStr "Unauthorized")), w).
Proof.
  intros [-> | (s & -> & Hne & Hspace)]; [reflexivity|].
  unfold get_auth_status, bearer_token.
  assert (Ht : truthy (VStr s) = true).
  { cbn. destruct (String.eqb_spec s ""); [contradiction | reflexivity]. }
  rewrite Ht, (split_without_separator _ _ Hspace). reflexivity.
Qed.

(** Closes a case that ends with a status other than 200. *)
Ltac other_status :=
  eexists _, _; split; [reflexivity|]; cbn;
  split; [auto 10|]; split; [reflexivity|];
  split; [first [ intros _; reflexivity | intros [H|H]; discriminate H ]|];
  intros H; discriminate H.

(** X19. The status route always answers, with 200, 401, 403, 404 or 500,
    and changes no collection; with 401 or 403 it has issued no store
    operation; with 200 the body flags the session as authenticated and
    carries the user the verified token names, without the [password]. *)
Theorem auth_status_keeps_the_store_and_the_password
  (authHeader : option string) (w : world) :
  exists r w',
    get_auth_status authHeader w = (Ok r, w')
    /\ In (status r) [200; 401; 403; 404; 500]
    /\ db w' = db w
    /\ (status r = 401 \/ status r = 403 -> w' = w)
    /\ (status r = 200 ->
        get "isAuthenticated" (body r) = VBool true
        /\ has_key "password" (get "user" (body r)) = false
        /\ exists payload hex user,
             jwt_verify (bearer_token authHeader) jwtSecret = Ok payload
             /\ ObjectId_new (get "id" payload) = Ok hex
             /\ In user (documents "users" (db w))
             /\ field_is ["_id"] (VOid hex) user = true
             /\ get "user" (body r) = without "password" user).
Proof.
  unfold get_auth_status.
  destruct (bearer_token authHeader) eqn:Htoken; try solve [other_status].
  all: destruct (jwt_verify _ jwtSecret) as [payload|err] eqn:Hverify;
    try solve [other_status].
  all: unfold try_catch, prop, new_ObjectId, findOne, bind, lift, log_op, read_collection,
         ret, throw, json, sendStatus.
  all: destruct payload eqn:Hpayload; try solve [other_status].
  all: match goal with
       | |- context [ObjectId_new ?v] => destruct (ObjectId_new v) as [oid|e] eqn:Hnew
       end; try solve [other_status].
  all: cbn [db];
    destruct (filter (field_is ["_id"] (VOid oid)) (documents "users" (db w)))
      as [|user rest] eqn:Hfound; try solve [other_status].
  all: assert (Hin : In user (filter (field_is ["_id"] (VOid oid)) (documents "users" (db w))))
      by (rewrite Hfound; now left);
    apply filter_In in Hin as (Hin & Hmatch);
    destruct (field_is_object _ _ _ Hmatch eq_refl) as (fs & ->);
    eexists _, _; (split; [reflexivity|]); cbn;
    (split; [tauto|]); (split; [reflexivity|]);
    (split; [intros [H|H]; discriminate|]);
    intros _; (split; [reflexivity|]);
    (split; [now rewrite assoc_remove_same|]);
    eexists _, oid, (VObj fs); repeat split; eassumption.
Qed.

End SessionRoutes.

(** ** The date of an entry *)

Section EntryDate.

Context {RT : Runtime}.


End EntryDate.

(** ** The first version of the server *)

Section FirstVersion.

Context {RT : Runtime}.

(** X21. In [server.js] the signup route answers 400 or 500 and leaves
    the world as it was: [bcrypt] is not bound in that file, so a complete
    payload ends in the [catch] with the message of the reference
    error. *)
Theorem first_version_signup_never_stores (newUserData : value) (w : world) :
  exists r,
    ServerJs.post_users newUserData w = (Ok r, w)
    /\ (status r = 400
        \/ r = mkResponse 500
                 (VObj [("message", VStr "Failed to create user.");
                        ("error", VStr "bcrypt is not defined")])).
Proof.
  unfold ServerJs.post_users. destruct (_ || _).
  - eexists. split; [reflexivity|]. now left.
  - eexists. split; [reflexivity|]. now right.
Qed.

Lemma get_to_bson_object k fs :
  get k (to_bson (VObj fs))
  = match assoc k fs with
    | Some v => to_bson v
    | None => VUndef
    end.
Proof. cbn. rewrite assoc_to_bson. now destruct (assoc k fs). Qed.

(** X22. In [server.js] an accepted habit is stored as it was sent, under
    the server's [createdAt]: every other field but [_id], [createdBy]
    included, has the value of the payload. *)
Theorem first_version_habit_is_stored_as_sent
  (newHabitData : value) (w w' : world) (r : response) :
  ServerJs.post_habits newHabitData w = (Ok r, w') ->
  status r = 201 ->
  exists stored,
    documents "habits" (db w') = (documents "habits" (db w) ++ [stored])%list
    /\ get "createdAt" stored = VDate (Some (clock w))
    /\ forall k, k <> "createdAt" -> k <> "_id" ->
                 get k stored = get k (to_bson newHabitData).
Proof.
  unfold ServerJs.post_habits. intros H Hs.
  destruct (_ || _) eqn:E in H; [json_status H|]. passed E.
  apply bind_Ok in H as (createdAt & w1 & H1 & H).
  apply Date_now_Ok in H1 as (-> & ->).
  apply try_catch_Ok in H as [H | (e & w1 & _ & H)]; [|json_status H].
  apply bind_Ok in H as (inserted & w1 & H1 & H).
  apply json_Ok in H as [-> ->].
  apply insertOne_Ok in H1 as (Hdocs & Hdoc & _).
  destruct newHabitData as [| | | | | | | |fs]; try discriminate.
  exists (to_bson inserted). split; [exact Hdocs|].
  unfold spread_with in Hdoc. cbn [fold_left spread fst snd] in Hdoc.
  split.
  - destruct Hdoc as [-> | ->]; cbn [assign]; rewrite get_to_bson_object;
      rewrite ?(assoc_set_other "createdAt" "_id") by discriminate;
      now rewrite assoc_set_same.
  - intros k Hk1 Hk2.
    destruct Hdoc as [-> | ->]; cbn [assign]; rewrite !get_to_bson_object;
      now rewrite !assoc_set_other by congruence.
Qed.

End FirstVersion.

(** ** The further properties at concrete inputs *)

Lemma read_routes_never_write_witness :
  db (snd (handle (GetById MostLoggedHabit alice) tiedHabits)) = db tiedHabits.
Proof.
  apply (read_routes_never_write (GetById MostLoggedHabit alice) tiedHabits).
  reflexivity.
Defined.

Lemma write_routes_append_one_document_or_nothing_witness :
  (status (answer (handle (PostHabits habit_payload) emptyWorld)) = 201
   /\ exists doc,
        db (snd (handle (PostHabits habit_payload) emptyWorld))
        = <["habits" := (documents "habits" (db emptyWorld) ++ [doc])%list]> (db emptyWorld))
  \/ (status (answer (handle (PostHabits habit_payload) emptyWorld)) <> 201
      /\ db (snd (handle (PostHabits habit_payload) emptyWorld)) = db emptyWorld).
Proof.
  apply (write_routes_append_one_document_or_nothing (PostHabits habit_payload) emptyWorld
           (snd (handle (PostHabits habit_payload) emptyWorld))
           (answer (handle (PostHabits habit_payload) emptyWorld)));
    vm_compute; reflexivity.
Defined.

Lemma missing_field_is_answered_400_witness :
  exists b,
    handle (PostGroups (VObj [("name", VStr "runners")])) emptyWorld
    = (Ok (mkResponse 400 b), emptyWorld).
Proof.
  apply (missing_field_is_answered_400 (PostGroups (VObj [("name", VStr "runners")]))
           "ownerId" emptyWorld).
  - reflexivity.
  - right. left. reflexivity.
  - reflexivity.
Defined.


Lemma refused_checkedBy_member_is_answered_400_witness :
  exists b,
    post_groupHabitEntries
      (VObj [("habitId", VStr running); ("groupId", VStr team);
             ("date", VStr "2024-05-01");
             ("checkedBy", VArr [VStr alice; VStr "nobody"])]) emptyWorld
    = (Ok (mkResponse 400 b), emptyWorld).
Proof.
  apply (refused_checkedBy_member_is_answered_400
           (VObj [("habitId", VStr running); ("groupId", VStr team);
                  ("date", VStr "2024-05-01");
                  ("checkedBy", VArr [VStr alice; VStr "nobody"])])
           [VStr alice; VStr "nobody"] (VStr "nobody") emptyWorld).
  - reflexivity.
  - right. left. reflexivity.
  - reflexivity.
Defined.

Lemma signup_then_login_succeeds_witness :
  fst (post_login login_payload oneUser)
  = Ok (mkResponse 200
          (VObj [("message", VStr "Login successful!");
                 ("token", VStr "jwt.f00000000000000000000001.1h")])).
Proof.
  assert (Hlaw : forall h,
             bcrypt_hash (get "password" signup_payload)
                         (bcrypt_genSalt 10 (counter emptyWorld)) = Ok h ->
             bcrypt_compare (get "password" signup_payload) (VStr h) = Ok true).
  { intros h Hh. vm_compute in Hh. injection Hh as <-. reflexivity. }
  assert (Hrun : post_users signup_payload emptyWorld
                 = (Ok (answer (post_users signup_payload emptyWorld)), oneUser)).
  { vm_compute. reflexivity. }
  pose proof (signup_then_login_succeeds signup_payload login_payload "a@x.com"
                emptyWorld oneUser (answer (post_users signup_payload emptyWorld))
                Hlaw eq_refl eq_refl eq_refl eq_refl Hrun eq_refl) as Hlogin.
  rewrite Hlogin. vm_compute. reflexivity.
Defined.

Lemma rejected_signup_is_answered_409_or_500_witness :
  fst (post_users signup_payload oneUser)
  = Ok (mkResponse 409 (message "User with that email or username already exists."))
  /\ db (snd (post_users signup_payload oneUser)) = db oneUser.
Proof.
  apply (rejected_signup_is_answered_409_or_500 signup_payload oneUser
           "$2a$10$00000002p" (MongoServerError 11000 "E11000 duplicate key error"));
    vm_compute; reflexivity.
Defined.

Lemma new_group_is_listed_for_each_member_witness :
  exists earlier stored,
    fst (get_user_groups alice (snd (post_groups group_payload emptyWorld)))
    = Ok (mkResponse 200 (VArr (earlier ++ [stored])))
    /\ get "_id" stored = get "insertedId" (body (answer (post_groups group_payload emptyWorld)))
    /\ get "name" stored = to_bson (get "name" group_payload).
Proof.
  apply (new_group_is_listed_for_each_member group_payload alice emptyWorld
           (snd (post_groups group_payload emptyWorld))
           (answer (post_groups group_payload emptyWorld))).
  - discriminate.
  - left. reflexivity.
  - vm_compute. reflexivity.
  - reflexivity.
Defined.

Lemma new_habit_is_listed_for_its_creator_witness :
  exists earlier stored,
    fst (get_user_habits alice (snd (post_habits habit_payload emptyWorld)))
    = Ok (mkResponse 200 (VArr (earlier ++ [stored])))
    /\ documents "habits" (db (snd (post_habits habit_payload emptyWorld)))
       = (documents "habits" (db emptyWorld) ++ [stored])%list
    /\ get "title" stored = to_bson (get "title" habit_payload).
Proof.
  apply (new_habit_is_listed_for_its_creator habit_payload alice emptyWorld
           (snd (post_habits habit_payload emptyWorld))
           (answer (post_habits habit_payload emptyWorld)));
    vm_compute; reflexivity.
Defined.

Lemma new_group_habit_is_listed_for_its_group_witness :
  exists earlier stored,
    fst (get_group_habits team (snd (post_habits team_habit_payload emptyWorld)))
    = Ok (mkResponse 200 (VArr (earlier ++ [stored])))
    /\ documents "habits" (db (snd (post_habits team_habit_payload emptyWorld)))
       = (documents "habits" (db emptyWorld) ++ [stored])%list
    /\ get "title" stored = to_bson (get "title" team_habit_payload).
Proof.
  apply (new_group_habit_is_listed_for_its_group team_habit_payload team emptyWorld
           (snd (post_habits team_habit_payload emptyWorld))
           (answer (post_habits team_habit_payload emptyWorld)));
    vm_compute; reflexivity.
Defined.

Lemma logged_entry_is_listed_on_its_day_witness :
  exists earlier stored,
    fst (get_user_habitEntries alice "2024-05-01" danglingEntry)
    = Ok (mkResponse 200 (VArr (earlier ++ [stored])))
    /\ documents "userHabitEntries" (db danglingEntry)
       = (documents "userHabitEntries" (db emptyWorld) ++ [stored])%list
    /\ get "_id" stored
       = get "insertedId" (body (answer (post_userHabitEntries dangling_payload emptyWorld)))
    /\ get "date" stored = VDate (Some (19844 * msPerDay))
    /\ get "status" stored = to_bson (get "status" dangling_payload).
Proof.
  apply (logged_entry_is_listed_on_its_day dangling_payload alice "2024-05-01"
           (19844 * msPerDay) emptyWorld danglingEntry
           (answer (post_userHabitEntries dangling_payload emptyWorld)));
    try (vm_compute; reflexivity).
  vm_compute. split; [intros [=] | reflexivity].
Defined.

Lemma confirmed_group_entry_is_listed_on_its_day_witness :
  exists earlier stored,
    fst (get_group_habitEntries team "2024-05-01"
           (snd (post_groupHabitEntries team_entry_payload emptyWorld)))
    = Ok (mkResponse 200 (VArr (earlier ++ [stored])))
    /\ documents "groupHabitEntries"
         (db (snd (post_groupHabitEntries team_entry_payload emptyWorld)))
       = (documents "groupHabitEntries" (db emptyWorld) ++ [stored])%list
    /\ get "_id" stored
       = get "insertedId" (body (answer (post_groupHabitEntries team_entry_payload emptyWorld)))
    /\ get "date" stored = VDate (Some (19844 * msPerDay))
    /\ exists checkedBy,
         get "checkedBy" stored = VArr checkedBy
         /\ Forall2 (fun id y => exists hex, ObjectId_new id = Ok hex /\ y = VOid hex)
                    [VStr alice] checkedBy.
Proof.
  apply (confirmed_group_entry_is_listed_on_its_day team_entry_payload team "2024-05-01"
           (19844 * msPerDay) emptyWorld
           (snd (post_groupHabitEntries team_entry_payload emptyWorld))
           (answer (post_groupHabitEntries team_entry_payload emptyWorld)));
    try (vm_compute; reflexivity).
  vm_compute. split; [intros [=] | reflexivity].
Defined.

Lemma completion_of_an_unknown_group_is_404_witness :
  get_group_completion team "2024-05-01" beforeConfirmation
  = (Ok (mkResponse 404 (message "Group not found.")),
     logged (OpFindOne "groups") beforeConfirmation).
Proof.
  apply (completion_of_an_unknown_group_is_404 team "2024-05-01" team beforeConfirmation);
    try discriminate; vm_compute; reflexivity.
Defined.

Lemma completion_summary_lists_the_members_witness :
  exists hex group ids members,
    ObjectId_new (VStr runners) = Ok hex
    /\ In group (documents "groups" (db beforeConfirmation))
    /\ field_is ["_id"] (VOid hex) group = true
    /\ get "memberIds" group = VArr ids
    /\ body (answer (get_group_completion runners "2024-05-01" beforeConfirmation))
       = VArr members
    /\ Forall2
         (fun user m =>
            has_key "password" m = false
            /\ get "_id" m = get "_id" user
            /\ get "totalGroupHabits" m
               = VNum (Z.of_nat (length (filter (assigned_to_group (VOid hex))
                                                (documents "habits" (db beforeConfirmation)))))
            /\ if inherited (text (get "_id" user))
               then get "completedGroupHabits" m = VUndef
               else exists n, get "completedGroupHabits" m = VNum n /\ 0 <= n)
         (filter (field_in ["_id"] ids) (documents "users" (db beforeConfirmation)))
         members.
Proof.
  apply (completion_summary_lists_the_members runners "2024-05-01" beforeConfirmation
           (snd (get_group_completion runners "2024-05-01" beforeConfirmation))
           (answer (get_group_completion runners "2024-05-01" beforeConfirmation)));
    vm_compute; reflexivity.
Defined.


Lemma account_creation_date_and_nothing_else_witness :
  fst (get_user_createdAt member oneUser)
  = Ok (mkResponse 200 (VObj [("createdAt", VDate (Some 1714557600000))])).
Proof.
  apply (account_creation_date_and_nothing_else member member oneUser);
    try discriminate; reflexivity.
Defined.

Lemma request_without_bearer_token_is_401_witness :
  get_auth_status (Some "Bearer") oneUser = (Ok (mkResponse 401 (VStr "Unauthorized")), oneUser).
Proof.
  apply (request_without_bearer_token_is_401 (Some "Bearer") oneUser).
  right. exists "Bearer". repeat split. discriminate.
Defined.


Lemma first_version_habit_is_stored_as_sent_witness :
  exists stored,
    documents "habits" (db (snd (ServerJs.post_habits habit_payload emptyWorld)))
    = (documents "habits" (db emptyWorld) ++ [stored])%list
    /\ get "createdAt" stored = VDate (Some (clock emptyWorld))
    /\ forall k, k <> "createdAt" -> k <> "_id" ->
                 get k stored = get k (to_bson habit_payload).
Proof.
  apply (first_version_habit_is_stored_as_sent habit_payload emptyWorld
           (snd (ServerJs.post_habits habit_payload emptyWorld))
           (answer (ServerJs.post_habits habit_payload emptyWorld)));
    vm_compute; reflexivity.
Defined.

(** A session from login to status: the token of the login names the user,
    and the status route returns the user without the password. *)
Example session_round_trip :
  answer (get_auth_status (Some "Bearer jwt.f00000000000000000000001.1h") oneUser)
  = mkResponse 200
      (VObj [("isAuthenticated", VBool true);
             ("user", VObj [("username", VStr "a"); ("email", VStr "a@x.com");
                            ("createdAt", VDate (Some 1714557600000));
                            ("_id", VOid member)])]).
Proof. vm_compute. reflexivity. Qed.

(** A token that does not verify, and a header of two spaces, whose second
    piece is the empty string. *)
Example unverified_token_is_403 :
  get_auth_status (Some "Bearer forged") oneUser
  = (Ok (mkResponse 403 (VStr "Forbidden")), oneUser)
  /\ get_auth_status (Some "Bearer  jwt.f00000000000000000000001.1h") oneUser
     = (Ok (mkResponse 403 (VStr "Forbidden")), oneUser).
Proof. split; vm_compute; reflexivity. Qed.
